(** * mycertiq_demo: the CME question pipeline

    A shallow embedding of [app/services/cme_query.py] (run_cme_query) and
    [app/services/physician_profile.py] (build_effective_physician_profile),
    with the request and response schemas of [app/schemas/ask_cme.py] and the
    columns of [app/models/cme_event.py] that the pipeline reads.

    Conventions of the embedding.
    - Python [int] is [Z]; [Optional[T]] is [option T]; a [dict] whose
      iteration order is observed (cme_map) is an association list in
      insertion order.
    - The rank scores are Python floats that only ever hold integers
      ([float(total_chunks - idx)] and sums of those), so they are [Z]; the
      credit counts and the normalised score are rationals ([Q]), the exact
      values that the float operations round.
    - [str] is the [string] of its UTF-8 bytes. [strip] removes every
      character for which [str.isspace()] holds, the ones outside ASCII
      included; [lower] lowers the letters A-Z and leaves every other byte as
      it is.
    - The three collaborators (vector search over HTTP, the relational store,
      the language model) are the fields of a [World]; every call to one of
      them is recorded in the trace of the monad [M]. *)

From Stdlib Require Import List ZArith QArith Bool String Ascii Lia.
From Stdlib Require Import Permutation Sorted DecimalString.
Import ListNotations.

Local Open Scope string_scope.
Local Open Scope list_scope.
Local Open Scope Z_scope.

(* ------------------------------------------------------------------------- *)
(** ** Python built-ins used by the pipeline *)
(* ------------------------------------------------------------------------- *)

Module Py.

(** The whitespace characters of one byte: TAB, LF, VT, FF, CR, FS, GS, RS,
    US and SPACE. *)
Definition is_space (c : ascii) : bool :=
  let n := N_of_ascii c in
  (((9 <=? n) && (n <=? 13)) || ((28 <=? n) && (n <=? 32)))%N.

Definition byte_is (n : N) (c : ascii) : bool := (N_of_ascii c =? n)%N.

Definition byte_in (lo hi : N) (c : ascii) : bool :=
  ((lo <=? N_of_ascii c) && (N_of_ascii c <=? hi))%N.

Definition next_is (test : ascii -> bool) (s : string) : bool :=
  match s with
  | EmptyString => false
  | String c _ => test c
  end.

Definition rest (s : string) : string :=
  match s with
  | EmptyString => EmptyString
  | String _ r => r
  end.

(** The number of bytes of the whitespace character at the head of [s], and
    0 when [s] does not start with one.  The whitespace characters are those
    of [str.isspace()], which [str.strip()] removes:
    - one byte: U+0009-000D, U+001C-0020;
    - two bytes: U+0085 (C2 85), U+00A0 (C2 A0);
    - three bytes: U+1680 (E1 9A 80), U+2000-200A (E2 80 80-8A),
      U+2028, U+2029, U+202F (E2 80 A8, A9, AF), U+205F (E2 81 9F),
      U+3000 (E3 80 80). *)
Definition space_width (s : string) : nat :=
  match s with
  | EmptyString => 0
  | String c r =>
      let second test := next_is test r in
      let third test := next_is test (rest r) in
      if is_space c then 1
      else if byte_is 194 c
              && (second (byte_is 133) || second (byte_is 160)) then 2
      else if byte_is 225 c && second (byte_is 154) && third (byte_is 128)
      then 3
      else if byte_is 226 c && second (byte_is 128)
              && (third (byte_in 128 138) || third (byte_is 168)
                  || third (byte_is 169) || third (byte_is 175)) then 3
      else if byte_is 226 c && second (byte_is 129) && third (byte_is 159)
      then 3
      else if byte_is 227 c && second (byte_is 128) && third (byte_is 128)
      then 3
      else 0
  end%nat.

(** [lstrip_from skip s] drops [skip] bytes, the rest of a whitespace
    character whose first byte was just dropped, and then every leading
    whitespace character. *)
Fixpoint lstrip_from (skip : nat) (s : string) : string :=
  match s with
  | EmptyString => EmptyString
  | String c r =>
      match skip with
      | S k => lstrip_from k r
      | O =>
          match space_width (String c r) with
          | O => String c r
          | S k => lstrip_from k r
          end
      end
  end.

Definition lstrip (s : string) : string := lstrip_from 0 s.

Definition is_empty (s : string) : bool :=
  match s with EmptyString => true | String _ _ => false end.

(** [only_space s]: [s] is a sequence of whitespace characters (the empty
    sequence included). *)
Fixpoint only_space_from (skip : nat) (s : string) : bool :=
  match s with
  | EmptyString => Nat.eqb skip 0
  | String c r =>
      match skip with
      | S k => only_space_from k r
      | O =>
          match space_width (String c r) with
          | O => false
          | S k => only_space_from k r
          end
      end
  end.

Definition only_space (s : string) : bool := only_space_from 0 s.

(** [rstrip] cuts the string where what is left is whitespace only. *)
Fixpoint rstrip (s : string) : string :=
  match s with
  | EmptyString => EmptyString
  | String c r =>
      if only_space (String c r) then EmptyString else String c (rstrip r)
  end.

Definition strip (s : string) : string := rstrip (lstrip s).

(** [str.lower()] on the letters A-Z; the bytes of every other character
    are kept. *)
Definition lower_char (c : ascii) : ascii :=
  let n := N_of_ascii c in
  if ((65 <=? n) && (n <=? 90))%N then ascii_of_N (n + 32) else c.

Fixpoint lower (s : string) : string :=
  match s with
  | EmptyString => EmptyString
  | String c r => String (lower_char c) (lower r)
  end.

(** Truth value of an [Optional[str]]: [None] and [""] are falsy. *)
Definition truthy (o : option string) : bool :=
  match o with
  | None => false
  | Some s => negb (is_empty s)
  end.

(** [x or d] on an [Optional[str]]. *)
Definition or_else (o : option string) (d : string) : string :=
  if truthy o then match o with Some s => s | None => d end else d.

(** [str(n)] for an int, as used by the f-strings. *)
Definition str_of_int (n : Z) : string := NilZero.string_of_int (Z.to_int n).

(** [getattr(obj, name, default)]: [attribute] is [Some v] when the object
    has the attribute (whatever its value), [None] when it has not. *)
Definition getattr {A : Type} (attribute : option A) (default : A) : A :=
  match attribute with
  | Some v => v
  | None => default
  end.

(** [l[:stop]]. A negative [stop] counts from the end. *)
Definition slice_to {A : Type} (l : list A) (stop : Z) : list A :=
  if stop <? 0
  then firstn (Z.to_nat (Z.max 0 (Z.of_nat (List.length l) + stop))) l
  else firstn (Z.to_nat stop) l.

(** [sub in s] for strings. *)
Fixpoint contains (sub s : string) : bool :=
  if String.prefix sub s then true
  else match s with
       | EmptyString => false
       | String _ r => contains sub r
       end.

(** A [dict] with insertion order: [set] keeps the position of a key that
    is already present and appends a new key. *)
Section Dict.
Context {V : Type}.

Fixpoint get (k : Z) (d : list (Z * V)) : option V :=
  match d with
  | [] => None
  | (k', v) :: r => if k' =? k then Some v else get k r
  end.

Fixpoint set (k : Z) (v : V) (d : list (Z * V)) : list (Z * V) :=
  match d with
  | [] => [(k, v)]
  | (k', v') :: r =>
      if k' =? k then (k', v) :: r else (k', v') :: set k v r
  end.
End Dict.

End Py.

(* ------------------------------------------------------------------------- *)
(** ** Schemas and rows *)
(* ------------------------------------------------------------------------- *)

(** [AskCMERequest] of app/schemas/ask_cme.py. *)
Record AskCMERequest := {
  question : string;
  physician_id : option Z;
  specialty : option string;
  state : option string;
  preferred_format : option string;
  min_credits : option Q;
  credit_type : option string;
  travel_ok : option bool
}.

(** [CMERecommendation] of app/schemas/ask_cme.py. *)
Record CMERecommendation := {
  cme_event_id : Z;
  title : string;
  provider : option string;
  credit_hours : option Q;
  url : option string;
  score : option Q;
  rank : Z;
  reason : option string
}.

(** The columns of [CMEEvent] that the pipeline reads.  [title] is declared
    [nullable=False]; the others may be NULL. *)
Record CMEEvent := {
  ev_id : Z;
  ev_title : string;
  ev_credit_type : option string;
  ev_url : option string;
  ev_credits : option Q;
  ev_provider_name : option string;
  ev_format : option string;
  ev_audience : option string
}.

(** A chunk of the vector search response: the keys read by the pipeline. *)
Record Chunk := {
  source_id : option Z;
  chunk_text : option string
}.

(** Rows returned by the three profile queries. *)
Record PhysicianRow := {
  p_id : Z;
  specialty_name : option string
}.

Record PreferenceRow := {
  pref_physician_id : Z;
  travel_pref : option string;
  modality_pref : option string
}.

Record CompletedRow := {
  c_physician_id : Z;
  c_cme_event_id : option Z
}.

(** The dict built by build_effective_physician_profile. *)
Record Profile := {
  pr_physician_id : option Z;
  pr_specialty : option string;
  pr_state : option string;
  pr_preferred_format : option string;
  pr_min_credits : option Q;
  pr_credit_type : option string;
  pr_travel_ok : option bool;
  pr_missing_requirements : list string;
  pr_completed_cme_ids : list Z
}.

(** One value of cme_map: [{"score": ..., "chunks": [...]}]. *)
Record Entry := {
  e_score : Z;
  e_chunks : list Chunk
}.

Definition CmeMap := list (Z * Entry).
Definition Candidate := (Z * Entry * CMEEvent)%type.

(** What the two messages sent to the language model are rendered from.  The
    rendering itself is string formatting and is not needed below. *)
Record Prompt := {
  prompt_question : string;
  prompt_profile : Profile;
  prompt_candidates : list Candidate
}.

(* ------------------------------------------------------------------------- *)
(** ** Collaborators and effects *)
(* ------------------------------------------------------------------------- *)

(** Outcome of [http_client.post("/vector/search", ...)]. *)
Inductive HttpOutcome :=
| HttpResponse (status_code : Z) (body : list Chunk)
| HttpError.

Record World := {
  vector_search : string -> Z -> HttpOutcome;
  physician : list PhysicianRow;
  physician_preference : list PreferenceRow;
  physician_completed_cme : list CompletedRow;
  cme_event : list CMEEvent;
  (** [None]: the completion call, or reading its content, raised. *)
  llm : Prompt -> option string
}.

Inductive Call :=
| VectorSearchCall (query : string) (top_k : Z)
| PhysicianQuery (pid : Z)
| PreferenceQuery (pid : Z)
| CompletedQuery (pid : Z)
| EventQuery (ids : list Z)
| LLMCall (p : Prompt).

Inductive Exn :=
| RuntimeError
| TransportError.

Inductive Outcome (A : Type) :=
| Returned (a : A)
| Raised (e : Exn).
Arguments Returned {A} a.
Arguments Raised {A} e.

(** Computations that record their collaborator calls and may raise. *)
Definition M (A : Type) : Type := (list Call * Outcome A)%type.

Definition ret {A : Type} (a : A) : M A := ([], Returned a).
Definition raise {A : Type} (e : Exn) : M A := ([], Raised e).
Definition call (c : Call) : M unit := ([c], Returned tt).

Definition bind {A B : Type} (m : M A) (f : A -> M B) : M B :=
  match m with
  | (t, Raised e) => (t, Raised e)
  | (t, Returned a) => let (t', o) := f a in (t ++ t', o)
  end.

Notation "x <- c1 ;; c2" := (bind c1 (fun x => c2))
  (at level 61, c1 at next level, right associativity).
Notation "c1 ;;; c2" := (bind c1 (fun _ => c2))
  (at level 61, right associativity).

Definition trace {A : Type} (m : M A) : list Call := fst m.
Definition outcome {A : Type} (m : M A) : Outcome A := snd m.

(* ------------------------------------------------------------------------- *)
(** ** app/services/physician_profile.py *)
(* ------------------------------------------------------------------------- *)

Module PhysicianProfile.

(** The three read-only queries, each [db.execute(...)] one recorded call.
    [fetchone()] is the first matching row. *)
Definition fetch_physician_row (db : World) (pid : Z) : M (option PhysicianRow) :=
  call (PhysicianQuery pid) ;;;
  ret (find (fun r => p_id r =? pid) (physician db)).

Definition fetch_pref_row (db : World) (pid : Z) : M (option PreferenceRow) :=
  call (PreferenceQuery pid) ;;;
  ret (find (fun r => pref_physician_id r =? pid) (physician_preference db)).

Definition fetch_completed_rows (db : World) (pid : Z) : M (list CompletedRow) :=
  call (CompletedQuery pid) ;;;
  ret (filter (fun r => c_physician_id r =? pid) (physician_completed_cme db)).

(** Assignments [profile[key] = value]. *)
Definition set_specialty (p : Profile) (v : option string) : Profile :=
  {| pr_physician_id := pr_physician_id p; pr_specialty := v;
     pr_state := pr_state p; pr_preferred_format := pr_preferred_format p;
     pr_min_credits := pr_min_credits p; pr_credit_type := pr_credit_type p;
     pr_travel_ok := pr_travel_ok p;
     pr_missing_requirements := pr_missing_requirements p;
     pr_completed_cme_ids := pr_completed_cme_ids p |}.

Definition set_preferred_format (p : Profile) (v : option string) : Profile :=
  {| pr_physician_id := pr_physician_id p; pr_specialty := pr_specialty p;
     pr_state := pr_state p; pr_preferred_format := v;
     pr_min_credits := pr_min_credits p; pr_credit_type := pr_credit_type p;
     pr_travel_ok := pr_travel_ok p;
     pr_missing_requirements := pr_missing_requirements p;
     pr_completed_cme_ids := pr_completed_cme_ids p |}.

Definition set_travel_ok (p : Profile) (v : option bool) : Profile :=
  {| pr_physician_id := pr_physician_id p; pr_specialty := pr_specialty p;
     pr_state := pr_state p; pr_preferred_format := pr_preferred_format p;
     pr_min_credits := pr_min_credits p; pr_credit_type := pr_credit_type p;
     pr_travel_ok := v;
     pr_missing_requirements := pr_missing_requirements p;
     pr_completed_cme_ids := pr_completed_cme_ids p |}.

Definition set_missing_requirements (p : Profile) (v : list string) : Profile :=
  {| pr_physician_id := pr_physician_id p; pr_specialty := pr_specialty p;
     pr_state := pr_state p; pr_preferred_format := pr_preferred_format p;
     pr_min_credits := pr_min_credits p; pr_credit_type := pr_credit_type p;
     pr_travel_ok := pr_travel_ok p;
     pr_missing_requirements := v;
     pr_completed_cme_ids := pr_completed_cme_ids p |}.

Definition set_completed_cme_ids (p : Profile) (v : list Z) : Profile :=
  {| pr_physician_id := pr_physician_id p; pr_specialty := pr_specialty p;
     pr_state := pr_state p; pr_preferred_format := pr_preferred_format p;
     pr_min_credits := pr_min_credits p; pr_credit_type := pr_credit_type p;
     pr_travel_ok := pr_travel_ok p;
     pr_missing_requirements := pr_missing_requirements p;
     pr_completed_cme_ids := v |}.

(** [if pid:] on an [Optional[int]]. *)
Definition pid_truthy (pid : option Z) : option Z :=
  match pid with
  | Some p => if p =? 0 then None else Some p
  | None => None
  end.

(** [[int(r.cme_event_id) for r in completed_rows if r.cme_event_id is not None]] *)
Fixpoint completed_ids (rows : list CompletedRow) : list Z :=
  match rows with
  | [] => []
  | r :: rest =>
      match c_cme_event_id r with
      | Some i => i :: completed_ids rest
      | None => completed_ids rest
      end
  end.

(** [travel_pref.lower() in ("no_travel", "local_only")] *)
Definition no_travel (travel_pref : string) : bool :=
  let t := Py.lower travel_pref in
  String.eqb t "no_travel" || String.eqb t "local_only".

(** The dict literal at the head of the function. *)
Definition seed_profile (request : AskCMERequest) : Profile :=
  {| pr_physician_id := physician_id request;
     pr_specialty := specialty request;
     pr_state := state request;
     pr_preferred_format := preferred_format request;
     pr_min_credits := min_credits request;
     pr_credit_type := credit_type request;
     pr_travel_ok := None;
     pr_missing_requirements := [];
     pr_completed_cme_ids := [] |}.

(** 1) [if physician_row: ...]: the stored specialty fills an unset one. *)
Definition fill_specialty (profile : Profile) (physician_row : option PhysicianRow)
  : Profile :=
  match physician_row with
  | Some row =>
      if negb (Py.truthy (pr_specialty profile)) && Py.truthy (specialty_name row)
      then set_specialty profile (specialty_name row)
      else profile
  | None => profile
  end.

(** 2) [if pref_row: ...]: modality and travel preference. *)
Definition fill_preferences (profile : Profile) (pref_row : option PreferenceRow)
  : Profile :=
  match pref_row with
  | Some row =>
      let profile :=
        if negb (Py.truthy (pr_preferred_format profile))
           && Py.truthy (modality_pref row)
        then set_preferred_format profile (modality_pref row)
        else profile in
      let travel_pref := Py.or_else (travel_pref row) "" in
      if no_travel travel_pref
      then set_travel_ok profile (Some false)
      else set_travel_ok profile (Some true)
  | None => profile
  end.

(** 5) normalised format and the default of travel_ok. *)
Definition apply_defaults (profile : Profile) : Profile :=
  let profile :=
    match pr_preferred_format profile with
    | Some f =>
        if Py.truthy (Some f)
        then set_preferred_format profile (Some (Py.lower (Py.strip f)))
        else profile
    | None => profile
    end in
  match pr_travel_ok profile with
  | None => set_travel_ok profile (Some true)
  | Some _ => profile
  end.

Definition build_effective_physician_profile
    (db : World) (request : AskCMERequest) : M Profile :=
  let profile := seed_profile request in
  profile <-
    match pid_truthy (physician_id request) with
    | Some pid =>
        (* 1) core physician row + primary specialty *)
        physician_row <- fetch_physician_row db pid ;;
        let profile := fill_specialty profile physician_row in
        (* 2) physician preferences *)
        pref_row <- fetch_pref_row db pid ;;
        let profile := fill_preferences profile pref_row in
        (* 3) completed CME list *)
        completed_rows <- fetch_completed_rows db pid ;;
        let profile := set_completed_cme_ids profile (completed_ids completed_rows) in
        (* 4) missing requirements: placeholder *)
        ret (set_missing_requirements profile [])
    | None => ret profile
    end ;;
  ret (apply_defaults profile).

End PhysicianProfile.

(* ------------------------------------------------------------------------- *)
(** ** app/services/cme_query.py *)
(* ------------------------------------------------------------------------- *)

Module CmeQuery.
Import PhysicianProfile.

(** The fixed sentences. *)
Definition empty_question_answer : string :=
  "Please provide a non-empty question about what CME you are looking for.".

Definition no_match_answer : string :=
  "I couldn’t find any CME activities that match your question in the current catalog.".

Definition no_candidates_answer : string :=
  "I found CME content in the system, but none matched the filters/preferences provided.".

Definition llm_fallback_answer : string :=
  "I found CME activities matching your question, but could not "
  ++ "generate a personalized explanation at this moment. "
  ++ "Here are the recommended CME activities based on semantic relevance.".

Definition fixed_reason : string :=
  "High semantic similarity to your question and alignment with your "
  ++ "profile/preferences.".

Definition fallback_url (cme_id : Z) : string :=
  "https://mycertiq-demo.local/cme/" ++ Py.str_of_int cme_id.

Definition placeholder_title (cme_id : Z) : string :=
  "CME " ++ Py.str_of_int cme_id.

(** *** 3. Group chunks by CME event and score them *)

(** One iteration of [for idx, ch in enumerate(chunks)]. *)
Definition add_chunk (total_chunks idx : Z) (ch : Chunk) (cme_map : CmeMap) : CmeMap :=
  match source_id ch with
  | None => cme_map
  | Some cme_id =>
      let score := total_chunks - idx in
      let entry :=
        match Py.get cme_id cme_map with
        | Some e => e
        | None => {| e_score := 0; e_chunks := [] |}
        end in
      Py.set cme_id
        {| e_score := e_score entry + score; e_chunks := e_chunks entry ++ [ch] |}
        cme_map
  end.

Fixpoint group_chunks (total_chunks idx : Z) (chunks : list Chunk) (cme_map : CmeMap)
  : CmeMap :=
  match chunks with
  | [] => cme_map
  | ch :: rest =>
      group_chunks total_chunks (idx + 1) rest (add_chunk total_chunks idx ch cme_map)
  end.

Definition build_cme_map (chunks : list Chunk) : CmeMap :=
  group_chunks (Z.of_nat (List.length chunks)) 0 chunks [].

(** [sorted(cme_map.items(), key=score, reverse=True)]: a stable sort, so
    entities with equal scores keep their insertion order. *)
Fixpoint insert_desc (x : Z * Entry) (l : list (Z * Entry)) : list (Z * Entry) :=
  match l with
  | [] => [x]
  | y :: r =>
      if e_score (snd x) <? e_score (snd y)
      then y :: insert_desc x r
      else x :: l
  end.

Definition sorted_events (cme_map : CmeMap) : list (Z * Entry) :=
  fold_right insert_desc [] cme_map.

Definition candidate_ids (sorted : list (Z * Entry)) : list Z := map fst sorted.

(** *** 4. Load CME metadata *)

Definition query_events (db : World) (ids : list Z) : M (list CMEEvent) :=
  call (EventQuery ids) ;;;
  ret (filter (fun e => existsb (Z.eqb (ev_id e)) ids) (cme_event db)).

(** [{int(e.id): e for e in events}] *)
Definition events_by_id (events : list CMEEvent) : list (Z * CMEEvent) :=
  fold_left (fun d e => Py.set (ev_id e) e d) events [].

(** *** 5. Personalization filters *)

Definition _eligible
    (completed_cme_ids : list Z) (min_credits : option Q)
    (preferred_format credit_type_pref : option string) (ev : CMEEvent) : bool :=
  if existsb (Z.eqb (ev_id ev)) completed_cme_ids then false
  else if
    match min_credits with
    | Some mc =>
        let ev_credits :=
          match ev_credits ev with
          | Some c => if Qeq_bool c 0 then 0%Q else c
          | None => 0%Q
          end in
        negb (Qle_bool mc ev_credits)
    | None => false
    end
  then false
  else if
    match preferred_format with
    | Some pf =>
        if Py.truthy (Some pf) then
          let ev_fmt := Py.lower (Py.strip (Py.or_else (ev_format ev) "")) in
          negb (Py.is_empty ev_fmt) && negb (String.eqb ev_fmt pf)
        else false
    | None => false
    end
  then false
  else
    match credit_type_pref with
    | Some ct =>
        if Py.truthy (Some ct) then
          let ev_ct := Py.lower (Py.strip (Py.or_else (ev_credit_type ev) "")) in
          if negb (Py.is_empty ev_ct)
             && negb (Py.contains (Py.lower (Py.strip ct)) ev_ct)
          then true (* soft preference: pass *)
          else true
        else true
    | None => true
    end.

(** The loop [for cme_id, meta in sorted_events: ...] with its [break]. *)
Fixpoint filter_loop (eligible : CMEEvent -> bool) (by_id : list (Z * CMEEvent))
    (max_events : Z) (sorted : list (Z * Entry)) (filtered_events : list Candidate)
  : list Candidate :=
  match sorted with
  | [] => filtered_events
  | (cme_id, meta) :: rest =>
      match Py.get cme_id by_id with
      | None => filter_loop eligible by_id max_events rest filtered_events
      | Some ev =>
          if negb (eligible ev)
          then filter_loop eligible by_id max_events rest filtered_events
          else
            let filtered_events := filtered_events ++ [(cme_id, meta, ev)] in
            if Z.of_nat (List.length filtered_events) >=? max_events
            then filtered_events
            else filter_loop eligible by_id max_events rest filtered_events
      end
  end.

(** The loop of the fallback, over [sorted_events[:max_events]]. *)
Fixpoint fallback_loop (by_id : list (Z * CMEEvent)) (top : list (Z * Entry))
    (filtered_events : list Candidate) : list Candidate :=
  match top with
  | [] => filtered_events
  | (cme_id, meta) :: rest =>
      match Py.get cme_id by_id with
      | Some ev => fallback_loop by_id rest (filtered_events ++ [(cme_id, meta, ev)])
      | None => fallback_loop by_id rest filtered_events
      end
  end.

Definition is_nil {A : Type} (l : list A) : bool :=
  match l with [] => true | _ :: _ => false end.

(** *** 8. Structured recommendations *)

Definition recommendation (max_score : Z) (rank_idx : Z) (c : Candidate)
  : CMERecommendation :=
  let '(cme_id, meta, ev) := c in
  let title := Py.getattr (Some (ev_title ev)) (placeholder_title cme_id) in
  let provider_name := Py.getattr (Some (ev_provider_name ev)) None in
  let credits := Py.getattr (Some (ev_credits ev)) None in
  let raw_url := Py.getattr (Some (ev_url ev)) None in
  let rec_url := Py.or_else raw_url (fallback_url cme_id) in
  let raw_score := e_score meta in
  let norm_score :=
    if max_score =? 0 then 0%Q
    else (inject_Z raw_score / inject_Z max_score)%Q in
  {| cme_event_id := cme_id;
     title := title;
     provider := provider_name;
     credit_hours := credits;
     url := Some rec_url;
     score := Some norm_score;
     rank := rank_idx;
     reason := Some fixed_reason |}.

(** [for rank_idx, (...) in enumerate(filtered_events, start=1)] *)
Fixpoint recommendations_from (max_score : Z) (rank_idx : Z) (l : list Candidate)
  : list CMERecommendation :=
  match l with
  | [] => []
  | c :: rest =>
      recommendation max_score rank_idx c
      :: recommendations_from max_score (rank_idx + 1) rest
  end.

Definition build_recommendations (filtered_events : list Candidate)
  : list CMERecommendation :=
  let max_score :=
    match filtered_events with
    | (_, meta, _) :: _ => e_score meta
    | [] => 1
    end in
  recommendations_from max_score 1 filtered_events.

(** *** The collaborator calls *)

Definition post_vector_search (w : World) (query : string) (top_k : Z)
  : M (Z * list Chunk) :=
  call (VectorSearchCall query top_k) ;;;
  match vector_search w query top_k with
  | HttpResponse status_code body => ret (status_code, body)
  | HttpError => raise TransportError
  end.

(** The [try: ... except Exception:] around the completion call. *)
Definition generate_answer (w : World) (p : Prompt) : M string :=
  call (LLMCall p) ;;;
  match llm w p with
  | Some content => ret (Py.strip content)
  | None => ret llm_fallback_answer
  end.

(** *** The pipeline *)

Definition run_cme_query (request : AskCMERequest) (db : World)
    (vector_top_k max_events : Z) : M (string * list CMERecommendation) :=
  let question := Py.strip (question request) in
  if Py.is_empty question then ret (empty_question_answer, [])
  else
    (* 1. vector search *)
    resp <- post_vector_search db question vector_top_k ;;
    let '(status_code, chunks) := resp in
    if negb (status_code =? 200) then raise RuntimeError
    else if is_nil chunks then ret (no_match_answer, [])
    else
      (* 2. physician profile *)
      profile <- build_effective_physician_profile db request ;;
      let completed_cme_ids := pr_completed_cme_ids profile in
      let min_credits := pr_min_credits profile in
      let preferred_format :=
        option_map (fun s => Py.lower (Py.strip s)) (pr_preferred_format profile) in
      let credit_type_pref := pr_credit_type profile in
      (* 3. group and score *)
      let cme_map := build_cme_map chunks in
      let sorted_events := sorted_events cme_map in
      let candidate_ids := candidate_ids sorted_events in
      (* 4. metadata *)
      events <- query_events db candidate_ids ;;
      let events_by_id := events_by_id events in
      (* 5. filters, then the fallback *)
      let eligible :=
        _eligible completed_cme_ids min_credits preferred_format credit_type_pref in
      let filtered_events := filter_loop eligible events_by_id max_events sorted_events [] in
      let filtered_events :=
        if is_nil filtered_events
        then fallback_loop events_by_id (Py.slice_to sorted_events max_events) []
        else filtered_events in
      if is_nil filtered_events then ret (no_candidates_answer, [])
      else
        (* 6, 7. context and answer *)
        answer_text <-
          generate_answer db
            {| prompt_question := question;
               prompt_profile := profile;
               prompt_candidates := filtered_events |} ;;
        (* 8. recommendations *)
        ret (answer_text, build_recommendations filtered_events).

End CmeQuery.

(* ------------------------------------------------------------------------- *)
(** ** Vocabulary of the statements *)
(* ------------------------------------------------------------------------- *)

Module Stages.
Import PhysicianProfile CmeQuery.

(** The intermediate values of one run, as functions of what the
    collaborators returned: [chunks] is the body of the search response and
    [profile] the dict returned by build_effective_physician_profile. *)
Section Run.
Variables (db : World) (profile : Profile) (chunks : list Chunk) (max_events : Z).

Definition ranked : list (Z * Entry) := sorted_events (build_cme_map chunks).

Definition loaded_events : list CMEEvent :=
  filter (fun e => existsb (Z.eqb (ev_id e)) (candidate_ids ranked)) (cme_event db).

Definition metadata : list (Z * CMEEvent) := events_by_id loaded_events.

Definition eligible : CMEEvent -> bool :=
  _eligible (pr_completed_cme_ids profile) (pr_min_credits profile)
    (option_map (fun s => Py.lower (Py.strip s)) (pr_preferred_format profile))
    (pr_credit_type profile).

(** filtered_events at the end of the filtering loop. *)
Definition survivors : list Candidate :=
  filter_loop eligible metadata max_events ranked [].

(** filtered_events as rebuilt by the fallback. *)
Definition fallback : list Candidate :=
  fallback_loop metadata (Py.slice_to ranked max_events) [].

(** filtered_events as used from step 6 on. *)
Definition selected : list Candidate :=
  if is_nil survivors then fallback else survivors.
End Run.

(** The calls and the result of a run that got a non-empty chunk list. *)
Definition staged_run (request : AskCMERequest) (db : World) (k m : Z)
    (chunks : list Chunk) (tp : list Call) (profile : Profile)
  : M (string * list CMERecommendation) :=
  let q := Py.strip (question request) in
  let pre := VectorSearchCall q k :: tp ++ [EventQuery (candidate_ids (ranked chunks))] in
  let sel := selected db profile chunks m in
  let prompt :=
    {| prompt_question := q; prompt_profile := profile; prompt_candidates := sel |} in
  if is_nil sel then (pre, Returned (no_candidates_answer, []))
  else (pre ++ [LLMCall prompt],
        Returned (match llm db prompt with
                  | Some content => Py.strip content
                  | None => llm_fallback_answer
                  end,
                  build_recommendations sel)).

Definition recommendations_of (m : M (string * list CMERecommendation))
  : option (list CMERecommendation) :=
  match outcome m with
  | Returned (_, recs) => Some recs
  | Raised _ => None
  end.

(** The entity ids the store records as completed by physician [pid]. *)
Definition completed_in_store (db : World) (pid : Z) : list Z :=
  completed_ids (filter (fun r => c_physician_id r =? pid) (physician_completed_cme db)).

(** [enumerate(l)] *)
Definition enumerate {A : Type} (l : list A) : list (Z * A) :=
  combine (map Z.of_nat (seq 0 (List.length l))) l.

Definition owned_by (e : Z) (ch : Chunk) : bool :=
  match source_id ch with
  | Some i => i =? e
  | None => false
  end.

(** The aggregate score in the words of the specification: every chunk at
    0-based position [i] of [n] chunks is worth [n - i], and an entity gets
    the sum over the chunks it owns. *)
Definition rank_score (n i : Z) : Z := n - i.

Definition spec_aggregate_score (chunks : list Chunk) (e : Z) : Z :=
  fold_right Z.add 0
    (map (fun ic => rank_score (Z.of_nat (List.length chunks)) (fst ic))
         (filter (fun ic => owned_by e (snd ic)) (enumerate chunks))).

(** The score an entity has in cme_map, 0 when it has no entry. *)
Definition score_of (e : Z) (cme_map : CmeMap) : Z :=
  match Py.get e cme_map with
  | Some entry => e_score entry
  | None => 0
  end.

(** The chunk list of the specification's example. *)
Definition chunk_of (e : Z) : Chunk := {| source_id := Some e; chunk_text := None |}.
Definition example_chunks : list Chunk := [chunk_of 1; chunk_of 2; chunk_of 1].

Definition score_ge (x y : Z * Entry) : Prop := e_score (snd x) >= e_score (snd y).

(** [1, 2, ..., n] *)
Definition one_to (n : nat) : list Z := map Z.of_nat (seq 1 n).

Definition has_metadata (by_id : list (Z * CMEEvent)) (x : Z * Entry) : bool :=
  match Py.get (fst x) by_id with
  | Some _ => true
  | None => false
  end.

(** The candidate triple of a ranked entity, when its metadata was loaded. *)
Definition with_metadata (by_id : list (Z * CMEEvent)) (x : Z * Entry)
  : list Candidate :=
  match Py.get (fst x) by_id with
  | Some ev => [(fst x, snd x, ev)]
  | None => []
  end.

(** The aggregate score of a candidate triple: [meta["score"]]. *)
Definition raw_score (c : Candidate) : Z := e_score (snd (fst c)).

End Stages.

(* ------------------------------------------------------------------------- *)
(** ** Variations of a request and of a world *)
(* ------------------------------------------------------------------------- *)

Module Vary.

(** The same request with another credit_type. *)
Definition with_credit_type (r : AskCMERequest) (ct : option string) : AskCMERequest :=
  {| question := question r; physician_id := physician_id r;
     specialty := specialty r; state := state r;
     preferred_format := preferred_format r; min_credits := min_credits r;
     credit_type := ct; travel_ok := travel_ok r |}.

(** The same request with another travel_ok. *)
Definition with_travel_ok (r : AskCMERequest) (t : option bool) : AskCMERequest :=
  {| question := question r; physician_id := physician_id r;
     specialty := specialty r; state := state r;
     preferred_format := preferred_format r; min_credits := min_credits r;
     credit_type := credit_type r; travel_ok := t |}.

(** The same collaborators with another language model. *)
Definition with_llm (w : World) (f : Prompt -> option string) : World :=
  {| vector_search := vector_search w; physician := physician w;
     physician_preference := physician_preference w;
     physician_completed_cme := physician_completed_cme w;
     cme_event := cme_event w; llm := f |}.

Definition with_pr_credit_type (p : Profile) (ct : option string) : Profile :=
  {| pr_physician_id := pr_physician_id p; pr_specialty := pr_specialty p;
     pr_state := pr_state p; pr_preferred_format := pr_preferred_format p;
     pr_min_credits := pr_min_credits p; pr_credit_type := ct;
     pr_travel_ok := pr_travel_ok p;
     pr_missing_requirements := pr_missing_requirements p;
     pr_completed_cme_ids := pr_completed_cme_ids p |}.

End Vary.

(* ------------------------------------------------------------------------- *)
(** ** Properties in the wording of the specification *)
(* ------------------------------------------------------------------------- *)

Module Stated.
Import PhysicianProfile CmeQuery Stages.

(** "None of those entity ids ever appear in the returned recommendations",
    whichever path produced the list. *)
Definition completed_never_recommended
    (request : AskCMERequest) (db : World) (k m : Z) : Prop :=
  forall pid recs,
    physician_id request = Some pid ->
    completed_in_store db pid <> [] ->
    recommendations_of (run_cme_query request db k m) = Some recs ->
    forall r, In r recs -> ~ In (cme_event_id r) (completed_in_store db pid).

(** "The top max_events entities by raw score with metadata present". *)
Definition top_with_metadata (by_id : list (Z * CMEEvent)) (sorted : list (Z * Entry))
    (m : Z) : list (Z * Entry) :=
  firstn (Z.to_nat m) (filter (has_metadata by_id) sorted).

Definition fallback_returns_top_with_metadata
    (request : AskCMERequest) (db : World) (k m : Z) : Prop :=
  forall chunks tp profile,
    Py.is_empty (Py.strip (question request)) = false ->
    vector_search db (Py.strip (question request)) k = HttpResponse 200 chunks ->
    chunks <> [] ->
    build_effective_physician_profile db request = (tp, Returned profile) ->
    survivors db profile chunks m = [] ->
    let top := top_with_metadata (metadata db chunks) (ranked chunks) m in
    (top <> [] ->
     exists recs,
       recommendations_of (run_cme_query request db k m) = Some recs
       /\ map cme_event_id recs = map fst top)
    /\ (top = [] ->
        outcome (run_cme_query request db k m) = Returned (no_candidates_answer, [])).


End Stated.

(* ------------------------------------------------------------------------- *)
(** ** Concrete stores and requests *)
(* ------------------------------------------------------------------------- *)

Module Sample.
Import Stages.

Definition event (i : Z) (t : string) : CMEEvent :=
  {| ev_id := i; ev_title := t; ev_credit_type := None; ev_url := None;
     ev_credits := None; ev_provider_name := None; ev_format := None;
     ev_audience := None |}.

Definition ask (q : string) (pid : option Z) : AskCMERequest :=
  {| question := q; physician_id := pid; specialty := None; state := None;
     preferred_format := None; min_credits := None; credit_type := None;
     travel_ok := None |}.

(** A question of whitespace only: a space, a tab, a no-break space
    (U+00A0), an ideographic space (U+3000) and a newline, in UTF-8. *)
Definition wide_blank : string :=
  string_of_list_ascii
    (map ascii_of_N [32; 9; 194; 160; 227; 128; 128; 10]%N).

Definition store (chunks : list Chunk) (events : list CMEEvent)
    (completed : list CompletedRow) (answer : option string) : World :=
  {| vector_search := fun _ _ => HttpResponse 200 chunks;
     physician := [];
     physician_preference := [];
     physician_completed_cme := completed;
     cme_event := events;
     llm := fun _ => answer |}.

Definition done (pid e : Z) : CompletedRow :=
  {| c_physician_id := pid; c_cme_event_id := Some e |}.

(** Two entities with metadata, nothing completed. *)
Definition plain_store : World :=
  store example_chunks [event 1 "Airway management"; event 2 "Sepsis update"] []
        (Some "Consider the airway course.").

(** The only candidate is one physician 9 has completed. *)
Definition all_completed_store : World :=
  store [chunk_of 1] [event 1 "Airway management"] [done 9 1] None.

(** Entity 1 ranks first but has no metadata; entity 2 has metadata and is
    completed by physician 9. *)
Definition gap_store : World :=
  store [chunk_of 1; chunk_of 2] [event 2 "Sepsis update"] [done 9 2] None.

(** Entity 7 is stored with an empty title. *)
Definition untitled_store : World :=
  store [chunk_of 7] [event 7 ""] [] None.

(** Entity 1 is completed by physician 9, entity 2 is not. *)
Definition one_completed_store : World :=
  store example_chunks [event 1 "Airway management"; event 2 "Sepsis update"]
        [done 9 1] None.

End Sample.

Module Computed.
Import CmeQuery Stages Sample.

(** What the run on [plain_store] returns as its list. *)
Definition plain_recommendations : list CMERecommendation :=
  Eval vm_compute in
    match recommendations_of (run_cme_query (ask "sepsis" None) plain_store 24 5) with
    | Some recs => recs
    | None => []
    end.

(** The profile and the list of the run for physician 9 on
    [one_completed_store]. *)
Definition physician9_profile : Profile :=
  {| pr_physician_id := Some 9; pr_specialty := None; pr_state := None;
     pr_preferred_format := None; pr_min_credits := None;
     pr_credit_type := None; pr_travel_ok := Some true;
     pr_missing_requirements := []; pr_completed_cme_ids := [1] |}.

Definition physician9_recommendations : list CMERecommendation :=
  Eval vm_compute in
    match recommendations_of
            (run_cme_query (ask "sepsis" (Some 9)) one_completed_store 24 5) with
    | Some recs => recs
    | None => []
    end.

End Computed.

Module Failing.
Import Sample.

(** A request that sets travel_ok to false, with no physician id. *)
Definition no_travel_request : AskCMERequest :=
  Vary.with_travel_ok (ask "sepsis" None) (Some false).

(** Physician 9 stored the preference "no_travel"; the request says true. *)
Definition no_travel_store : World :=
  {| vector_search := fun _ _ => HttpResponse 200 Stages.example_chunks;
     physician := [];
     physician_preference :=
       [{| pref_physician_id := 9; travel_pref := Some "no_travel";
           modality_pref := None |}];
     physician_completed_cme := [];
     cme_event := [];
     llm := fun _ => None |}.

Definition travel_request : AskCMERequest :=
  Vary.with_travel_ok (ask "sepsis" (Some 9)) (Some true).

End Failing.

Module MoreSamples.
Import Stages Sample.

(** The search endpoint answers 503. *)
Definition unavailable_store : World :=
  {| vector_search := fun _ _ => HttpResponse 503 [];
     physician := []; physician_preference := [];
     physician_completed_cme := []; cme_event := [];
     llm := fun _ => None |}.

(** The search finds nothing. *)
Definition empty_search_store : World := store [] [event 1 "Airway management"] [] None.

Definition credited (i : Z) (t : string) (c : Q) (f : string) : CMEEvent :=
  {| ev_id := i; ev_title := t; ev_credit_type := None; ev_url := None;
     ev_credits := Some c; ev_provider_name := None; ev_format := Some f;
     ev_audience := None |}.

(** Entity 1: 1 credit, live; entity 2: 4 credits, online. *)
Definition credit_store : World :=
  store example_chunks
        [credited 1 "Airway management" 1 "Live"; credited 2 "Sepsis update" 4 " Online "]
        [] None.

(** A request for at least 2 credits, online. *)
Definition picky_request : AskCMERequest :=
  {| question := "sepsis"; physician_id := None; specialty := None; state := None;
     preferred_format := Some "ONLINE"; min_credits := Some 2%Q;
     credit_type := None; travel_ok := None |}.

Definition picky_profile : Profile :=
  {| pr_physician_id := None; pr_specialty := None; pr_state := None;
     pr_preferred_format := Some "online"; pr_min_credits := Some 2%Q;
     pr_credit_type := None; pr_travel_ok := Some true;
     pr_missing_requirements := []; pr_completed_cme_ids := [] |}.

Definition picky_recommendations : list CMERecommendation :=
  Eval vm_compute in
    match recommendations_of (CmeQuery.run_cme_query picky_request credit_store 24 5) with
    | Some recs => recs
    | None => []
    end.

(** Physician 9 is stored as an anesthesiologist who prefers online
    activities and no travel. *)
Definition anesthesia_store : World :=
  {| vector_search := fun _ _ => HttpResponse 200 example_chunks;
     physician := [{| p_id := 9; specialty_name := Some "Anesthesiology" |}];
     physician_preference :=
       [{| pref_physician_id := 9; travel_pref := Some "No_Travel";
           modality_pref := Some " Online" |}];
     physician_completed_cme := [done 9 1];
     cme_event := [event 1 "Airway management"; event 2 "Sepsis update"];
     llm := fun _ => None |}.

Definition anesthesia_profile : Profile :=
  {| pr_physician_id := Some 9; pr_specialty := Some "Anesthesiology";
     pr_state := None; pr_preferred_format := Some "online";
     pr_min_credits := None; pr_credit_type := None;
     pr_travel_ok := Some false; pr_missing_requirements := [];
     pr_completed_cme_ids := [1] |}.



Definition linked (i : Z) (t : string) (u : option string) : CMEEvent :=
  {| ev_id := i; ev_title := t; ev_credit_type := None; ev_url := u;
     ev_credits := None; ev_provider_name := None; ev_format := None;
     ev_audience := None |}.

(** Entity 1 has a stored URL, entity 2 has none and entity 3 an empty
    one. *)
Definition linked_store : World :=
  store [chunk_of 1; chunk_of 2; chunk_of 3; chunk_of 1]
        [linked 1 "Airway management" (Some "https://cme.example.org/airway");
         linked 2 "Sepsis update" None;
         linked 3 "Pain management" (Some "")]
        [] None.

Definition linked_recommendations : list CMERecommendation :=
  Eval vm_compute in
    match recommendations_of
            (CmeQuery.run_cme_query (ask "sepsis" None) linked_store 24 5) with
    | Some recs => recs
    | None => []
    end.

End MoreSamples.

(* ------------------------------------------------------------------------- *)
(** ** Order-preserving selections *)
(* ------------------------------------------------------------------------- *)

Module Order.
Import CmeQuery Stages.

(** [subseq s l]: [s] is [l] with some elements left out, order kept. *)
Inductive subseq {A : Type} : list A -> list A -> Prop :=
| subseq_nil : subseq [] []
| subseq_skip (x : A) (s l : list A) : subseq s l -> subseq s (x :: l)
| subseq_take (x : A) (s l : list A) : subseq s l -> subseq (x :: s) (x :: l).

(** The candidate triple of a ranked entity, when its metadata was loaded
    and the filter accepts it: what one iteration of the filtering loop
    appends. *)
Definition keep_eligible (elig : CMEEvent -> bool) (by_id : list (Z * CMEEvent))
    (x : Z * Entry) : list Candidate :=
  filter (fun c : Candidate => elig (snd c)) (with_metadata by_id x).

(** All candidates that have metadata and pass the filter, in rank order. *)
Definition eligible_candidates (db : World) (profile : Profile) (chunks : list Chunk)
  : list Candidate :=
  flat_map (keep_eligible (eligible profile) (metadata db chunks)) (ranked chunks).

(** [ev.credits or 0] *)
Definition credits_or_zero (credits : option Q) : Q :=
  match credits with
  | Some c => if Qeq_bool c 0 then 0%Q else c
  | None => 0%Q
  end.

(** [(ev.format or "").strip().lower()] *)
Definition normalised_format (ev : CMEEvent) : string :=
  Py.lower (Py.strip (Py.or_else (ev_format ev) "")).

(** The fields no step of the profile builder assigns. *)
Definition untouched (p : Profile)
  : option Z * option string * option Q * option string :=
  (pr_physician_id p, pr_state p, pr_min_credits p, pr_credit_type p).

Definition same_score (s : Z) (x : Z * Entry) : bool := e_score (snd x) =? s.

(** The ids of a list in order of first appearance. *)
Fixpoint first_seen (ids : list Z) : list Z :=
  match ids with
  | [] => []
  | i :: rest => i :: filter (fun j => negb (j =? i)) (first_seen rest)
  end.

(** The source ids of the chunks that have one. *)
Fixpoint source_ids (chunks : list Chunk) : list Z :=
  match chunks with
  | [] => []
  | ch :: rest =>
      match source_id ch with
      | Some i => i :: source_ids rest
      | None => source_ids rest
      end
  end.

(** The chunk list an entity has in cme_map, empty when it has no entry. *)
Definition chunks_of (e : Z) (cme_map : CmeMap) : list Chunk :=
  match Py.get e cme_map with
  | Some entry => e_chunks entry
  | None => []
  end.

Definition absent_from (keys : list Z) (j : Z) : bool :=
  negb (existsb (Z.eqb j) keys).

End Order.

(* ------------------------------------------------------------------------- *)
(** ** Vocabulary for the profile *)
(* ------------------------------------------------------------------------- *)

Module ProfileFacts.
Import PhysicianProfile.

(** Step 5 on the format: a non-empty format is trimmed and lowercased. *)
Definition normalise_format (o : option string) : option string :=
  match o with
  | Some f => if Py.is_empty f then Some f else Some (Py.lower (Py.strip f))
  | None => None
  end.

(** [a] when it is set and non-empty, else [b] when that is, else [a]. *)
Definition first_set (a b : option string) : option string :=
  if Py.truthy a then a else if Py.truthy b then b else a.

(** The stored rows of a request's physician, when the id is set and not 0. *)
Definition stored_physician (db : World) (request : AskCMERequest)
  : option PhysicianRow :=
  match pid_truthy (physician_id request) with
  | Some pid => find (fun r => p_id r =? pid) (physician db)
  | None => None
  end.

Definition stored_preference (db : World) (request : AskCMERequest)
  : option PreferenceRow :=
  match pid_truthy (physician_id request) with
  | Some pid => find (fun r => pref_physician_id r =? pid) (physician_preference db)
  | None => None
  end.

(** The profile of a request for which the store holds nothing. *)
Definition request_profile (request : AskCMERequest) : Profile :=
  {| pr_physician_id := physician_id request;
     pr_specialty := specialty request;
     pr_state := state request;
     pr_preferred_format := normalise_format (preferred_format request);
     pr_min_credits := min_credits request;
     pr_credit_type := credit_type request;
     pr_travel_ok := Some true;
     pr_missing_requirements := [];
     pr_completed_cme_ids := [] |}.

End ProfileFacts.

(* ------------------------------------------------------------------------- *)
(** ** app/api/routes/ask_cme.py and app/api/routes/vector_search.py *)
(* ------------------------------------------------------------------------- *)

Module Routes.
Import CmeQuery.

(** [AskCMEResponse] of app/schemas/ask_cme.py. *)
Record AskCMEResponse := {
  resp_question : string;
  resp_answer : string;
  resp_recommendations : list CMERecommendation
}.

(** What a route hands to the framework: a body, or
    [HTTPException(status_code, ...)] raised for [cause]. *)
Inductive Reply (A : Type) :=
| Ok (body : A)
| HTTPException (status_code : Z) (cause : option Exn).
Arguments Ok {A} body.
Arguments HTTPException {A} status_code cause.

(** The route [POST /cme]: run_cme_query with its default vector_top_k and
    max_events, every exception turned into a 500.  The exceptions of the
    embedding are those of the vector search; a store query or the decoding
    of the search response that raises is outside it, and would be turned
    into a 500 by the same handler. *)
Definition ask_cme (payload : AskCMERequest) (db : World)
  : list Call * Reply AskCMEResponse :=
  match run_cme_query payload db 24 5 with
  | (t, Returned (answer, recommendations)) =>
      (t, Ok {| resp_question := question payload;
                resp_answer := answer;
                resp_recommendations := recommendations |})
  | (t, Raised exc) => (t, HTTPException 500 (Some exc))
  end.

(** [VectorSearchRequest] of app/api/routes/vector_search.py. *)
Record VectorSearchRequest := {
  vs_query : string;
  vs_top_k : Z;
  vs_source_type : option string
}.

(** [top_k: int = Field(5, ge=1, le=50)]: the body is validated against
    [VectorSearchRequest] before the route function is called. *)
Definition top_k_in_bounds (payload : VectorSearchRequest) : bool :=
  (1 <=? vs_top_k payload) && (vs_top_k payload <=? 50).

(** What [POST /search] does with a body:
    - [Invalid]: the body fails the validation and the route function is
      not called;
    - [Rejected 400]: the function raises [HTTPException(400)];
    - [SearchRaised]: [search_embeddings] raises, which the function lets
      through;
    - [ResultRaised]: building the [VectorSearchResult] of a row raises;
    - [Found]: the list of results is returned. *)
Inductive SearchOutcome (Result : Type) :=
| Found (results : list Result)
| Invalid
| Rejected (status_code : Z)
| SearchRaised
| ResultRaised.
Arguments Found {Result} results.
Arguments Invalid {Result}.
Arguments Rejected {Result} status_code.
Arguments SearchRaised {Result}.
Arguments ResultRaised {Result}.

(** The list comprehension that builds a [VectorSearchResult] from each
    row of [results]; [to_result row] is [None] when the constructor
    raises. *)
Fixpoint results_of_rows {Row Result : Type}
    (to_result : Row -> option Result) (rows : list Row)
  : option (list Result) :=
  match rows with
  | [] => Some []
  | row :: rest =>
      match to_result row with
      | Some r =>
          match results_of_rows to_result rest with
          | Some rs => Some (r :: rs)
          | None => None
          end
      | None => None
      end
  end.

(** The route [POST /search].  [search_embeddings] is the call into
    app/vector/manager.py, [None] when it raises. *)
Definition vector_search_route {Row Result : Type}
    (search_embeddings : string -> Z -> option string -> option (list Row))
    (to_result : Row -> option Result)
    (payload : VectorSearchRequest) : SearchOutcome Result :=
  if negb (top_k_in_bounds payload) then Invalid
  else if Py.is_empty (Py.strip (vs_query payload)) then Rejected 400
  else
    match search_embeddings (vs_query payload) (vs_top_k payload)
                            (vs_source_type payload) with
    | Some results =>
        match results_of_rows to_result results with
        | Some found => Found found
        | None => ResultRaised
        end
    | None => SearchRaised
    end.

(** The JSON body that run_cme_query posts to [/vector/search]. *)
Definition posted_payload (request : AskCMERequest) (vector_top_k : Z)
  : VectorSearchRequest :=
  {| vs_query := Py.strip (question request);
     vs_top_k := vector_top_k;
     vs_source_type := Some "cme_event" |}.

End Routes.

(* ------------------------------------------------------------------------- *)
(** ** app/scripts/generate_embeddings_openai.py *)
(* ------------------------------------------------------------------------- *)

Module Reembed.

(** A row of knowledge_chunk: the columns the script selects. *)
Record KnowledgeChunk := {
  kc_id : Z;
  kc_source_type : string;
  kc_source_id : option Z;
  kc_raw_text : string
}.

(** A row of embedding_store: the columns the script inserts.  The vector is
    kept as the literal that is cast to [vector]. *)
Record StoredEmbedding := {
  es_knowledge_chunk_id : Z;
  es_source_type : string;
  es_source_id : option Z;
  es_chunk_id : string;
  es_chunk_text : string;
  es_embedding : string;
  es_embedding_model : string
}.

Record Db := {
  knowledge_chunk : list KnowledgeChunk;
  embedding_store : list StoredEmbedding
}.

(** How the main loop ends: normally, or with the exception of the
    embeddings call; [inserted] is the counter the script prints. *)
Inductive Ended :=
| Completed (inserted : Z)
| ClientFailed (inserted : Z).

Definition inserted_of (e : Ended) : Z :=
  match e with Completed n => n | ClientFailed n => n end.

Definition BATCH_SIZE : Z := 64.

(** [EMBEDDING_MODEL] of app/vector/manager.py. *)
Definition EMBEDDING_MODEL : string := "text-embedding-3-small".

Definition is_cme_event (source_type : string) : bool :=
  String.eqb source_type "cme_event".

(** [ORDER BY id] (ids are the primary key). *)
Fixpoint insert_by_id (r : KnowledgeChunk) (l : list KnowledgeChunk)
  : list KnowledgeChunk :=
  match l with
  | [] => [r]
  | x :: rest => if kc_id r <? kc_id x then r :: l else x :: insert_by_id r rest
  end.

Definition order_by_id (l : list KnowledgeChunk) : list KnowledgeChunk :=
  fold_right insert_by_id [] l.

(** [WHERE source_type = 'cme_event' ORDER BY id] *)
Definition cme_chunks (db : Db) : list KnowledgeChunk :=
  order_by_id (filter (fun r => is_cme_event (kc_source_type r)) (knowledge_chunk db)).

(** The query of fetch_cme_chunks, for the non-negative limit and offset
    the script passes. *)
Definition fetch_cme_chunks (db : Db) (limit offset : Z) : list KnowledgeChunk :=
  firstn (Z.to_nat limit) (skipn (Z.to_nat offset) (cme_chunks db)).

Definition delete_old_embeddings (db : Db) : Db :=
  {| knowledge_chunk := knowledge_chunk db;
     embedding_store :=
       filter (fun e => negb (is_cme_event (es_source_type e))) (embedding_store db) |}.

Section WithFloats.
(** The floats of an embedding and Python's [str] on them. *)
Variable float : Type.
Variable str_of_float : float -> string.

Definition embedding_to_literal (embedding : list float) : string :=
  "[" ++ String.concat "," (map str_of_float embedding) ++ "]".

(** The parameters of one INSERT. *)
Definition stored_row (row : KnowledgeChunk) (emb : list float) : StoredEmbedding :=
  {| es_knowledge_chunk_id := kc_id row;
     es_source_type := kc_source_type row;
     es_source_id := kc_source_id row;
     es_chunk_id := Py.str_of_int (kc_id row);
     es_chunk_text := kc_raw_text row;
     es_embedding := embedding_to_literal emb;
     es_embedding_model := EMBEDDING_MODEL |}.

(** [for row, emb in zip(batch_rows, embeddings): db.execute(INSERT ...)] *)
Fixpoint insert_embeddings (db : Db) (batch_rows : list KnowledgeChunk)
    (embeddings : list (list float)) : Db :=
  match batch_rows, embeddings with
  | row :: rows, emb :: embs =>
      insert_embeddings
        {| knowledge_chunk := knowledge_chunk db;
           embedding_store := embedding_store db ++ [stored_row row emb] |}
        rows embs
  | _, _ => db
  end.

(** The [while offset < total_chunks] loop.  [client] is the embeddings
    call: [None] when it raises.  [None] as a result: out of fuel. *)
Fixpoint embed_loop (fuel : nat)
    (client : list string -> option (list (list float)))
    (total_chunks : Z) (db : Db) (offset inserted : Z) : option (Db * Ended) :=
  match fuel with
  | O => None
  | S fuel' =>
      if offset <? total_chunks then
        let batch := fetch_cme_chunks db BATCH_SIZE offset in
        if CmeQuery.is_nil batch then Some (db, Completed inserted)
        else
          let texts := map kc_raw_text batch in
          match client texts with
          | None => Some (db, ClientFailed inserted)
          | Some embeddings =>
              let db := insert_embeddings db batch embeddings in
              let inserted := inserted + Z.of_nat (List.length batch) in
              embed_loop fuel' client total_chunks db (offset + BATCH_SIZE) inserted
          end
      else Some (db, Completed inserted)
  end.

Definition regenerate_all_embeddings
    (client : list string -> option (list (list float))) (db : Db)
  : option (Db * Ended) :=
  let total_chunks :=
    Z.of_nat (List.length
                (filter (fun r => is_cme_event (kc_source_type r)) (knowledge_chunk db))) in
  let db := delete_old_embeddings db in
  embed_loop (S (Z.to_nat total_chunks)) client total_chunks db 0 0.

End WithFloats.

(** The part of an inserted row that comes from the chunk. *)
Definition chunk_part (e : StoredEmbedding) : Z * string * option Z * string * string :=
  (es_knowledge_chunk_id e, es_source_type e, es_source_id e, es_chunk_id e,
   es_chunk_text e).

Definition expected_part (c : KnowledgeChunk) : Z * string * option Z * string * string :=
  (kc_id c, "cme_event", kc_source_id c, Py.str_of_int (kc_id c), kc_raw_text c).

Arguments embedding_to_literal {float} str_of_float embedding.
Arguments stored_row {float} str_of_float row emb.
Arguments insert_embeddings {float} str_of_float db batch_rows embeddings.
Arguments embed_loop {float} str_of_float fuel client total_chunks db offset inserted.
Arguments regenerate_all_embeddings {float} str_of_float client db.

(** A small table: three CME chunks stored out of id order, one chunk of
    another source, and two old embeddings. *)
Definition chunk (i : Z) (st : string) (t : string) : KnowledgeChunk :=
  {| kc_id := i; kc_source_type := st; kc_source_id := Some (i * 10); kc_raw_text := t |}.

Definition old_embedding (i : Z) (st : string) : StoredEmbedding :=
  {| es_knowledge_chunk_id := i; es_source_type := st; es_source_id := None;
     es_chunk_id := "old"; es_chunk_text := "old"; es_embedding := "[0.0]";
     es_embedding_model := "legacy" |}.

Definition sample_db : Db :=
  {| knowledge_chunk :=
       [chunk 3 "cme_event" "c"; chunk 1 "cme_event" "a"; chunk 7 "guideline" "g";
        chunk 2 "cme_event" "b"];
     embedding_store := [old_embedding 1 "cme_event"; old_embedding 7 "guideline"] |}.

(** A client that returns one two-component embedding per text. *)
Definition sample_client (texts : list string) : option (list (list Q)) :=
  Some (map (fun _ => [1%Q; 2%Q]) texts).

Definition sample_str (q : Q) : string := Py.str_of_int (Qnum q) ++ ".0".

End Reembed.

(* ------------------------------------------------------------------------- *)
(** ** app/api/routes/search_cme.py *)
(* ------------------------------------------------------------------------- *)

Module SearchCme.

(** A row of the search query: cme_event columns and the similarity. *)
Record Row := {
  row_cme_id : Z;
  row_title : string;
  row_description : option string;
  row_credit_type : option string;
  row_credits : option Q;
  row_provider_name : option string;
  row_format : option string;
  row_audience : option string;
  row_score : option Q
}.














End SearchCme.

(* ------------------------------------------------------------------------- *)
(** ** Insertion-ordered dicts *)
(* ------------------------------------------------------------------------- *)

Section DictFacts.
Context {V : Type}.
Implicit Types (d : list (Z * V)) (k : Z) (v : V).

Lemma get_set_same d k v : Py.get k (Py.set k v d) = Some v.
Proof.
  induction d as [|[k' v'] d IH]; simpl.
  - now rewrite Z.eqb_refl.
  - destruct (k' =? k) eqn:E; simpl; rewrite E; auto.
Qed.

Lemma get_set_other d k k' v : k <> k' -> Py.get k' (Py.set k v d) = Py.get k' d.
Proof.
  intros Hne. induction d as [|[k0 v0] d IH]; simpl.
  - destruct (k =? k') eqn:E; auto. apply Z.eqb_eq in E. contradiction.
  - destruct (k0 =? k) eqn:E; simpl.
    + apply Z.eqb_eq in E. subst k0.
      destruct (k =? k') eqn:E'; auto. apply Z.eqb_eq in E'. contradiction.
    + now rewrite IH.
Qed.

Lemma get_In d k v : Py.get k d = Some v -> In (k, v) d.
Proof.
  induction d as [|[k0 v0] d IH]; simpl; [discriminate|].
  destruct (k0 =? k) eqn:E.
  - apply Z.eqb_eq in E. intros [= ->]. subst. now left.
  - intros H. right. auto.
Qed.

Lemma In_set d k v k' v' :
  In (k', v') (Py.set k v d) -> (k', v') = (k, v) \/ In (k', v') d.
Proof.
  induction d as [|[k0 v0] d IH]; simpl.
  - intros [H|[]]. left. now symmetry.
  - destruct (k0 =? k) eqn:E; simpl.
    + apply Z.eqb_eq in E. subst k0. intros [H|H]; [left; now symmetry | right; now right].
    + intros [H|H]; [right; now left|]. destruct (IH H); auto.
Qed.

Lemma keys_set d k v :
  map fst (Py.set k v d)
  = if existsb (Z.eqb k) (map fst d) then map fst d else map fst d ++ [k].
Proof.
  induction d as [|[k0 v0] d IH]; simpl; auto.
  rewrite (Z.eqb_sym k k0).
  destruct (k0 =? k) eqn:E; simpl; auto.
  rewrite IH. now destruct (existsb (Z.eqb k) (map fst d)).
Qed.

Lemma get_None_keys d k : Py.get k d = None <-> ~ In k (map fst d).
Proof.
  induction d as [|[k0 v0] d IH]; simpl.
  - tauto.
  - destruct (k0 =? k) eqn:E.
    + apply Z.eqb_eq in E. split; [discriminate | intros H; exfalso; apply H; now left].
    + apply Z.eqb_neq in E. rewrite IH. tauto.
Qed.

Lemma NoDup_keys_set d k v : NoDup (map fst d) -> NoDup (map fst (Py.set k v d)).
Proof.
  intros Hnd. rewrite keys_set.
  destruct (existsb (Z.eqb k) (map fst d)) eqn:E; auto.
  apply NoDup_app; [assumption | constructor; [intros [] | constructor] |].
  intros x Hx [Hk|[]]. subst x.
  assert (existsb (Z.eqb k) (map fst d) = true); [|congruence].
  apply existsb_exists. exists k. split; auto. apply Z.eqb_refl.
Qed.
End DictFacts.

(* ------------------------------------------------------------------------- *)
(** ** Aggregation and ranking *)
(* ------------------------------------------------------------------------- *)

Section Aggregation.
Import CmeQuery Stages.

Lemma owned_by_spec e ch : owned_by e ch = true <-> source_id ch = Some e.
Proof.
  unfold owned_by. destruct (source_id ch) as [i|].
  - rewrite Z.eqb_eq. split; congruence.
  - split; discriminate.
Qed.

Lemma add_chunk_score e n idx ch m :
  score_of e (add_chunk n idx ch m)
  = score_of e m + (if owned_by e ch then rank_score n idx else 0).
Proof.
  unfold add_chunk, owned_by, score_of, rank_score.
  destruct (source_id ch) as [i|]; [|lia].
  destruct (i =? e) eqn:E.
  - apply Z.eqb_eq in E. subst i. rewrite get_set_same. simpl.
    destruct (Py.get e m); simpl; lia.
  - apply Z.eqb_neq in E. rewrite get_set_other by assumption. lia.
Qed.

Lemma add_chunk_keys e n idx ch m :
  In e (map fst (add_chunk n idx ch m))
  <-> In e (map fst m) \/ source_id ch = Some e.
Proof.
  unfold add_chunk. destruct (source_id ch) as [i|].
  - rewrite keys_set.
    destruct (existsb (Z.eqb i) (map fst m)) eqn:E.
    + apply existsb_exists in E. destruct E as (x & Hx & Hix).
      apply Z.eqb_eq in Hix. subst x.
      split; [tauto|]. intros [H|[= ->]]; auto.
    + rewrite in_app_iff. simpl. split.
      * intros [H|[->|[]]]; auto.
      * intros [H|[= ->]]; auto.
  - split; [tauto|]. intros [H|H]; [assumption|discriminate].
Qed.

Lemma add_chunk_NoDup n idx ch m :
  NoDup (map fst m) -> NoDup (map fst (add_chunk n idx ch m)).
Proof.
  unfold add_chunk. destruct (source_id ch); auto using NoDup_keys_set.
Qed.

Lemma group_chunks_score e n chs : forall k m,
  score_of e (group_chunks n (Z.of_nat k) chs m)
  = score_of e m
    + fold_right Z.add 0
        (map (fun ic => rank_score n (fst ic))
             (filter (fun ic => owned_by e (snd ic))
                     (combine (map Z.of_nat (seq k (List.length chs))) chs))).
Proof.
  induction chs as [|ch rest IH]; intros k m; simpl.
  - lia.
  - replace (Z.of_nat k + 1) with (Z.of_nat (S k)) by lia.
    rewrite IH, add_chunk_score.
    destruct (owned_by e ch); simpl; lia.
Qed.

Lemma group_chunks_keys e n chs : forall idx m,
  In e (map fst (group_chunks n idx chs m))
  <-> In e (map fst m) \/ In (Some e) (map source_id chs).
Proof.
  induction chs as [|ch rest IH]; intros idx m; simpl.
  - tauto.
  - rewrite IH, add_chunk_keys. tauto.
Qed.

Lemma group_chunks_NoDup n chs : forall idx m,
  NoDup (map fst m) -> NoDup (map fst (group_chunks n idx chs m)).
Proof.
  induction chs as [|ch rest IH]; intros idx m H; simpl; auto.
  apply IH. now apply add_chunk_NoDup.
Qed.

(** Every chunk contributes at least 1, so every entry's score is positive. *)
Lemma group_chunks_positive n chs : forall k m,
  Z.of_nat (k + List.length chs) <= n ->
  Forall (fun x => 1 <= e_score (snd x)) m ->
  Forall (fun x => 1 <= e_score (snd x)) (group_chunks n (Z.of_nat k) chs m).
Proof.
  induction chs as [|ch rest IH]; intros k m Hn Hm; simpl; auto.
  replace (Z.of_nat k + 1) with (Z.of_nat (S k)) by lia.
  simpl in Hn. apply IH; [lia|].
  unfold add_chunk. destruct (source_id ch) as [i|]; auto.
  rewrite Forall_forall in *. intros [k' v'] Hin.
  apply In_set in Hin. destruct Hin as [[= -> ->]|Hin]; [|now apply Hm].
  simpl. destruct (Py.get i m) as [en|] eqn:G; simpl.
  - apply get_In in G. apply Hm in G. simpl in G. lia.
  - lia.
Qed.

Lemma build_cme_map_positive chunks :
  Forall (fun x => 1 <= e_score (snd x)) (build_cme_map chunks).
Proof.
  unfold build_cme_map.
  apply (group_chunks_positive _ chunks 0 []); simpl; [lia | constructor].
Qed.

Lemma insert_desc_perm x l : Permutation (insert_desc x l) (x :: l).
Proof.
  induction l as [|y r IH]; simpl; auto.
  destruct (e_score (snd x) <? e_score (snd y)); auto.
  rewrite IH. apply perm_swap.
Qed.

Lemma sorted_events_perm m : Permutation (sorted_events m) m.
Proof.
  induction m as [|x m IH]; simpl; auto.
  rewrite insert_desc_perm. now constructor.
Qed.

Lemma insert_desc_sorted x l :
  Sorted score_ge l -> Sorted score_ge (insert_desc x l).
Proof.
  induction l as [|y r IH]; intros Hs; simpl.
  - repeat constructor.
  - destruct (e_score (snd x) <? e_score (snd y)) eqn:E.
    + inversion Hs as [|? ? Hr Hhd]; subst.
      constructor; [auto|].
      apply Z.ltb_lt in E.
      destruct r as [|z r']; simpl.
      * constructor. unfold score_ge. lia.
      * destruct (e_score (snd x) <? e_score (snd z)).
        -- inversion Hhd; subst. now constructor.
        -- constructor. unfold score_ge. lia.
    + apply Z.ltb_ge in E. constructor; auto.
      constructor. unfold score_ge. lia.
Qed.

Lemma sorted_events_sorted m : StronglySorted score_ge (sorted_events m).
Proof.
  apply Sorted_StronglySorted.
  - intros x y z. unfold score_ge. lia.
  - induction m as [|x m IH]; simpl; [constructor | now apply insert_desc_sorted].
Qed.

Lemma sorted_events_In x m : In x (sorted_events m) <-> In x m.
Proof.
  split; apply Permutation_in; [|symmetry]; apply sorted_events_perm.
Qed.

(** C4. The chunk at 0-based position [i] of [n] chunks is worth [n - i];
    an entity has an entry in cme_map exactly when some chunk names it, and
    the entry's score is the sum of the rank scores of its chunks (chunks
    without source id add nothing); sorted_events is a rearrangement of
    cme_map by descending score; on the chunk list of entities 1, 2, 1
    entity 1 scores 4, entity 2 scores 2 and entity 1 comes first. *)
Theorem aggregation_by_rank_score :
  (forall chunks e,
      match Py.get e (build_cme_map chunks) with
      | Some entry =>
          In (Some e) (map source_id chunks)
          /\ e_score entry = spec_aggregate_score chunks e
      | None => ~ In (Some e) (map source_id chunks)
      end)
  /\ (forall chunks,
        NoDup (map fst (build_cme_map chunks))
        /\ Permutation (sorted_events (build_cme_map chunks)) (build_cme_map chunks)
        /\ StronglySorted score_ge (sorted_events (build_cme_map chunks)))
  /\ spec_aggregate_score example_chunks 1 = 3 + 1
  /\ spec_aggregate_score example_chunks 2 = 2
  /\ map (fun x => (fst x, e_score (snd x)))
         (sorted_events (build_cme_map example_chunks))
     = [(1, 4); (2, 2)].
Proof.
  split; [|split; [|repeat split; reflexivity]].
  - intros chunks e.
    pose proof (group_chunks_keys e (Z.of_nat (List.length chunks)) chunks 0 []) as K.
    pose proof (group_chunks_score e (Z.of_nat (List.length chunks)) chunks 0 []) as S.
    change (group_chunks (Z.of_nat (List.length chunks)) (Z.of_nat 0) chunks [])
      with (build_cme_map chunks) in K, S.
    simpl in K. unfold score_of in S. simpl in S.
    destruct (Py.get e (build_cme_map chunks)) as [entry|] eqn:G.
    + split.
      * apply get_In in G. apply (in_map fst) in G. simpl in G. tauto.
      * exact S.
    + apply get_None_keys in G. tauto.
  - intros chunks. split; [|split].
    + apply group_chunks_NoDup. constructor.
    + apply sorted_events_perm.
    + apply sorted_events_sorted.
Qed.

End Aggregation.

(* ------------------------------------------------------------------------- *)
(** ** The shape of a run *)
(* ------------------------------------------------------------------------- *)

Section RunShape.
Import PhysicianProfile CmeQuery Stages.

Lemma is_nil_true {A : Type} (l : list A) : is_nil l = true <-> l = [].
Proof. destruct l; simpl; split; congruence. Qed.

Lemma is_nil_false {A : Type} (l : list A) : is_nil l = false <-> l <> [].
Proof. destruct l; simpl; split; congruence. Qed.

(** The calls and the value of build_effective_physician_profile. *)
Lemma build_profile_value db request :
  build_effective_physician_profile db request
  = match pid_truthy (physician_id request) with
    | Some pid =>
        ([PhysicianQuery pid; PreferenceQuery pid; CompletedQuery pid],
         Returned
           (apply_defaults
              (set_missing_requirements
                 (set_completed_cme_ids
                    (fill_preferences
                       (fill_specialty (seed_profile request)
                          (find (fun r => p_id r =? pid) (physician db)))
                       (find (fun r => pref_physician_id r =? pid)
                             (physician_preference db)))
                    (completed_in_store db pid))
                 [])))
    | None => ([], Returned (apply_defaults (seed_profile request)))
    end.
Proof.
  unfold build_effective_physician_profile.
  destruct (pid_truthy (physician_id request)); reflexivity.
Qed.

(** build_effective_physician_profile never raises. *)
Lemma build_profile_returns db request :
  exists tp profile,
    build_effective_physician_profile db request = (tp, Returned profile).
Proof.
  rewrite build_profile_value.
  destruct (pid_truthy (physician_id request)); eauto.
Qed.

Lemma run_cme_query_staged request db k m chunks tp profile :
  Py.is_empty (Py.strip (question request)) = false ->
  vector_search db (Py.strip (question request)) k = HttpResponse 200 chunks ->
  chunks <> [] ->
  build_effective_physician_profile db request = (tp, Returned profile) ->
  run_cme_query request db k m = staged_run request db k m chunks tp profile.
Proof.
  intros Hq Hvs Hch Hp.
  unfold run_cme_query, staged_run. rewrite Hq.
  unfold post_vector_search. rewrite Hvs. simpl.
  apply is_nil_false in Hch. rewrite Hch. rewrite Hp.
  unfold selected, survivors, fallback, eligible, metadata, loaded_events, ranked.
  unfold bind at 1. unfold query_events, generate_answer. simpl.
  destruct (is_nil (filter_loop _ _ _ _ _)) eqn:E1; simpl.
  - destruct (is_nil (fallback_loop _ _ _)) eqn:E2; simpl; [reflexivity|].
    destruct (llm db _); simpl;
      rewrite ?app_nil_r, <- ?app_assoc; reflexivity.
  - rewrite E1.
    destruct (llm db _); simpl;
      rewrite ?app_nil_r, <- ?app_assoc; reflexivity.
Qed.

(** Every run is one of: the empty-question short circuit, a failed search
    (transport error or status other than 200), the no-match short circuit,
    or a staged run. *)
Lemma run_cme_query_cases request db k m :
  let q := Py.strip (question request) in
  (Py.is_empty q = true
   /\ run_cme_query request db k m = ([], Returned (empty_question_answer, [])))
  \/ (Py.is_empty q = false
      /\ vector_search db q k = HttpError
      /\ run_cme_query request db k m
         = ([VectorSearchCall q k], Raised TransportError))
  \/ (exists status body,
        Py.is_empty q = false
        /\ vector_search db q k = HttpResponse status body
        /\ (status =? 200) = false
        /\ run_cme_query request db k m
           = ([VectorSearchCall q k], Raised RuntimeError))
  \/ (Py.is_empty q = false
      /\ vector_search db q k = HttpResponse 200 []
      /\ run_cme_query request db k m
         = ([VectorSearchCall q k], Returned (no_match_answer, [])))
  \/ (exists chunks tp profile,
        Py.is_empty q = false
        /\ vector_search db q k = HttpResponse 200 chunks
        /\ chunks <> []
        /\ build_effective_physician_profile db request = (tp, Returned profile)
        /\ run_cme_query request db k m = staged_run request db k m chunks tp profile).
Proof.
  intros q. subst q.
  destruct (Py.is_empty (Py.strip (question request))) eqn:Hq.
  - left. split; auto. unfold run_cme_query. now rewrite Hq.
  - right.
    destruct (vector_search db (Py.strip (question request)) k) as [status body|] eqn:Hvs.
    + right. destruct (status =? 200) eqn:Hs.
      * apply Z.eqb_eq in Hs. subst status. right.
        destruct body as [|ch rest].
        -- left. repeat split; auto.
           unfold run_cme_query, post_vector_search. rewrite Hq, Hvs. reflexivity.
        -- right.
           destruct (build_profile_returns db request) as (tp & profile & Hp).
           exists (ch :: rest), tp, profile.
           repeat split; auto; try discriminate.
           apply run_cme_query_staged; auto. discriminate.
      * left. exists status, body. repeat split; auto.
        unfold run_cme_query, post_vector_search. rewrite Hq, Hvs. simpl.
        rewrite Hs. reflexivity.
    + left. repeat split; auto.
      unfold run_cme_query, post_vector_search. rewrite Hq, Hvs. reflexivity.
Qed.

End RunShape.

(* ------------------------------------------------------------------------- *)
(** ** Selection and the recommendation builder *)
(* ------------------------------------------------------------------------- *)

Section Selection.
Import PhysicianProfile CmeQuery Stages.

Variables (elig : CMEEvent -> bool) (by_id : list (Z * CMEEvent)).

(** Whatever the loop appends passed the metadata lookup and the filter. *)
Lemma filter_loop_Forall (P : Candidate -> Prop) m sorted : forall acc,
  (forall cme_id meta ev,
      In (cme_id, meta) sorted -> Py.get cme_id by_id = Some ev ->
      elig ev = true -> P (cme_id, meta, ev)) ->
  Forall P acc -> Forall P (filter_loop elig by_id m sorted acc).
Proof.
  induction sorted as [|[cme_id meta] rest IH]; intros acc HP Hacc; simpl; auto.
  assert (Hrest : forall c me ev, In (c, me) rest -> Py.get c by_id = Some ev ->
                                  elig ev = true -> P (c, me, ev)).
  { intros c me ev Hin. apply HP. now right. }
  destruct (Py.get cme_id by_id) as [ev|] eqn:G; auto.
  destruct (elig ev) eqn:E; simpl; auto.
  assert (Forall P (acc ++ [(cme_id, meta, ev)])).
  { apply Forall_app. split; auto. constructor; auto. apply HP; auto. now left. }
  destruct (_ >=? m); auto.
Qed.

(** The [break] caps the list as soon as it reaches max_events. *)
Lemma filter_loop_length m sorted : forall acc,
  Z.of_nat (List.length acc) < m ->
  Z.of_nat (List.length (filter_loop elig by_id m sorted acc)) <= m.
Proof.
  induction sorted as [|[cme_id meta] rest IH]; intros acc Hacc; simpl; [lia|].
  destruct (Py.get cme_id by_id) as [ev|]; auto.
  destruct (elig ev); simpl; auto.
  destruct (Z.of_nat (List.length (acc ++ [(cme_id, meta, ev)])) >=? m) eqn:E.
  - rewrite length_app in *. simpl in *. lia.
  - apply IH. lia.
Qed.

(** An empty result means that no candidate with metadata was eligible. *)
Lemma filter_loop_nil m sorted : forall acc,
  filter_loop elig by_id m sorted acc = [] ->
  acc = []
  /\ forall cme_id meta ev,
       In (cme_id, meta) sorted -> Py.get cme_id by_id = Some ev -> elig ev = false.
Proof.
  induction sorted as [|[cme_id meta] rest IH]; intros acc H; simpl in H.
  - split; auto. intros ? ? ? [].
  - destruct (Py.get cme_id by_id) as [ev|] eqn:G.
    + destruct (elig ev) eqn:E; simpl in H.
      * destruct (_ >=? m).
        -- destruct acc; discriminate.
        -- apply IH in H. destruct H as [H _]. destruct acc; discriminate.
      * apply IH in H. destruct H as [-> H]. split; auto.
        intros c me e [[= <- <-]|Hin] Hg; [congruence | eauto].
    + apply IH in H. destruct H as [-> H]. split; auto.
      intros c me e [[= <- <-]|Hin] Hg; [congruence | eauto].
Qed.

Lemma fallback_loop_flat_map top : forall acc,
  fallback_loop by_id top acc = acc ++ flat_map (with_metadata by_id) top.
Proof.
  induction top as [|[cme_id meta] rest IH]; intros acc; simpl.
  - now rewrite app_nil_r.
  - unfold with_metadata at 1. simpl.
    destruct (Py.get cme_id by_id) as [ev|]; rewrite IH; simpl; auto.
    now rewrite <- app_assoc.
Qed.

Lemma flat_map_with_metadata top :
  map fst (flat_map (with_metadata by_id) top) = filter (has_metadata by_id) top.
Proof.
  induction top as [|[cme_id meta] rest IH]; simpl; auto.
  unfold with_metadata at 1, has_metadata at 1. simpl.
  destruct (Py.get cme_id by_id); simpl; now rewrite IH.
Qed.

Lemma flat_map_with_metadata_lookup top :
  Forall (fun c : Candidate => Py.get (fst (fst c)) by_id = Some (snd c))
         (flat_map (with_metadata by_id) top).
Proof.
  induction top as [|[cme_id meta] rest IH]; simpl; [constructor|].
  unfold with_metadata at 1. simpl.
  destruct (Py.get cme_id by_id) eqn:G; simpl; auto.
Qed.

Lemma flat_map_with_metadata_length top :
  (List.length (flat_map (with_metadata by_id) top) <= List.length top)%nat.
Proof.
  induction top as [|x rest IH]; simpl; auto.
  rewrite length_app. unfold with_metadata at 1.
  destruct (Py.get (fst x) by_id); simpl; lia.
Qed.

End Selection.

Section Builder.
Import CmeQuery Stages.

Lemma slice_to_length {A : Type} (l : list A) m :
  0 <= m -> Z.of_nat (List.length (Py.slice_to l m)) <= m.
Proof.
  intros Hm. unfold Py.slice_to.
  destruct (m <? 0) eqn:E; [apply Z.ltb_lt in E; lia|].
  rewrite length_firstn. lia.
Qed.

Lemma recommendations_from_length ms l : forall r,
  List.length (recommendations_from ms r l) = List.length l.
Proof. induction l; intros r; simpl; auto. Qed.

Lemma recommendations_from_rank ms l : forall j,
  map rank (recommendations_from ms (Z.of_nat j) l)
  = map Z.of_nat (seq j (List.length l)).
Proof.
  induction l as [|[[cme_id meta] ev] rest IH]; intros j; simpl; auto.
  f_equal. replace (Z.of_nat j + 1) with (Z.of_nat (S j)) by lia. apply IH.
Qed.

Lemma recommendations_from_ids ms l : forall r,
  map cme_event_id (recommendations_from ms r l) = map (fun c => fst (fst c)) l.
Proof.
  induction l as [|[[cme_id meta] ev] rest IH]; intros r; simpl; auto.
  now rewrite IH.
Qed.

(** The title is the stored one: the attribute always exists, so the
    default of getattr is never taken. *)
Lemma recommendations_from_titles ms l : forall r,
  map title (recommendations_from ms r l) = map (fun c => ev_title (snd c)) l.
Proof.
  induction l as [|[[cme_id meta] ev] rest IH]; intros r; simpl; auto.
  now rewrite IH.
Qed.

Lemma build_recommendations_length l :
  List.length (build_recommendations l) = List.length l.
Proof. apply recommendations_from_length. Qed.

Lemma build_recommendations_rank l :
  map rank (build_recommendations l) = one_to (List.length (build_recommendations l)).
Proof.
  rewrite build_recommendations_length. unfold build_recommendations, one_to.
  apply (recommendations_from_rank _ l 1).
Qed.

Lemma build_recommendations_ids l :
  map cme_event_id (build_recommendations l) = map (fun c => fst (fst c)) l.
Proof. apply recommendations_from_ids. Qed.

Lemma selected_length db profile chunks m :
  1 <= m -> Z.of_nat (List.length (selected db profile chunks m)) <= m.
Proof.
  intros Hm. unfold selected.
  destruct (is_nil (survivors db profile chunks m)).
  - unfold fallback. rewrite fallback_loop_flat_map. simpl.
    pose proof (flat_map_with_metadata_length (metadata db chunks)
                  (Py.slice_to (ranked chunks) m)).
    pose proof (slice_to_length (ranked chunks) m). lia.
  - unfold survivors. apply filter_loop_length. simpl. lia.
Qed.

(** What a run can return as its list. *)
Lemma recommendations_of_run request db k m recs :
  recommendations_of (run_cme_query request db k m) = Some recs ->
  recs = []
  \/ exists chunks tp profile,
       Py.is_empty (Py.strip (question request)) = false
       /\ vector_search db (Py.strip (question request)) k = HttpResponse 200 chunks
       /\ chunks <> []
       /\ PhysicianProfile.build_effective_physician_profile db request
          = (tp, Returned profile)
       /\ selected db profile chunks m <> []
       /\ recs = build_recommendations (selected db profile chunks m).
Proof.
  unfold recommendations_of.
  destruct (run_cme_query_cases request db k m)
    as [[_ ->]|[(_ & _ & ->)|[(status & body & _ & _ & _ & ->)
        |[(_ & _ & ->)|(chunks & tp & profile & Hq & Hvs & Hch & Hp & ->)]]]];
    simpl; try (intros [= <-]; now left); try discriminate.
  unfold staged_run.
  destruct (is_nil (selected db profile chunks m)) eqn:E; simpl; intros [= <-].
  - now left.
  - right. exists chunks, tp, profile. apply is_nil_false in E. auto 10.
Qed.

End Builder.

(* ------------------------------------------------------------------------- *)
(** ** Length and ranks of the returned list *)
(* ------------------------------------------------------------------------- *)

Section Ranks.
Import PhysicianProfile CmeQuery Stages Sample Computed MoreSamples.



(** The ranks are 1..length whatever max_events is. *)
Lemma recommendations_ranked request db k m recs :
  recommendations_of (run_cme_query request db k m) = Some recs ->
  map rank recs = one_to (List.length recs).
Proof.
  intros Hrun. apply recommendations_of_run in Hrun.
  destruct Hrun as [->|(chunks & tp & profile & _ & _ & _ & _ & _ & ->)];
    [reflexivity | apply build_recommendations_rank].
Qed.


(** At max_events = 0 the filtering loop still returns one item: it appends
    the first eligible candidate before it tests the length. *)
Lemma one_item_for_zero_max_events :
  option_map (@List.length _)
    (recommendations_of (run_cme_query (ask "sepsis" None) plain_store 24 0))
  = Some 1%nat.
Proof. reflexivity. Qed.

End Ranks.

(* ------------------------------------------------------------------------- *)
(** ** Completed entities *)
(* ------------------------------------------------------------------------- *)

Section Completed.
Import PhysicianProfile CmeQuery Stages Sample Computed.

Lemma events_by_id_keys events :
  Forall (fun kv => ev_id (snd kv) = fst kv) (events_by_id events).
Proof.
  unfold events_by_id.
  assert (G : forall d,
             Forall (fun kv : Z * CMEEvent => ev_id (snd kv) = fst kv) d ->
             Forall (fun kv : Z * CMEEvent => ev_id (snd kv) = fst kv)
                    (fold_left (fun d e => Py.set (ev_id e) e d) events d)).
  { induction events as [|e rest IH]; intros d Hd; simpl; auto.
    apply IH. rewrite Forall_forall in *. intros [k' v'] Hin.
    apply In_set in Hin. destruct Hin as [[= -> ->]|Hin]; [reflexivity|].
    now apply Hd. }
  apply G. constructor.
Qed.

Lemma metadata_key db chunks cme_id ev :
  Py.get cme_id (metadata db chunks) = Some ev -> ev_id ev = cme_id.
Proof.
  intros G. apply get_In in G.
  pose proof (events_by_id_keys (loaded_events db chunks)) as F.
  rewrite Forall_forall in F. apply (F _ G).
Qed.

Lemma eligible_not_completed completed mc pf ct ev :
  _eligible completed mc pf ct ev = true -> ~ In (ev_id ev) completed.
Proof.
  unfold _eligible.
  destruct (existsb (Z.eqb (ev_id ev)) completed) eqn:E; [discriminate|].
  intros _ Hin.
  assert (existsb (Z.eqb (ev_id ev)) completed = true); [|congruence].
  apply existsb_exists. exists (ev_id ev). split; auto. apply Z.eqb_refl.
Qed.

(** The profile of a request with a non-zero physician id lists what the
    store records as completed. *)
Lemma build_profile_completed db request pid tp profile :
  physician_id request = Some pid -> pid <> 0 ->
  build_effective_physician_profile db request = (tp, Returned profile) ->
  pr_completed_cme_ids profile = completed_in_store db pid.
Proof.
  intros Hpid Hnz Hp.
  rewrite build_profile_value, Hpid in Hp.
  unfold pid_truthy in Hp. apply Z.eqb_neq in Hnz. rewrite Hnz in Hp.
  injection Hp as _ <-.
  unfold apply_defaults.
  repeat match goal with
         | |- context [match ?x with _ => _ end] => destruct x; simpl
         end; reflexivity.
Qed.

Lemma survivors_eligible db profile chunks m :
  Forall (fun c : Candidate =>
            ev_id (snd c) = fst (fst c) /\ eligible profile (snd c) = true)
         (survivors db profile chunks m).
Proof.
  unfold survivors. apply filter_loop_Forall; [|constructor].
  intros cme_id meta ev _ G E. simpl. split; auto.
  now apply metadata_key in G.
Qed.

(** C1, amended.  For a request with a non-zero physician id, when at least
    one candidate passes the eligibility filter, no entity id that the store
    records as completed by that physician is in the returned list. *)
Theorem completed_excluded_when_filter_keeps_some
    request db k m pid chunks tp profile recs :
  physician_id request = Some pid ->
  pid <> 0 ->
  vector_search db (Py.strip (question request)) k = HttpResponse 200 chunks ->
  build_effective_physician_profile db request = (tp, Returned profile) ->
  survivors db profile chunks m <> [] ->
  recommendations_of (run_cme_query request db k m) = Some recs ->
  forall r, In r recs -> ~ In (cme_event_id r) (completed_in_store db pid).
Proof.
  intros Hpid Hnz Hvs Hp Hsurv Hrun r Hr.
  apply recommendations_of_run in Hrun.
  destruct Hrun as [->|(chunks' & tp' & profile' & _ & Hvs' & _ & Hp' & _ & ->)];
    [destruct Hr|].
  rewrite Hvs in Hvs'. injection Hvs' as <-.
  rewrite Hp in Hp'. injection Hp' as <- <-.
  unfold selected in Hr. apply is_nil_false in Hsurv. rewrite Hsurv in Hr.
  apply (in_map cme_event_id) in Hr. rewrite build_recommendations_ids in Hr.
  apply in_map_iff in Hr. destruct Hr as (c & Hc & Hin).
  pose proof (survivors_eligible db profile chunks m) as F.
  rewrite Forall_forall in F. destruct (F c Hin) as [Hid Hel].
  rewrite <- Hc, <- Hid.
  rewrite <- (build_profile_completed db request pid tp profile Hpid Hnz Hp).
  unfold eligible in Hel. now apply eligible_not_completed in Hel.
Qed.

Lemma completed_excluded_witness :
  Forall (fun r => ~ In (cme_event_id r) (completed_in_store one_completed_store 9))
         physician9_recommendations.
Proof.
  apply Forall_forall.
  apply (completed_excluded_when_filter_keeps_some
           (ask "sepsis" (Some 9)) one_completed_store 24 5 9 example_chunks
           [PhysicianQuery 9; PreferenceQuery 9; CompletedQuery 9]
           physician9_profile physician9_recommendations).
  - reflexivity.
  - lia.
  - reflexivity.
  - reflexivity.
  - vm_compute. discriminate.
  - reflexivity.
Defined.

(** C1 as stated fails on the fallback path: when every candidate is
    completed, the fallback returns completed entities. *)
Lemma completed_recommended_by_fallback :
  ~ Stated.completed_never_recommended (ask "airway" (Some 9)) all_completed_store 24 5.
Proof.
  intros H.
  refine (H 9 _ eq_refl _ eq_refl _ (or_introl eq_refl) _).
  - vm_compute. discriminate.
  - vm_compute. now left.
Qed.

End Completed.

(* ------------------------------------------------------------------------- *)
(** ** The fallback *)
(* ------------------------------------------------------------------------- *)

Section Fallback.
Import PhysicianProfile CmeQuery Stages Sample Computed.

Lemma fallback_entities db chunks m :
  map fst (fallback db chunks m)
  = filter (has_metadata (metadata db chunks)) (Py.slice_to (ranked chunks) m).
Proof.
  unfold fallback. rewrite fallback_loop_flat_map. simpl.
  apply flat_map_with_metadata.
Qed.

(** C2, amended.  When no candidate survives the eligibility filter, the
    candidates are rebuilt from sorted_events[:max_events], the first
    max_events entities by aggregate score: those of them that have metadata
    are kept, in score order, whatever the filter predicate says of them.
    When none of them has metadata the pipeline returns the fixed
    no-candidates sentence with an empty list and does not call the
    language model; otherwise it returns the recommendations built from
    them. *)
Theorem fallback_over_leading_slice request db k m chunks tp profile :
  Py.is_empty (Py.strip (question request)) = false ->
  vector_search db (Py.strip (question request)) k = HttpResponse 200 chunks ->
  chunks <> [] ->
  build_effective_physician_profile db request = (tp, Returned profile) ->
  survivors db profile chunks m = [] ->
  let by_id := metadata db chunks in
  let top := filter (has_metadata by_id) (Py.slice_to (ranked chunks) m) in
  map fst (fallback db chunks m) = top
  /\ Forall (fun c : Candidate => Py.get (fst (fst c)) by_id = Some (snd c))
            (fallback db chunks m)
  /\ (top <> [] ->
      exists t answer,
        run_cme_query request db k m
        = (t, Returned (answer, build_recommendations (fallback db chunks m)))
        /\ map cme_event_id (build_recommendations (fallback db chunks m))
           = map fst top)
  /\ (top = [] ->
      run_cme_query request db k m
      = (VectorSearchCall (Py.strip (question request)) k
           :: tp ++ [EventQuery (candidate_ids (ranked chunks))],
         Returned (no_candidates_answer, []))).
Proof.
  intros Hq Hvs Hch Hp Hsurv by_id top.
  pose proof (fallback_entities db chunks m) as Hent. fold by_id top in Hent.
  rewrite (run_cme_query_staged request db k m chunks tp profile Hq Hvs Hch Hp).
  unfold staged_run, selected. rewrite Hsurv. simpl.
  split; [exact Hent|]. split; [|split].
  - unfold fallback. rewrite fallback_loop_flat_map. simpl.
    apply flat_map_with_metadata_lookup.
  - intros Htop.
    destruct (fallback db chunks m) as [|c rest] eqn:F.
    + simpl in Hent. congruence.
    + simpl is_nil. cbv iota. do 2 eexists. split; [reflexivity|].
      rewrite build_recommendations_ids, <- Hent.
      rewrite map_map. reflexivity.
  - intros Htop. rewrite Htop in Hent.
    destruct (fallback db chunks m); [reflexivity | discriminate].
Qed.

Lemma fallback_over_leading_slice_witness :
  exists t answer,
    run_cme_query (ask "airway" (Some 9)) all_completed_store 24 5
    = (t, Returned (answer,
                    build_recommendations (fallback all_completed_store [chunk_of 1] 5)))
    /\ map cme_event_id
           (build_recommendations (fallback all_completed_store [chunk_of 1] 5))
       = map fst (filter (has_metadata (metadata all_completed_store [chunk_of 1]))
                         (Py.slice_to (ranked [chunk_of 1]) 5)).
Proof.
  destruct (fallback_over_leading_slice
              (ask "airway" (Some 9)) all_completed_store 24 5 [chunk_of 1]
              [PhysicianQuery 9; PreferenceQuery 9; CompletedQuery 9]
              physician9_profile
              eq_refl eq_refl ltac:(discriminate) eq_refl eq_refl)
    as (_ & _ & H & _).
  apply H. vm_compute. discriminate.
Defined.

(** C2 as stated fails: with max_events = 1, entity 1 ranked first without
    metadata and entity 2 with metadata but completed, the top entity with
    metadata is entity 2, yet the run returns the no-candidates sentence. *)
Lemma fallback_misses_entity_with_metadata :
  ~ Stated.fallback_returns_top_with_metadata (ask "sepsis" (Some 9)) gap_store 24 1.
Proof.
  intros H.
  destruct (H [chunk_of 1; chunk_of 2]
              [PhysicianQuery 9; PreferenceQuery 9; CompletedQuery 9]
              {| pr_physician_id := Some 9; pr_specialty := None; pr_state := None;
                 pr_preferred_format := None; pr_min_credits := None;
                 pr_credit_type := None; pr_travel_ok := Some true;
                 pr_missing_requirements := []; pr_completed_cme_ids := [2] |}
              eq_refl eq_refl ltac:(discriminate) eq_refl eq_refl) as [Htop _].
  destruct Htop as (recs & Hrecs & Hids).
  - vm_compute. discriminate.
  - vm_compute in Hrecs. injection Hrecs as <-.
    vm_compute in Hids. discriminate.
Qed.

End Fallback.

(* ------------------------------------------------------------------------- *)
(** ** Normalised scores *)
(* ------------------------------------------------------------------------- *)

Section Scores.
Import PhysicianProfile CmeQuery Stages Sample Computed.

Lemma In_slice_to {A : Type} (l : list A) m x : In x (Py.slice_to l m) -> In x l.
Proof.
  unfold Py.slice_to.
  destruct (m <? 0); intros H.
  - rewrite <- (firstn_skipn (Z.to_nat (Z.max 0 (Z.of_nat (List.length l) + m))) l).
    apply in_or_app. now left.
  - rewrite <- (firstn_skipn (Z.to_nat m) l). apply in_or_app. now left.
Qed.

Lemma ranked_positive chunks x : In x (ranked chunks) -> 1 <= e_score (snd x).
Proof.
  unfold ranked. rewrite sorted_events_In. intros H.
  pose proof (build_cme_map_positive chunks) as F.
  rewrite Forall_forall in F. now apply F.
Qed.

Lemma selected_positive db profile chunks m :
  Forall (fun c => 1 <= raw_score c) (selected db profile chunks m).
Proof.
  unfold selected. destruct (is_nil (survivors db profile chunks m)).
  - unfold fallback. rewrite fallback_loop_flat_map. simpl.
    apply Forall_forall. intros c Hc. apply in_flat_map in Hc.
    destruct Hc as (x & Hx & Hc). unfold with_metadata in Hc.
    destruct (Py.get (fst x) (metadata db chunks)); [|destruct Hc].
    destruct Hc as [<-|[]]. unfold raw_score. simpl.
    apply (ranked_positive chunks). now apply In_slice_to in Hx.
  - unfold survivors. apply filter_loop_Forall; [|constructor].
    intros cme_id meta ev Hin _ _. unfold raw_score. simpl.
    now apply (ranked_positive chunks (cme_id, meta)).
Qed.

Lemma recommendations_from_scores ms l : forall r,
  Forall2 (fun rec c =>
             score rec
             = Some (if ms =? 0 then 0%Q
                     else (inject_Z (raw_score c) / inject_Z ms)%Q))
          (recommendations_from ms r l) l.
Proof.
  induction l as [|[[cme_id meta] ev] rest IH]; intros r; simpl; constructor; auto.
Qed.

(** C8.  (a) The builder gives every item the score
    aggregate / top aggregate, and 0 when the top aggregate is 0.
    (b) In a run the aggregates are at least 1, so for every non-empty
    selected candidate list each score is exactly that quotient and the
    first item's score is 1. *)
Theorem normalized_scores :
  (forall (top : Candidate) (rest : list Candidate),
      Forall2 (fun rec c =>
                 score rec
                 = Some (if raw_score top =? 0 then 0%Q
                         else (inject_Z (raw_score c) / inject_Z (raw_score top))%Q))
              (build_recommendations (top :: rest)) (top :: rest))
  /\ (forall request db k m chunks tp profile recs,
        vector_search db (Py.strip (question request)) k = HttpResponse 200 chunks ->
        build_effective_physician_profile db request = (tp, Returned profile) ->
        recommendations_of (run_cme_query request db k m) = Some recs ->
        recs <> [] ->
        exists top rest first others q,
          selected db profile chunks m = top :: rest
          /\ 1 <= raw_score top
          /\ Forall2 (fun rec c =>
                        score rec
                        = Some (inject_Z (raw_score c) / inject_Z (raw_score top))%Q)
                     recs (top :: rest)
          /\ recs = first :: others
          /\ score first = Some q
          /\ (q == 1)%Q).
Proof.
  split.
  - intros [[cme_id meta] ev] rest. unfold build_recommendations.
    apply (recommendations_from_scores (e_score meta) ((cme_id, meta, ev) :: rest) 1).
  - intros request db k m chunks tp profile recs Hvs Hp Hrun Hne.
    apply recommendations_of_run in Hrun.
    destruct Hrun as [->|(chunks' & tp' & profile' & _ & Hvs' & _ & Hp' & Hsel & ->)];
      [congruence|].
    rewrite Hvs in Hvs'. injection Hvs' as <-.
    rewrite Hp in Hp'. injection Hp' as <- <-.
    pose proof (selected_positive db profile chunks m) as Hpos.
    destruct (selected db profile chunks m) as [|top rest] eqn:S; [congruence|].
    inversion Hpos as [|? ? Htop _]; subst.
    assert (Hz : (raw_score top =? 0) = false) by (apply Z.eqb_neq; lia).
    destruct top as [[cme_id meta] ev].
    exists (cme_id, meta, ev), rest.
    exists (recommendation (e_score meta) 1 (cme_id, meta, ev)),
           (recommendations_from (e_score meta) (1 + 1) rest),
           (inject_Z (e_score meta) / inject_Z (e_score meta))%Q.
    unfold raw_score in *. simpl in Htop, Hz.
    repeat split; auto.
    + pose proof (recommendations_from_scores (e_score meta)
                    ((cme_id, meta, ev) :: rest) 1) as F.
      rewrite Hz in F. exact F.
    + simpl. now rewrite Hz.
    + apply Qmult_inv_r. intros H. unfold Qeq in H. simpl in H. lia.
Qed.

Lemma normalized_scores_witness :
  exists top rest first others q,
    selected one_completed_store physician9_profile example_chunks 5 = top :: rest
    /\ 1 <= raw_score top
    /\ Forall2 (fun rec c =>
                  score rec
                  = Some (inject_Z (raw_score c) / inject_Z (raw_score top))%Q)
               physician9_recommendations (top :: rest)
    /\ physician9_recommendations = first :: others
    /\ score first = Some q
    /\ (q == 1)%Q.
Proof.
  apply (proj2 normalized_scores
           (ask "sepsis" (Some 9)) one_completed_store 24 5 example_chunks
           [PhysicianQuery 9; PreferenceQuery 9; CompletedQuery 9]
           physician9_profile physician9_recommendations).
  - reflexivity.
  - reflexivity.
  - reflexivity.
  - discriminate.
Defined.

End Scores.

(* ------------------------------------------------------------------------- *)
(** ** Answer generation *)
(* ------------------------------------------------------------------------- *)

Section Answer.
Import PhysicianProfile CmeQuery Stages Vary Sample Computed.

(** The profile is built with the three store queries, or with none. *)
Lemma build_profile_trace db request tp profile :
  build_effective_physician_profile db request = (tp, Returned profile) ->
  tp = []
  \/ exists pid, tp = [PhysicianQuery pid; PreferenceQuery pid; CompletedQuery pid].
Proof.
  rewrite build_profile_value.
  destruct (pid_truthy (physician_id request)) as [pid|].
  - intros [= <- _]. right. now exists pid.
  - intros [= <- _]. now left.
Qed.

Lemma build_with_llm db f request :
  build_effective_physician_profile (with_llm db f) request
  = build_effective_physician_profile db request.
Proof. reflexivity. Qed.

Lemma selected_with_llm db f profile chunks m :
  selected (with_llm db f) profile chunks m = selected db profile chunks m.
Proof. reflexivity. Qed.

(** C5.  If a run reaches the language-model call and that call fails, the
    run still returns: the answer is the fixed fallback sentence and the
    list is the one the same run returns when the model answers. *)
Theorem llm_failure_keeps_recommendations request db k m p :
  In (LLMCall p) (trace (run_cme_query request db k m)) ->
  llm db p = None ->
  exists recs,
    outcome (run_cme_query request db k m) = Returned (llm_fallback_answer, recs)
    /\ recs <> []
    /\ forall content,
         outcome (run_cme_query request (with_llm db (fun _ => Some content)) k m)
         = Returned (Py.strip content, recs).
Proof.
  intros Hin Hllm.
  destruct (run_cme_query_cases request db k m)
    as [[_ E]|[(_ & _ & E)|[(status & body & _ & _ & _ & E)
        |[(_ & _ & E)|(chunks & tp & profile & Hq & Hvs & Hch & Hp & E)]]]];
    rewrite E in Hin; simpl in Hin;
    try (destruct Hin as [Hin|[]]; discriminate); try contradiction.
  unfold staged_run in Hin.
  destruct (is_nil (selected db profile chunks m)) eqn:Hsel; simpl in Hin.
  - exfalso. destruct Hin as [Hin|Hin]; [discriminate|].
    apply in_app_or in Hin. destruct Hin as [Hin|[Hin|[]]]; [|discriminate].
    destruct (build_profile_trace _ _ _ _ Hp) as [->|[pid ->]]; simpl in Hin.
    + contradiction.
    + destruct Hin as [Hin|[Hin|[Hin|[]]]]; discriminate.
  - assert (Hprompt :
              p = {| prompt_question := Py.strip (question request);
                     prompt_profile := profile;
                     prompt_candidates := selected db profile chunks m |}).
    { destruct Hin as [Hin|Hin]; [discriminate|].
      apply in_app_or in Hin. destruct Hin as [Hin|[Hin|[]]]; [|congruence].
      apply in_app_or in Hin. destruct Hin as [Hin|[Hin|[]]]; [|discriminate].
      destruct (build_profile_trace _ _ _ _ Hp) as [->|[pid ->]]; simpl in Hin.
      - contradiction.
      - destruct Hin as [Hin|[Hin|[Hin|[]]]]; discriminate. }
    exists (build_recommendations (selected db profile chunks m)).
    split; [|split].
    + rewrite E. unfold staged_run. rewrite Hsel. simpl.
      rewrite <- Hprompt, Hllm. reflexivity.
    + apply is_nil_false in Hsel. intros Hnil.
      apply Hsel. apply length_zero_iff_nil.
      rewrite <- build_recommendations_length, Hnil. reflexivity.
    + intros content.
      rewrite (run_cme_query_staged request (with_llm db (fun _ => Some content))
                 k m chunks tp profile Hq Hvs Hch Hp).
      unfold staged_run. rewrite selected_with_llm, Hsel. reflexivity.
Qed.

Lemma llm_failure_keeps_recommendations_witness :
  exists recs,
    outcome (run_cme_query (ask "sepsis" (Some 9)) one_completed_store 24 5)
    = Returned (llm_fallback_answer, recs)
    /\ recs <> []
    /\ forall content,
         outcome (run_cme_query (ask "sepsis" (Some 9))
                    (with_llm one_completed_store (fun _ => Some content)) 24 5)
         = Returned (Py.strip content, recs).
Proof.
  apply (llm_failure_keeps_recommendations
           (ask "sepsis" (Some 9)) one_completed_store 24 5
           {| prompt_question := "sepsis";
              prompt_profile := physician9_profile;
              prompt_candidates :=
                selected one_completed_store physician9_profile example_chunks 5 |}).
  - vm_compute. do 5 right. left. reflexivity.
  - reflexivity.
Defined.

End Answer.

(* ------------------------------------------------------------------------- *)
(** ** Trimming *)
(* ------------------------------------------------------------------------- *)

Section Trimming.
Import Py.


Lemma space_width_app s t w :
  space_width s = S w -> space_width (s ++ t)%string = S w.
Proof.
  destruct s as [|c [|d [|e r]]]; simpl; try discriminate.
  - destruct (is_space c); [auto|].
    rewrite !andb_false_r. simpl. discriminate.
  - destruct (is_space c); [auto|].
    destruct (byte_is 194 c && (byte_is 133 d || byte_is 160 d)); [auto|].
    rewrite !andb_false_r. simpl. discriminate.
  - auto.
Qed.

Lemma space_width_length s : (space_width s <= String.length s)%nat.
Proof.
  destruct s as [|c [|d [|e r]]]; simpl; try lia.
  - destruct (is_space c); [lia|]. rewrite !andb_false_r. simpl. lia.
  - destruct (is_space c); [lia|].
    destruct (byte_is 194 c && (byte_is 133 d || byte_is 160 d)); [lia|].
    rewrite !andb_false_r. simpl. lia.
  - repeat match goal with |- context [if ?b then _ else _] => destruct b end; lia.
Qed.

Lemma only_space_lstrip k s :
  only_space_from k s = true -> lstrip_from k s = "".
Proof.
  revert k. induction s as [|c r IH]; intros k H; [reflexivity|].
  cbn [only_space_from lstrip_from] in *.
  destruct k as [|k]; [|now apply IH].
  destruct (space_width (String c r)); [discriminate | now apply IH].
Qed.

Lemma lstrip_only_space k s :
  (k <= String.length s)%nat -> lstrip_from k s = "" -> only_space_from k s = true.
Proof.
  revert k. induction s as [|c r IH]; intros k Hk H.
  - simpl in *. now replace k with 0%nat by lia.
  - cbn [only_space_from lstrip_from] in *.
    destruct k as [|k]; [|apply IH; simpl in Hk; [lia | assumption]].
    pose proof (space_width_length (String c r)) as Hw.
    destruct (space_width (String c r)); [discriminate|].
    apply IH; [simpl in Hw; lia | assumption].
Qed.

Lemma only_space_app k s t :
  only_space_from k s = true -> only_space t = true ->
  only_space_from k (s ++ t)%string = true.
Proof.
  revert k. induction s as [|c r IH]; intros k H Ht.
  - simpl in H. apply Nat.eqb_eq in H. now subst.
  - change ((String c r) ++ t)%string with (String c (r ++ t)%string).
    cbn [only_space_from] in *.
    destruct k as [|k]; [|now apply IH].
    destruct (space_width (String c r)) as [|w] eqn:E; [discriminate|].
    change (String c (r ++ t)%string) with ((String c r) ++ t)%string.
    rewrite (space_width_app _ t w E). now apply IH.
Qed.

Lemma rstrip_split s : exists t, s = (rstrip s ++ t)%string /\ only_space t = true.
Proof.
  induction s as [|c r (t & Hr & Ht)].
  - now exists "".
  - cbn [rstrip]. destruct (only_space (String c r)) eqn:E.
    + now exists (String c r).
    + exists t. split; [|exact Ht]. simpl. now rewrite <- Hr.
Qed.

Lemma only_space_rstrip c r :
  only_space (String c r) = false -> only_space (String c (rstrip r)) = false.
Proof.
  intros H. destruct (only_space (String c (rstrip r))) eqn:E; [|reflexivity].
  destruct (rstrip_split r) as (t & Hr & Ht).
  pose proof (only_space_app 0 _ t E Ht) as Happ.
  simpl append in Happ. rewrite <- Hr in Happ.
  unfold only_space in H. congruence.
Qed.

Lemma rstrip_idem s : rstrip (rstrip s) = rstrip s.
Proof.
  induction s as [|c r IH]; [reflexivity|].
  cbn [rstrip]. destruct (only_space (String c r)) eqn:E; [reflexivity|].
  cbn [rstrip]. now rewrite (only_space_rstrip c r E), IH.
Qed.

Lemma rstrip_empty s : rstrip s = "" <-> only_space s = true.
Proof.
  destruct s as [|c r]; [now split|].
  cbn [rstrip]. destruct (only_space (String c r)); split; auto; discriminate.
Qed.

Lemma lstrip_from_width k s : space_width (lstrip_from k s) = 0%nat.
Proof.
  revert k. induction s as [|c r IH]; intros k; [reflexivity|].
  cbn [lstrip_from]. destruct k as [|k]; [|apply IH].
  destruct (space_width (String c r)) eqn:E; [exact E | apply IH].
Qed.

Lemma rstrip_width s : space_width s = 0%nat -> space_width (rstrip s) = 0%nat.
Proof.
  intros H. destruct (space_width (rstrip s)) as [|w] eqn:E; [reflexivity|].
  destruct (rstrip_split s) as (t & Hs & _).
  apply (space_width_app _ t) in E. rewrite <- Hs in E. congruence.
Qed.

Lemma lstrip_fixed s : space_width s = 0%nat -> lstrip s = s.
Proof.
  intros H. destruct s as [|c r]; [reflexivity|].
  unfold lstrip. cbn [lstrip_from]. now rewrite H.
Qed.

Lemma strip_idem s : strip (strip s) = strip s.
Proof.
  unfold strip.
  rewrite (lstrip_fixed (rstrip (lstrip s))).
  - apply rstrip_idem.
  - apply rstrip_width, lstrip_from_width.
Qed.

Lemma strip_only_space s : only_space s = true -> strip s = "".
Proof. intros H. unfold strip, lstrip. now rewrite (only_space_lstrip 0 s H). Qed.

Lemma strip_empty_iff s : strip s = "" <-> only_space s = true.
Proof.
  split; [|apply strip_only_space].
  unfold strip. intros H. apply rstrip_empty in H.
  apply (lstrip_only_space 0); [lia|].
  pose proof (lstrip_from_width 0 s) as Hw. unfold lstrip in H.
  destruct (lstrip_from 0 s) as [|c r]; [reflexivity|].
  unfold only_space in H. cbn [only_space_from] in H. now rewrite Hw in H.
Qed.

(** Lowercasing touches no byte of a whitespace character. *)
Lemma lower_char_idem c : lower_char (lower_char c) = lower_char c.
Proof. destruct c as [[] [] [] [] [] [] [] []]; reflexivity. Qed.

Lemma is_space_lower_char c : is_space (lower_char c) = is_space c.
Proof. destruct c as [[] [] [] [] [] [] [] []]; reflexivity. Qed.

Lemma code_lower_char c :
  N_of_ascii (lower_char c)
  = (if (65 <=? N_of_ascii c) && (N_of_ascii c <=? 90)
     then N_of_ascii c + 32 else N_of_ascii c)%N.
Proof. destruct c as [[] [] [] [] [] [] [] []]; reflexivity. Qed.

Lemma byte_is_lower_char n c :
  (122 < n)%N -> byte_is n (lower_char c) = byte_is n c.
Proof.
  intros Hn. unfold byte_is. rewrite code_lower_char.
  destruct (N.leb_spec 65 (N_of_ascii c)), (N.leb_spec (N_of_ascii c) 90);
    simpl; try reflexivity.
  destruct (N.eqb_spec (N_of_ascii c + 32) n), (N.eqb_spec (N_of_ascii c) n);
    try reflexivity; lia.
Qed.

Lemma byte_in_lower_char lo hi c :
  (122 < lo)%N -> byte_in lo hi (lower_char c) = byte_in lo hi c.
Proof.
  intros Hn. unfold byte_in. rewrite code_lower_char.
  destruct (N.leb_spec 65 (N_of_ascii c)), (N.leb_spec (N_of_ascii c) 90);
    simpl; try reflexivity.
  destruct (N.leb_spec lo (N_of_ascii c + 32)), (N.leb_spec lo (N_of_ascii c));
    simpl; try reflexivity; lia.
Qed.

Lemma next_is_lower test s :
  (forall c, test (lower_char c) = test c) ->
  next_is test (lower s) = next_is test s.
Proof. intros H. destruct s; simpl; auto. Qed.

Lemma rest_lower s : rest (lower s) = lower (rest s).
Proof. now destruct s. Qed.

Lemma space_width_lower s : space_width (lower s) = space_width s.
Proof.
  destruct s as [|c r]; [reflexivity|].
  cbn [lower space_width]. rewrite rest_lower.
  rewrite is_space_lower_char.
  rewrite !byte_is_lower_char by lia.
  rewrite !next_is_lower
    by (intros; (apply byte_is_lower_char || apply byte_in_lower_char); lia).
  reflexivity.
Qed.

Lemma lstrip_from_lower k s : lstrip_from k (lower s) = lower (lstrip_from k s).
Proof.
  revert k. induction s as [|c r IH]; intros k; [reflexivity|].
  cbn [lower lstrip_from]. destruct k as [|k]; [|apply IH].
  change (String (lower_char c) (lower r)) with (lower (String c r)).
  rewrite space_width_lower.
  destruct (space_width (String c r)); [reflexivity | apply IH].
Qed.

Lemma only_space_from_lower k s : only_space_from k (lower s) = only_space_from k s.
Proof.
  revert k. induction s as [|c r IH]; intros k; [reflexivity|].
  cbn [lower only_space_from]. destruct k as [|k]; [|apply IH].
  change (String (lower_char c) (lower r)) with (lower (String c r)).
  rewrite space_width_lower.
  destruct (space_width (String c r)); [reflexivity | apply IH].
Qed.

Lemma rstrip_lower s : rstrip (lower s) = lower (rstrip s).
Proof.
  induction s as [|c r IH]; [reflexivity|].
  cbn [lower rstrip].
  change (String (lower_char c) (lower r)) with (lower (String c r)).
  unfold only_space. rewrite only_space_from_lower.
  destruct (only_space_from 0 (String c r)); [reflexivity|].
  cbn [lower]. now rewrite IH.
Qed.

Lemma strip_lower s : strip (lower s) = lower (strip s).
Proof. unfold strip, lstrip. now rewrite lstrip_from_lower, rstrip_lower. Qed.

End Trimming.

(* ------------------------------------------------------------------------- *)
(** ** The empty question *)
(* ------------------------------------------------------------------------- *)

Section Blank.
Import CmeQuery Stages Sample.

(** C6.  A question that is empty or made of whitespace characters only,
    those outside ASCII included, is answered with the fixed guidance
    sentence and an empty list, and the run makes no collaborator call at
    all: its trace is empty. *)
Theorem blank_question_short_circuits request db k m :
  Py.only_space (question request) = true ->
  run_cme_query request db k m = ([], Returned (empty_question_answer, [])).
Proof.
  intros H. unfold run_cme_query. now rewrite (strip_only_space _ H).
Qed.

Lemma blank_question_short_circuits_witness :
  run_cme_query (ask wide_blank (Some 9)) one_completed_store 24 5
  = ([], Returned (empty_question_answer, [])).
Proof.
  apply (blank_question_short_circuits (ask wide_blank (Some 9))
           one_completed_store 24 5).
  reflexivity.
Defined.

(** The guard of run_cme_query fires on these questions and on no other. *)
Lemma blank_guard_exact request :
  Py.is_empty (Py.strip (question request)) = true
  <-> Py.only_space (question request) = true.
Proof.
  rewrite <- strip_empty_iff.
  destruct (Py.strip (question request)); split; auto; discriminate.
Qed.

End Blank.

(* ------------------------------------------------------------------------- *)
(** ** The credit-type preference *)
(* ------------------------------------------------------------------------- *)

Section CreditType.
Import PhysicianProfile CmeQuery Stages Vary.

(** The soft branch of _eligible returns True on both sides. *)
Lemma eligible_ignores_credit_type completed mc pf ct ct' ev :
  _eligible completed mc pf ct ev = _eligible completed mc pf ct' ev.
Proof.
  unfold _eligible.
  destruct (existsb _ completed); auto.
  destruct (match mc with Some _ => _ | None => _ end); auto.
  destruct (match pf with Some _ => _ | None => _ end); auto.
  destruct ct as [c|], ct' as [c'|]; auto;
    repeat match goal with
           | |- context [if ?b then _ else _] => destruct b
           end; reflexivity.
Qed.

Lemma filter_loop_ext f g by_id m sorted :
  (forall ev, f ev = g ev) ->
  forall acc, filter_loop f by_id m sorted acc = filter_loop g by_id m sorted acc.
Proof.
  intros Hfg. induction sorted as [|[cme_id meta] rest IH]; intros acc; simpl; auto.
  destruct (Py.get cme_id by_id) as [ev|]; auto.
  rewrite Hfg. destruct (g ev); simpl; auto.
  destruct (_ >=? m); auto.
Qed.

Lemma selected_ignores_credit_type db profile ct chunks m :
  selected db (with_pr_credit_type profile ct) chunks m = selected db profile chunks m.
Proof.
  unfold selected, survivors.
  rewrite (filter_loop_ext (eligible (with_pr_credit_type profile ct))
                           (eligible profile)); auto.
  intros ev. unfold eligible. simpl. apply eligible_ignores_credit_type.
Qed.

Lemma fill_specialty_credit_type p ct row :
  fill_specialty (with_pr_credit_type p ct) row
  = with_pr_credit_type (fill_specialty p row) ct.
Proof.
  unfold fill_specialty. destruct row as [row|]; auto. simpl.
  destruct (negb (Py.truthy (pr_specialty p)) && Py.truthy (specialty_name row));
    reflexivity.
Qed.

Lemma fill_preferences_credit_type p ct row :
  fill_preferences (with_pr_credit_type p ct) row
  = with_pr_credit_type (fill_preferences p row) ct.
Proof.
  unfold fill_preferences. destruct row as [row|]; auto. simpl.
  destruct (no_travel (Py.or_else (travel_pref row) ""));
    destruct (negb (Py.truthy (pr_preferred_format p)) && Py.truthy (modality_pref row));
    reflexivity.
Qed.

Lemma apply_defaults_credit_type p ct :
  apply_defaults (with_pr_credit_type p ct)
  = with_pr_credit_type (apply_defaults p) ct.
Proof.
  unfold apply_defaults. simpl.
  destruct (pr_preferred_format p) as [f|]; simpl.
  - destruct (negb (Py.is_empty f)); simpl; destruct (pr_travel_ok p); reflexivity.
  - destruct (pr_travel_ok p); reflexivity.
Qed.

Lemma build_with_credit_type db request ct tp profile :
  build_effective_physician_profile db request = (tp, Returned profile) ->
  build_effective_physician_profile db (with_credit_type request ct)
  = (tp, Returned (with_pr_credit_type profile ct)).
Proof.
  rewrite !build_profile_value.
  change (physician_id (with_credit_type request ct)) with (physician_id request).
  change (seed_profile (with_credit_type request ct))
    with (with_pr_credit_type (seed_profile request) ct).
  destruct (pid_truthy (physician_id request)) as [pid|]; intros [= <- <-].
  - rewrite fill_specialty_credit_type, fill_preferences_credit_type,
      <- apply_defaults_credit_type.
    reflexivity.
  - now rewrite apply_defaults_credit_type.
Qed.

(** C10.  Two requests that differ only in credit_type get, from the same
    collaborators, the same outcome as far as the recommendation list is
    concerned: the same list (ids, ranks, scores, titles, URLs), or the
    same failure of the vector search. *)
Theorem credit_type_never_affects_recommendations request db k m ct :
  recommendations_of (run_cme_query (with_credit_type request ct) db k m)
  = recommendations_of (run_cme_query request db k m).
Proof.
  destruct (run_cme_query_cases request db k m)
    as [[Hq E]|[(Hq & Hvs & E)|[(status & body & Hq & Hvs & Hs & E)
        |[(Hq & Hvs & E)|(chunks & tp & profile & Hq & Hvs & Hch & Hp & E)]]]];
    rewrite E.
  - unfold run_cme_query. simpl question. now rewrite Hq.
  - unfold run_cme_query, post_vector_search. simpl question. now rewrite Hq, Hvs.
  - unfold run_cme_query, post_vector_search. simpl question. rewrite Hq, Hvs.
    simpl. now rewrite Hs.
  - unfold run_cme_query, post_vector_search. simpl question. now rewrite Hq, Hvs.
  - rewrite (run_cme_query_staged (with_credit_type request ct) db k m chunks tp
               (with_pr_credit_type profile ct) Hq Hvs Hch
               (build_with_credit_type db request ct tp profile Hp)).
    unfold staged_run, recommendations_of, outcome.
    rewrite selected_ignores_credit_type.
    destruct (is_nil (selected db profile chunks m)); reflexivity.
Qed.

End CreditType.

(* ------------------------------------------------------------------------- *)
(** ** Two places where the code departs from its documentation *)
(* ------------------------------------------------------------------------- *)

Section Departures.
Import PhysicianProfile CmeQuery Stages Vary Sample Failing.

(** The request's travel_ok is never read: changing it changes nothing. *)
Lemma build_ignores_request_travel_ok db request t :
  build_effective_physician_profile db (with_travel_ok request t)
  = build_effective_physician_profile db request.
Proof. reflexivity. Qed.

Lemma apply_defaults_travel_ok p :
  pr_travel_ok (apply_defaults p)
  = Some match pr_travel_ok p with Some b => b | None => true end.
Proof.
  unfold apply_defaults.
  destruct (pr_preferred_format p) as [f|]; simpl.
  - destruct (negb (Py.is_empty f)); simpl;
      destruct (pr_travel_ok p) eqn:E; simpl; rewrite ?E; reflexivity.
  - destruct (pr_travel_ok p) eqn:E; simpl; rewrite ?E; reflexivity.
Qed.

Lemma fill_specialty_travel_ok p row :
  pr_travel_ok (fill_specialty p row) = pr_travel_ok p.
Proof.
  unfold fill_specialty. destruct row as [row|]; auto.
  destruct (negb (Py.truthy (pr_specialty p)) && Py.truthy (specialty_name row));
    reflexivity.
Qed.

Lemma fill_preferences_travel_ok p row :
  pr_travel_ok (fill_preferences p row)
  = match row with
    | Some r => Some (negb (no_travel (Py.or_else (travel_pref r) "")))
    | None => pr_travel_ok p
    end.
Proof.
  unfold fill_preferences. destruct row as [r|]; auto.
  destruct (no_travel (Py.or_else (travel_pref r) "")); reflexivity.
Qed.

(** What the code computes for travel_ok: the stored preference when the
    physician id is set and a preference row exists, true otherwise. *)
Lemma build_profile_travel_ok db request tp profile :
  build_effective_physician_profile db request = (tp, Returned profile) ->
  pr_travel_ok profile
  = Some match pid_truthy (physician_id request) with
         | Some pid =>
             match find (fun r => pref_physician_id r =? pid)
                        (physician_preference db) with
             | Some row => negb (no_travel (Py.or_else (travel_pref row) ""))
             | None => true
             end
         | None => true
         end.
Proof.
  rewrite build_profile_value.
  destruct (pid_truthy (physician_id request)) as [pid|]; intros [= _ <-];
    rewrite apply_defaults_travel_ok; [|reflexivity].
  change (pr_travel_ok (set_missing_requirements ?p _)) with (pr_travel_ok p).
  simpl pr_travel_ok at 1.
  rewrite fill_preferences_travel_ok.
  destruct (find _ (physician_preference db)); [reflexivity|].
  now rewrite fill_specialty_travel_ok.
Qed.

(** C3.  The code at two requests that supply travel_ok.  Without a
    physician id and with travel_ok = false, the profile has travel_ok =
    true (the default).  With a stored preference "no_travel" and
    travel_ok = true in the request, the profile has travel_ok = false (the
    stored value). *)
Theorem travel_ok_of_request_is_dropped :
  (travel_ok no_travel_request = Some false
   /\ exists tp profile,
        build_effective_physician_profile plain_store no_travel_request
        = (tp, Returned profile)
        /\ pr_travel_ok profile = Some true)
  /\ (travel_ok travel_request = Some true
      /\ exists tp profile,
           build_effective_physician_profile no_travel_store travel_request
           = (tp, Returned profile)
           /\ pr_travel_ok profile = Some false).
Proof.
  split; (split; [reflexivity|]); do 2 eexists; split; reflexivity.
Qed.

(** C9.  The code at an event stored with an empty title: the
    recommendation is built, and its title is the empty string, not the
    placeholder made from the id. *)
Theorem empty_title_is_not_replaced :
  exists t answer r,
    run_cme_query (ask "airway" None) untitled_store 24 5
    = (t, Returned (answer, [r]))
    /\ cme_event_id r = 7
    /\ title r = ""
    /\ placeholder_title (cme_event_id r) = "CME 7".
Proof.
  do 3 eexists. split; [reflexivity|]. repeat split.
Qed.

(** In general the title of a recommendation is the stored title. *)
Lemma recommendation_title_is_stored_title ms r c :
  title (recommendation ms r c) = ev_title (snd c).
Proof. destruct c as [[cme_id meta] ev]. reflexivity. Qed.

End Departures.

(* ------------------------------------------------------------------------- *)
(** ** Order of the selected candidates *)
(* ------------------------------------------------------------------------- *)

Section OrderFacts.
Import PhysicianProfile CmeQuery Stages Order Sample Computed.

Lemma subseq_nil_l {A : Type} (l : list A) : subseq [] l.
Proof. induction l; [apply subseq_nil | now apply subseq_skip]. Qed.

Lemma subseq_refl {A : Type} (l : list A) : subseq l l.
Proof. induction l; [apply subseq_nil | now apply subseq_take]. Qed.

Lemma subseq_In {A : Type} (s l : list A) x : subseq s l -> In x s -> In x l.
Proof.
  induction 1; simpl; auto.
  intros [->|H']; auto.
Qed.

Lemma subseq_trans {A : Type} (s t l : list A) :
  subseq s t -> subseq t l -> subseq s l.
Proof.
  intros Hst Htl. revert s Hst.
  induction Htl as [|x t l Htl IH|x t l Htl IH]; intros s Hst; auto.
  - apply subseq_skip. auto.
  - inversion Hst; subst; [apply subseq_skip | apply subseq_take]; auto.
Qed.

Lemma subseq_firstn {A : Type} n (l : list A) : subseq (firstn n l) l.
Proof.
  revert n. induction l as [|x l IH]; intros [|n]; simpl.
  - apply subseq_nil.
  - apply subseq_nil.
  - apply subseq_nil_l.
  - apply subseq_take, IH.
Qed.

Lemma subseq_filter {A : Type} (f : A -> bool) (l : list A) : subseq (filter f l) l.
Proof.
  induction l as [|x l IH]; simpl; [apply subseq_nil|].
  destruct (f x); [apply subseq_take | apply subseq_skip]; auto.
Qed.

Lemma subseq_map {A B : Type} (f : A -> B) s l :
  subseq s l -> subseq (map f s) (map f l).
Proof.
  induction 1; simpl;
    [apply subseq_nil | apply subseq_skip | apply subseq_take]; auto.
Qed.

Lemma subseq_Forall {A : Type} (P : A -> Prop) s l :
  subseq s l -> Forall P l -> Forall P s.
Proof.
  intros Hs Hl. rewrite Forall_forall in *. eauto using subseq_In.
Qed.

Lemma subseq_NoDup {A : Type} (s l : list A) : subseq s l -> NoDup l -> NoDup s.
Proof.
  induction 1 as [|x s l Hs IH|x s l Hs IH]; intros Hnd; auto.
  - inversion Hnd; auto.
  - inversion Hnd as [|? ? Hx Hl]; subst. constructor; auto.
    intros Hin. apply Hx. eapply subseq_In; eauto.
Qed.

Lemma subseq_StronglySorted {A : Type} (R : A -> A -> Prop) s l :
  subseq s l -> StronglySorted R l -> StronglySorted R s.
Proof.
  induction 1 as [|x s l Hs IH|x s l Hs IH]; intros Hl; auto.
  - inversion Hl; auto.
  - inversion Hl as [|? ? Hl' Hx]; subst. constructor; auto.
    eapply subseq_Forall; eauto.
Qed.

Lemma subseq_slice_to {A : Type} (l : list A) m : subseq (Py.slice_to l m) l.
Proof. unfold Py.slice_to. destruct (m <? 0); apply subseq_firstn. Qed.

Section Loop.
Variables (elig : CMEEvent -> bool) (by_id : list (Z * CMEEvent)).

Lemma keep_eligible_cases x :
  (keep_eligible elig by_id x = []
   /\ (Py.get (fst x) by_id = None
       \/ exists ev, Py.get (fst x) by_id = Some ev /\ elig ev = false))
  \/ exists ev,
       Py.get (fst x) by_id = Some ev /\ elig ev = true
       /\ keep_eligible elig by_id x = [(fst x, snd x, ev)].
Proof.
  unfold keep_eligible, with_metadata.
  destruct (Py.get (fst x) by_id) as [ev|]; simpl; auto.
  destruct (elig ev) eqn:E; eauto 7.
Qed.

(** The loop takes eligible candidates in order until it has
    [max_events] of them. *)
Lemma filter_loop_firstn m sorted : forall acc,
  Z.of_nat (List.length acc) < m ->
  filter_loop elig by_id m sorted acc
  = acc ++ firstn (Z.to_nat m - List.length acc)
                  (flat_map (keep_eligible elig by_id) sorted).
Proof.
  induction sorted as [|[cme_id meta] rest IH]; intros acc Hacc; simpl.
  - now rewrite firstn_nil, app_nil_r.
  - destruct (keep_eligible_cases (cme_id, meta))
      as [[-> [G|(ev & G & E)]]|(ev & G & E & ->)]; simpl in G; rewrite G; simpl.
    + now apply IH.
    + rewrite E. simpl. now apply IH.
    + rewrite E. simpl.
      destruct (Z.to_nat m - List.length acc)%nat as [|n] eqn:N; [lia|].
      simpl.
      destruct (Z.of_nat (List.length (acc ++ [(cme_id, meta, ev)])) >=? m) eqn:C.
      * rewrite Z.geb_leb in C. apply Z.leb_le in C.
        rewrite length_app in C. simpl in C.
        assert (n = 0%nat) by lia. subst n. now rewrite firstn_0.
      * rewrite Z.geb_leb in C. apply Z.leb_gt in C.
        rewrite IH by exact C.
        rewrite <- app_assoc. simpl. do 3 f_equal.
        rewrite length_app. simpl. lia.
Qed.

(** For [max_events <= 0] the loop still appends the first eligible
    candidate before it tests the length. *)
Lemma filter_loop_nonpositive m sorted :
  m <= 0 ->
  filter_loop elig by_id m sorted []
  = firstn 1 (flat_map (keep_eligible elig by_id) sorted).
Proof.
  intros Hm. induction sorted as [|[cme_id meta] rest IH]; simpl; auto.
  destruct (keep_eligible_cases (cme_id, meta))
    as [[-> [G|(ev & G & E)]]|(ev & G & E & ->)]; simpl in G; rewrite G; simpl; auto.
  - now rewrite E.
  - rewrite E. simpl.
    destruct (1 >=? m) eqn:C; [reflexivity|].
    rewrite Z.geb_leb in C. apply Z.leb_gt in C. lia.
Qed.

Lemma flat_map_keep_eligible_subseq sorted :
  subseq (map fst (flat_map (keep_eligible elig by_id) sorted)) sorted.
Proof.
  induction sorted as [|x rest IH]; simpl; [apply subseq_nil|].
  rewrite map_app.
  destruct (keep_eligible_cases x) as [[-> _]|(ev & _ & _ & ->)]; simpl.
  - now apply subseq_skip.
  - destruct x. now apply subseq_take.
Qed.

Lemma flat_map_with_metadata_subseq sorted :
  subseq (map fst (flat_map (with_metadata by_id) sorted)) sorted.
Proof.
  rewrite flat_map_with_metadata. apply subseq_filter.
Qed.
End Loop.

Lemma survivors_firstn db profile chunks m :
  survivors db profile chunks m
  = firstn (Z.to_nat (Z.max 1 m)) (eligible_candidates db profile chunks).
Proof.
  unfold survivors, eligible_candidates.
  destruct (Z.le_gt_cases m 0) as [Hm|Hm].
  - rewrite filter_loop_nonpositive by assumption.
    now replace (Z.max 1 m) with 1 by lia.
  - rewrite filter_loop_firstn by (simpl; lia). simpl.
    rewrite Nat.sub_0_r. now replace (Z.max 1 m) with m by lia.
Qed.

(** X1.  The filtering loop returns the first max(1, max_events) candidates
    that have metadata and pass the filter, in rank order; so the fallback
    is taken exactly when no candidate with metadata passes the filter. *)
Theorem survivors_are_leading_eligible db profile chunks m :
  survivors db profile chunks m
  = firstn (Z.to_nat (Z.max 1 m)) (eligible_candidates db profile chunks)
  /\ (survivors db profile chunks m = [] <-> eligible_candidates db profile chunks = []).
Proof.
  split; [apply survivors_firstn|].
  rewrite survivors_firstn.
  destruct (eligible_candidates db profile chunks) as [|c rest].
  - now rewrite firstn_nil.
  - destruct (Z.to_nat (Z.max 1 m)) eqn:N; [lia|]. simpl. split; discriminate.
Qed.

Lemma selected_subseq db profile chunks m :
  subseq (map fst (selected db profile chunks m)) (ranked chunks).
Proof.
  unfold selected. destruct (is_nil (survivors db profile chunks m)).
  - unfold fallback. rewrite fallback_loop_flat_map. simpl.
    eapply subseq_trans; [apply flat_map_with_metadata_subseq|].
    apply subseq_slice_to.
  - rewrite survivors_firstn.
    eapply subseq_trans; [apply subseq_map, subseq_firstn|].
    apply flat_map_keep_eligible_subseq.
Qed.

End OrderFacts.

(* ------------------------------------------------------------------------- *)
(** ** What the returned list is made of *)
(* ------------------------------------------------------------------------- *)

Section Contents.
Import PhysicianProfile CmeQuery Stages Order Sample Computed MoreSamples.

Lemma ranked_keys_NoDup chunks : NoDup (map fst (ranked chunks)).
Proof.
  unfold ranked.
  apply (Permutation_NoDup (l := map fst (build_cme_map chunks))).
  - apply Permutation_map. symmetry. apply sorted_events_perm.
  - apply group_chunks_NoDup. constructor.
Qed.

(** X2.  The entity ids of a returned list are pairwise distinct. *)
Theorem recommended_ids_distinct request db k m recs :
  recommendations_of (run_cme_query request db k m) = Some recs ->
  NoDup (map cme_event_id recs).
Proof.
  intros Hrun. apply recommendations_of_run in Hrun.
  destruct Hrun as [->|(chunks & tp & profile & _ & _ & _ & _ & _ & ->)];
    [constructor|].
  rewrite build_recommendations_ids.
  rewrite <- (map_map fst fst).
  apply (subseq_NoDup _ (map fst (ranked chunks))).
  - apply subseq_map, selected_subseq.
  - apply ranked_keys_NoDup.
Qed.

Lemma recommended_ids_distinct_witness :
  NoDup (map cme_event_id plain_recommendations).
Proof.
  apply (recommended_ids_distinct (ask "sepsis" None) plain_store 24 5).
  reflexivity.
Defined.

Lemma StronglySorted_map {A B : Type} (R : A -> A -> Prop) (R' : B -> B -> Prop)
    (f : A -> B) l :
  (forall x y, R x y -> R' (f x) (f y)) ->
  StronglySorted R l -> StronglySorted R' (map f l).
Proof.
  intros HR. induction 1 as [|x l Hl IH Hx]; simpl; constructor; auto.
  rewrite Forall_forall in *. intros y Hy.
  apply in_map_iff in Hy. destruct Hy as (z & <- & Hz). auto.
Qed.

Lemma quotient_bounds a b :
  1 <= a -> a <= b ->
  (0 < inject_Z a / inject_Z b /\ inject_Z a / inject_Z b <= 1)%Q.
Proof.
  intros Ha Hab. destruct b as [|p|p]; try lia.
  unfold Qdiv, Qmult, Qinv, Qlt, Qle, inject_Z. simpl. split; nia.
Qed.

Lemma quotient_mono a a' b :
  1 <= b -> a' <= a -> (inject_Z a' / inject_Z b <= inject_Z a / inject_Z b)%Q.
Proof.
  intros Hb Ha. destruct b as [|p|p]; try lia.
  unfold Qdiv, Qmult, Qinv, Qle, inject_Z. simpl. nia.
Qed.

Lemma recommendations_from_score_map ms l : forall r,
  map score (recommendations_from ms r l)
  = map (fun c => Some (if ms =? 0 then 0%Q
                        else (inject_Z (raw_score c) / inject_Z ms)%Q)) l.
Proof.
  induction l as [|[[cme_id meta] ev] rest IH]; intros r; simpl; auto.
  now rewrite IH.
Qed.

Lemma selected_sorted db profile chunks m :
  StronglySorted (fun c d : Candidate => raw_score d <= raw_score c)
                 (selected db profile chunks m).
Proof.
  pose proof (subseq_StronglySorted score_ge _ _
                (selected_subseq db profile chunks m)
                (sorted_events_sorted (build_cme_map chunks))) as S.
  remember (selected db profile chunks m) as sel. clear Heqsel.
  induction sel as [|c rest IH]; [constructor|].
  simpl in S. inversion S as [|? ? Hrest Hc]; subst.
  constructor; auto.
  rewrite Forall_forall in *. intros d Hd.
  specialize (Hc (fst d) (in_map fst _ _ Hd)).
  unfold score_ge, raw_score in *. lia.
Qed.

(** X3.  Every item of a returned list has a score, the scores lie in
    (0, 1] and never increase along the list. *)
Theorem scores_descend_within_unit_interval request db k m recs :
  recommendations_of (run_cme_query request db k m) = Some recs ->
  exists qs,
    map score recs = map Some qs
    /\ Forall (fun q => 0 < q /\ q <= 1)%Q qs
    /\ StronglySorted (fun a b => b <= a)%Q qs.
Proof.
  intros Hrun. apply recommendations_of_run in Hrun.
  destruct Hrun as [->|(chunks & tp & profile & _ & _ & _ & _ & Hsel & ->)].
  - exists []. repeat split; constructor.
  - pose proof (selected_positive db profile chunks m) as Hpos.
    pose proof (selected_sorted db profile chunks m) as Hsort.
    destruct (selected db profile chunks m) as [|top rest] eqn:S; [congruence|].
    assert (Htop : 1 <= raw_score top) by now inversion Hpos.
    assert (Hz : (raw_score top =? 0) = false) by (apply Z.eqb_neq; lia).
    assert (Hle : Forall (fun c => raw_score c <= raw_score top) (top :: rest)).
    { inversion Hsort; subst. constructor; [lia | assumption]. }
    exists (map (fun c => (inject_Z (raw_score c) / inject_Z (raw_score top))%Q)
                (top :: rest)).
    split; [|split].
    + unfold build_recommendations. destruct top as [[cme_id meta] ev].
      rewrite recommendations_from_score_map, map_map.
      unfold raw_score in Hz. simpl in Hz. unfold raw_score at 2. simpl fst.
      simpl snd. rewrite Hz. reflexivity.
    + rewrite Forall_forall in *. intros q Hq.
      apply in_map_iff in Hq. destruct Hq as (c & <- & Hc).
      apply quotient_bounds; auto.
    + apply (StronglySorted_map
               (fun c d : Candidate => raw_score d <= raw_score c)); auto.
      intros x y Hxy. now apply quotient_mono.
Qed.

Lemma scores_descend_witness :
  exists qs,
    map score plain_recommendations = map Some qs
    /\ Forall (fun q => 0 < q /\ q <= 1)%Q qs
    /\ StronglySorted (fun a b => b <= a)%Q qs.
Proof.
  apply (scores_descend_within_unit_interval (ask "sepsis" None) plain_store 24 5).
  reflexivity.
Defined.

End Contents.

Section Provenance.
Import PhysicianProfile CmeQuery Stages Order Sample Computed MoreSamples.

Lemma events_by_id_In events k e :
  In (k, e) (events_by_id events) -> In e events.
Proof.
  unfold events_by_id.
  assert (G : forall d,
             In (k, e) (fold_left (fun d e => Py.set (ev_id e) e d) events d) ->
             In (k, e) d \/ In e events).
  { induction events as [|x rest IH]; intros d H; simpl in *; auto.
    apply IH in H. destruct H as [H|H]; auto.
    apply In_set in H. destruct H as [[= _ ->]|H]; auto. }
  intros H. apply G in H. destruct H as [[]|H]. exact H.
Qed.

Lemma metadata_In_table db chunks cme_id ev :
  Py.get cme_id (metadata db chunks) = Some ev ->
  In ev (cme_event db) /\ ev_id ev = cme_id.
Proof.
  intros G. split; [|now apply (metadata_key db chunks)].
  apply get_In, events_by_id_In in G.
  unfold loaded_events in G. now apply filter_In in G.
Qed.

Lemma ranked_owned chunks x :
  In x (ranked chunks) -> In (Some (fst x)) (map source_id chunks).
Proof.
  unfold ranked. rewrite sorted_events_In. intros H.
  apply (in_map fst) in H.
  unfold build_cme_map in H. apply group_chunks_keys in H.
  destruct H as [[]|H]. exact H.
Qed.

(** Every selected candidate is a ranked entity together with the event
    the metadata lookup returned for it. *)
Lemma selected_lookup db profile chunks m :
  Forall (fun c : Candidate =>
            In (fst c) (ranked chunks)
            /\ Py.get (fst (fst c)) (metadata db chunks) = Some (snd c))
         (selected db profile chunks m).
Proof.
  unfold selected. destruct (is_nil (survivors db profile chunks m)).
  - unfold fallback. rewrite fallback_loop_flat_map. simpl.
    apply Forall_forall. intros c Hc. apply in_flat_map in Hc.
    destruct Hc as (x & Hx & Hc). unfold with_metadata in Hc.
    destruct (Py.get (fst x) (metadata db chunks)) eqn:G; [|destruct Hc].
    destruct Hc as [<-|[]]. simpl. split; auto.
    destruct x. now apply In_slice_to in Hx.
  - unfold survivors. apply filter_loop_Forall; [|constructor].
    intros cme_id meta ev Hin G _. simpl. auto.
Qed.

Lemma In_recommendations_from ms l : forall j r,
  In r (recommendations_from ms j l) ->
  exists c j', In c l /\ r = recommendation ms j' c.
Proof.
  induction l as [|c rest IH]; intros j r H; simpl in H; [destruct H|].
  destruct H as [<-|H].
  - exists c, j. split; [now left | reflexivity].
  - apply IH in H. destruct H as (c' & j' & Hc & ->).
    exists c', j'. split; [now right | reflexivity].
Qed.

Lemma In_build_recommendations l r :
  In r (build_recommendations l) ->
  exists c ms j, In c l /\ r = recommendation ms j c.
Proof.
  unfold build_recommendations. intros H.
  apply In_recommendations_from in H. destruct H as (c & j & Hc & ->). eauto.
Qed.

(** X4.  Every returned item names an entity that owns a chunk of the
    search response and has a row in cme_event, and its title, provider and
    credit hours are those of that row. *)
Theorem recommendations_come_from_the_store request db k m chunks recs :
  vector_search db (Py.strip (question request)) k = HttpResponse 200 chunks ->
  recommendations_of (run_cme_query request db k m) = Some recs ->
  Forall (fun r =>
            In (Some (cme_event_id r)) (map source_id chunks)
            /\ exists ev,
                 In ev (cme_event db)
                 /\ ev_id ev = cme_event_id r
                 /\ title r = ev_title ev
                 /\ provider r = ev_provider_name ev
                 /\ credit_hours r = ev_credits ev)
         recs.
Proof.
  intros Hvs Hrun. apply recommendations_of_run in Hrun.
  destruct Hrun as [->|(chunks' & tp & profile & _ & Hvs' & _ & _ & _ & ->)];
    [constructor|].
  rewrite Hvs in Hvs'. injection Hvs' as <-.
  apply Forall_forall. intros r Hr.
  apply In_build_recommendations in Hr. destruct Hr as (c & ms & j & Hc & ->).
  pose proof (selected_lookup db profile chunks m) as F.
  rewrite Forall_forall in F. destruct (F c Hc) as [Hrank Hget].
  destruct c as [[cme_id meta] ev]. simpl in *.
  apply metadata_In_table in Hget. destruct Hget as [Hin Hid].
  split.
  - now apply (ranked_owned chunks (cme_id, meta)).
  - exists ev. auto.
Qed.

Lemma recommendations_come_from_the_store_witness :
  Forall (fun r =>
            In (Some (cme_event_id r)) (map source_id example_chunks)
            /\ exists ev,
                 In ev (cme_event plain_store)
                 /\ ev_id ev = cme_event_id r
                 /\ title r = ev_title ev
                 /\ provider r = ev_provider_name ev
                 /\ credit_hours r = ev_credits ev)
         plain_recommendations.
Proof.
  apply (recommendations_come_from_the_store (ask "sepsis" None) plain_store 24 5).
  - reflexivity.
  - reflexivity.
Defined.

Lemma or_else_nonempty o d : d <> "" -> Py.or_else o d <> "".
Proof.
  unfold Py.or_else, Py.truthy. intros Hd.
  destruct o as [s|]; auto. destruct s; simpl; auto. discriminate.
Qed.

Lemma or_else_match o d :
  Py.or_else o d = match o with
                   | Some (String c s) => String c s
                   | _ => d
                   end.
Proof. destruct o as [[|c s]|]; reflexivity. Qed.

(** X5.  Every returned item carries a non-empty URL, and it is determined
    by the row loaded for its entity: the stored URL of that row when it is
    a non-empty string, and the URL made from the fixed base and the entity
    id when the stored URL is NULL or empty. *)
Theorem every_recommendation_has_a_url request db k m chunks recs :
  vector_search db (Py.strip (question request)) k = HttpResponse 200 chunks ->
  recommendations_of (run_cme_query request db k m) = Some recs ->
  Forall (fun r =>
            url r <> Some ""
            /\ exists ev,
                 Py.get (cme_event_id r) (metadata db chunks) = Some ev
                 /\ In ev (cme_event db)
                 /\ url r = Some match ev_url ev with
                                 | Some (String c s) => String c s
                                 | Some EmptyString | None =>
                                     ("https://mycertiq-demo.local/cme/"
                                      ++ Py.str_of_int (cme_event_id r))%string
                                 end)
         recs.
Proof.
  intros Hvs Hrun. apply recommendations_of_run in Hrun.
  destruct Hrun as [->|(chunks' & tp & profile & _ & Hvs' & _ & _ & _ & ->)];
    [constructor|].
  rewrite Hvs in Hvs'. injection Hvs' as <-.
  apply Forall_forall. intros r Hr.
  apply In_build_recommendations in Hr. destruct Hr as (c & ms & j & Hc & ->).
  pose proof (selected_lookup db profile chunks m) as F.
  rewrite Forall_forall in F. destruct (F c Hc) as [_ Hget].
  destruct c as [[cme_id meta] ev]. simpl in *.
  split.
  - intros E. injection E as E. revert E.
    apply or_else_nonempty. unfold fallback_url. discriminate.
  - exists ev. split; [exact Hget|]. split.
    + now apply metadata_In_table in Hget.
    + rewrite or_else_match. reflexivity.
Qed.

(** On [linked_store] the three items carry the stored URL of entity 1 and
    the generated URLs of entities 2 (NULL) and 3 (empty). *)
Lemma every_recommendation_has_a_url_witness :
  map url linked_recommendations
  = [Some "https://cme.example.org/airway";
     Some "https://mycertiq-demo.local/cme/2";
     Some "https://mycertiq-demo.local/cme/3"]
  /\ Forall (fun r =>
               url r <> Some ""
               /\ exists ev,
                    Py.get (cme_event_id r)
                      (metadata linked_store
                         [chunk_of 1; chunk_of 2; chunk_of 3; chunk_of 1])
                    = Some ev
                    /\ In ev (cme_event linked_store)
                    /\ url r = Some match ev_url ev with
                                    | Some (String c s) => String c s
                                    | Some EmptyString | None =>
                                        ("https://mycertiq-demo.local/cme/"
                                         ++ Py.str_of_int (cme_event_id r))%string
                                    end)
            linked_recommendations.
Proof.
  split; [reflexivity|].
  apply (every_recommendation_has_a_url (ask "sepsis" None) linked_store 24 5).
  - reflexivity.
  - reflexivity.
Defined.

End Provenance.

(* ------------------------------------------------------------------------- *)
(** ** The hard constraints on the filter path *)
(* ------------------------------------------------------------------------- *)

Section Constraints.
Import PhysicianProfile CmeQuery Stages Order Sample Computed MoreSamples.

Lemma fill_specialty_untouched p row :
  untouched (fill_specialty p row) = untouched p.
Proof.
  unfold fill_specialty. destruct row as [row|]; auto.
  destruct (negb (Py.truthy (pr_specialty p)) && Py.truthy (specialty_name row));
    reflexivity.
Qed.

Lemma fill_preferences_untouched p row :
  untouched (fill_preferences p row) = untouched p.
Proof.
  unfold fill_preferences. destruct row as [row|]; auto.
  destruct (no_travel (Py.or_else (travel_pref row) ""));
    destruct (negb (Py.truthy (pr_preferred_format p)) && Py.truthy (modality_pref row));
    reflexivity.
Qed.

Lemma apply_defaults_untouched p : untouched (apply_defaults p) = untouched p.
Proof.
  unfold apply_defaults.
  destruct (pr_preferred_format p) as [f|] eqn:F; simpl.
  - destruct (negb (Py.is_empty f)); simpl;
      destruct (pr_travel_ok p) eqn:T; simpl; rewrite ?T; reflexivity.
  - destruct (pr_travel_ok p) eqn:T; simpl; rewrite ?T; reflexivity.
Qed.

Lemma build_profile_untouched db request tp profile :
  build_effective_physician_profile db request = (tp, Returned profile) ->
  untouched profile
  = (physician_id request, state request, min_credits request, credit_type request).
Proof.
  rewrite build_profile_value.
  destruct (pid_truthy (physician_id request)) as [pid|]; intros [= _ <-];
    rewrite apply_defaults_untouched; [|reflexivity].
  change (untouched (set_missing_requirements ?p _)) with (untouched p).
  change (untouched (set_completed_cme_ids ?p _)) with (untouched p).
  now rewrite fill_preferences_untouched, fill_specialty_untouched.
Qed.

Lemma eligible_min_credits completed mc pf ct ev :
  _eligible completed (Some mc) pf ct ev = true ->
  (mc <= credits_or_zero (ev_credits ev))%Q.
Proof.
  unfold _eligible, credits_or_zero.
  destruct (existsb _ completed); [discriminate|].
  destruct (Qle_bool mc _) eqn:E; simpl; [|discriminate].
  intros _. now apply Qle_bool_iff.
Qed.

Lemma eligible_format completed mc pf ct ev :
  _eligible completed mc (Some pf) ct ev = true ->
  pf <> "" ->
  normalised_format ev = "" \/ normalised_format ev = pf.
Proof.
  unfold _eligible, normalised_format. intros H Hpf.
  destruct (existsb _ completed); [discriminate|].
  destruct (match mc with Some _ => _ | None => _ end); [discriminate|].
  assert (T : Py.truthy (Some pf) = true) by (destruct pf; [congruence | reflexivity]).
  rewrite T in H.
  destruct (Py.lower (Py.strip (Py.or_else (ev_format ev) ""))) as [|c s] eqn:F; auto.
  destruct (String.eqb (String c s) pf) eqn:E.
  - right. now apply String.eqb_eq.
  - cbn [Py.is_empty negb andb] in H. discriminate.
Qed.

(** Everything the filtering loop kept was looked up and accepted. *)
Lemma survivors_accepted db profile chunks m :
  Forall (fun c : Candidate =>
            Py.get (fst (fst c)) (metadata db chunks) = Some (snd c)
            /\ eligible profile (snd c) = true)
         (survivors db profile chunks m).
Proof.
  unfold survivors. apply filter_loop_Forall; [|constructor].
  intros cme_id meta ev _ G E. simpl. auto.
Qed.

(** X6.  On the filter path (at least one candidate passed the filter) and
    with min_credits set in the request, every returned item has at least
    that many credits, a missing credit count being 0. *)
Theorem filter_path_meets_min_credits request db k m chunks tp profile recs mc :
  vector_search db (Py.strip (question request)) k = HttpResponse 200 chunks ->
  build_effective_physician_profile db request = (tp, Returned profile) ->
  survivors db profile chunks m <> [] ->
  recommendations_of (run_cme_query request db k m) = Some recs ->
  min_credits request = Some mc ->
  Forall (fun r => (mc <= credits_or_zero (credit_hours r))%Q) recs.
Proof.
  intros Hvs Hp Hsurv Hrun Hmc. apply recommendations_of_run in Hrun.
  destruct Hrun as [->|(chunks' & tp' & profile' & _ & Hvs' & _ & Hp' & _ & ->)];
    [constructor|].
  rewrite Hvs in Hvs'. injection Hvs' as <-.
  rewrite Hp in Hp'. injection Hp' as <- <-.
  unfold selected. apply is_nil_false in Hsurv. rewrite Hsurv.
  apply Forall_forall. intros r Hr.
  apply In_build_recommendations in Hr. destruct Hr as (c & ms & j & Hc & ->).
  pose proof (survivors_accepted db profile chunks m) as F.
  rewrite Forall_forall in F. destruct (F c Hc) as [_ Hel].
  destruct c as [[cme_id meta] ev]. simpl in *.
  unfold eligible in Hel.
  pose proof (build_profile_untouched db request tp profile Hp) as U.
  unfold untouched in U. injection U as _ _ Umc _.
  rewrite Umc, Hmc in Hel. now apply eligible_min_credits in Hel.
Qed.

Lemma filter_path_meets_min_credits_witness :
  Forall (fun r => (2 <= credits_or_zero (credit_hours r))%Q) picky_recommendations.
Proof.
  apply (filter_path_meets_min_credits picky_request credit_store 24 5
           example_chunks [] picky_profile).
  - reflexivity.
  - reflexivity.
  - vm_compute. discriminate.
  - reflexivity.
  - reflexivity.
Defined.

(** X7.  On the filter path and with a non-empty preferred format in the
    profile, every returned item belongs to an event whose format, trimmed
    and lowercased, is empty or equal to the trimmed, lowercased
    preference. *)
Theorem filter_path_meets_preferred_format request db k m chunks tp profile recs pf :
  vector_search db (Py.strip (question request)) k = HttpResponse 200 chunks ->
  build_effective_physician_profile db request = (tp, Returned profile) ->
  survivors db profile chunks m <> [] ->
  recommendations_of (run_cme_query request db k m) = Some recs ->
  pr_preferred_format profile = Some pf ->
  Py.lower (Py.strip pf) <> "" ->
  Forall (fun r =>
            exists ev,
              In ev (cme_event db) /\ ev_id ev = cme_event_id r
              /\ title r = ev_title ev
              /\ (normalised_format ev = ""
                  \/ normalised_format ev = Py.lower (Py.strip pf)))
         recs.
Proof.
  intros Hvs Hp Hsurv Hrun Hpf Hne. apply recommendations_of_run in Hrun.
  destruct Hrun as [->|(chunks' & tp' & profile' & _ & Hvs' & _ & Hp' & _ & ->)];
    [constructor|].
  rewrite Hvs in Hvs'. injection Hvs' as <-.
  rewrite Hp in Hp'. injection Hp' as <- <-.
  unfold selected. apply is_nil_false in Hsurv. rewrite Hsurv.
  apply Forall_forall. intros r Hr.
  apply In_build_recommendations in Hr. destruct Hr as (c & ms & j & Hc & ->).
  pose proof (survivors_accepted db profile chunks m) as F.
  rewrite Forall_forall in F. destruct (F c Hc) as [Hget Hel].
  destruct c as [[cme_id meta] ev]. simpl in *.
  apply metadata_In_table in Hget. destruct Hget as [Hin Hid].
  exists ev. repeat split; auto.
  unfold eligible in Hel. rewrite Hpf in Hel. simpl in Hel.
  now apply eligible_format in Hel.
Qed.

Lemma filter_path_meets_preferred_format_witness :
  Forall (fun r =>
            exists ev,
              In ev (cme_event credit_store) /\ ev_id ev = cme_event_id r
              /\ title r = ev_title ev
              /\ (normalised_format ev = ""
                  \/ normalised_format ev = Py.lower (Py.strip "online")))
         picky_recommendations.
Proof.
  apply (filter_path_meets_preferred_format picky_request credit_store 24 5
           example_chunks [] picky_profile).
  - reflexivity.
  - reflexivity.
  - vm_compute. discriminate.
  - reflexivity.
  - reflexivity.
  - vm_compute. discriminate.
Defined.

End Constraints.

(* ------------------------------------------------------------------------- *)
(** ** Collaborator calls of a run *)
(* ------------------------------------------------------------------------- *)

Section Calls.
Import PhysicianProfile CmeQuery Stages Order Sample Computed MoreSamples.

Lemma no_llm_call_in_profile_trace db request tp profile p :
  build_effective_physician_profile db request = (tp, Returned profile) ->
  ~ In (LLMCall p) tp.
Proof.
  intros Hp Hin.
  destruct (build_profile_trace _ _ _ _ Hp) as [->|[pid ->]]; simpl in Hin.
  - contradiction.
  - destruct Hin as [Hin|[Hin|[Hin|[]]]]; discriminate.
Qed.

(** The calls of a staged run that come before the language model. *)
Lemma no_llm_call_before_selection db request k chunks tp profile p :
  build_effective_physician_profile db request = (tp, Returned profile) ->
  ~ In (LLMCall p)
       (VectorSearchCall (Py.strip (question request)) k
          :: tp ++ [EventQuery (candidate_ids (ranked chunks))]).
Proof.
  intros Hp [Hin|Hin]; [discriminate|].
  apply in_app_or in Hin. destruct Hin as [Hin|[Hin|[]]]; [|discriminate].
  now apply (no_llm_call_in_profile_trace _ _ _ _ _ Hp) in Hin.
Qed.

(** X8.  A failed search ends the run after that single call: a transport
    error or a status other than 200 (even with a body) raises, and status
    200 with no chunks returns the fixed no-match sentence with an empty
    list.  The profile store and the language model are not consulted. *)
Theorem failed_or_empty_search_ends_the_run request db k m :
  Py.is_empty (Py.strip (question request)) = false ->
  let q := Py.strip (question request) in
  (vector_search db q k = HttpError ->
   run_cme_query request db k m = ([VectorSearchCall q k], Raised TransportError))
  /\ (forall status body,
         vector_search db q k = HttpResponse status body -> status <> 200 ->
         run_cme_query request db k m = ([VectorSearchCall q k], Raised RuntimeError))
  /\ (vector_search db q k = HttpResponse 200 [] ->
      run_cme_query request db k m
      = ([VectorSearchCall q k], Returned (no_match_answer, []))).
Proof.
  intros Hq q. subst q. split; [|split].
  - intros Hvs. unfold run_cme_query, post_vector_search.
    rewrite Hq, Hvs. reflexivity.
  - intros status body Hvs Hne. unfold run_cme_query, post_vector_search.
    rewrite Hq, Hvs. simpl. apply Z.eqb_neq in Hne. rewrite Hne. reflexivity.
  - intros Hvs. unfold run_cme_query, post_vector_search.
    rewrite Hq, Hvs. reflexivity.
Qed.

Lemma failed_or_empty_search_witness :
  run_cme_query (ask "sepsis" (Some 9)) unavailable_store 24 5
  = ([VectorSearchCall "sepsis" 24], Raised RuntimeError).
Proof.
  destruct (failed_or_empty_search_ends_the_run
              (ask "sepsis" (Some 9)) unavailable_store 24 5 eq_refl)
    as (_ & H & _).
  apply (H 503 []); [reflexivity | lia].
Defined.

(** X9.  The language model is called exactly in the runs that return a
    non-empty list; in such a run it is called once, as the last call. *)
Theorem llm_called_exactly_for_nonempty_lists request db k m :
  ((exists p, In (LLMCall p) (trace (run_cme_query request db k m)))
   <-> exists recs,
         recommendations_of (run_cme_query request db k m) = Some recs
         /\ recs <> [])
  /\ forall p,
       In (LLMCall p) (trace (run_cme_query request db k m)) ->
       exists before,
         trace (run_cme_query request db k m) = before ++ [LLMCall p]
         /\ forall p', ~ In (LLMCall p') before.
Proof.
  destruct (run_cme_query_cases request db k m)
    as [[_ E]|[(_ & _ & E)|[(status & body & _ & _ & _ & E)
        |[(_ & _ & E)|(chunks & tp & profile & Hq & Hvs & Hch & Hp & E)]]]];
    rewrite E; unfold recommendations_of; simpl;
    try (split;
         [split;
          [intros [p Hin]; simpl in Hin; tauto || (destruct Hin as [Hin|[]]; discriminate)
          |intros (recs & Hr & Hne); congruence]
         |intros p Hin; simpl in Hin; tauto || (destruct Hin as [Hin|[]]; discriminate)]).
  unfold staged_run.
  destruct (is_nil (selected db profile chunks m)) eqn:Hsel; simpl.
  - split; [split|].
    + intros [p Hin]. exfalso.
      now apply (no_llm_call_before_selection db request k chunks tp profile p Hp).
    + intros (recs & [= <-] & Hne). congruence.
    + intros p Hin. exfalso.
      now apply (no_llm_call_before_selection db request k chunks tp profile p Hp).
  - split; [split|].
    + intros _. eexists. split; [reflexivity|].
      apply is_nil_false in Hsel. intros Hnil. apply Hsel.
      apply length_zero_iff_nil.
      rewrite <- build_recommendations_length, Hnil. reflexivity.
    + intros _. eexists. right. apply in_or_app. right. now left.
    + intros p [Hin|Hin]; [discriminate|].
      apply in_app_or in Hin. destruct Hin as [Hin|[Hin|[]]].
      * exfalso. apply in_app_or in Hin. destruct Hin as [Hin|[Hin|[]]].
        -- now apply (no_llm_call_in_profile_trace _ _ _ _ _ Hp) in Hin.
        -- discriminate.
      * injection Hin as <-.
        exists (VectorSearchCall (Py.strip (question request)) k
                  :: tp ++ [EventQuery (candidate_ids (ranked chunks))]).
        split; [reflexivity|].
        intros p'.
        now apply (no_llm_call_before_selection db request k chunks tp profile p' Hp).
Qed.

End Calls.

(* ------------------------------------------------------------------------- *)
(** ** Ties and chunk lists *)
(* ------------------------------------------------------------------------- *)

Section Ties.
Import CmeQuery Stages Order Sample.

(** Insertion keeps the order among entries of one score. *)
Lemma insert_desc_same_score s x l :
  filter (same_score s) (insert_desc x l) = filter (same_score s) (x :: l).
Proof.
  induction l as [|y r IH]; [reflexivity|]. simpl insert_desc.
  destruct (e_score (snd x) <? e_score (snd y)) eqn:E; [|reflexivity].
  apply Z.ltb_lt in E.
  change (filter (same_score s) (y :: insert_desc x r))
    with (if same_score s y then y :: filter (same_score s) (insert_desc x r)
          else filter (same_score s) (insert_desc x r)).
  rewrite IH. simpl. unfold same_score in *.
  destruct (e_score (snd x) =? s) eqn:Ex, (e_score (snd y) =? s) eqn:Ey;
    try reflexivity.
  apply Z.eqb_eq in Ex, Ey. lia.
Qed.

Lemma sorted_events_same_score s m :
  filter (same_score s) (sorted_events m) = filter (same_score s) m.
Proof.
  induction m as [|x m IH]; [reflexivity|]. simpl sorted_events.
  rewrite insert_desc_same_score. simpl. now rewrite IH.
Qed.

Lemma filter_absent_snoc keys i l :
  filter (absent_from (keys ++ [i])) l
  = filter (absent_from keys) (filter (fun j => negb (j =? i)) l).
Proof.
  induction l as [|j l IH]; [reflexivity|]. simpl.
  unfold absent_from at 1. rewrite existsb_app. simpl. rewrite orb_false_r.
  destruct (j =? i) eqn:E; simpl.
  - rewrite orb_true_r. simpl. exact IH.
  - rewrite orb_false_r. fold (absent_from keys j).
    destruct (absent_from keys j); simpl; now rewrite IH.
Qed.

Lemma filter_absent_present keys i l :
  existsb (Z.eqb i) keys = true ->
  filter (absent_from keys) (filter (fun j => negb (j =? i)) l)
  = filter (absent_from keys) l.
Proof.
  intros Hi. induction l as [|j l IH]; [reflexivity|]. simpl.
  destruct (j =? i) eqn:E; simpl.
  - apply Z.eqb_eq in E. subst j. unfold absent_from at 2. rewrite Hi. simpl.
    exact IH.
  - destruct (absent_from keys j); simpl; now rewrite IH.
Qed.

Lemma group_chunks_key_order n chs : forall idx m,
  map fst (group_chunks n idx chs m)
  = map fst m ++ filter (absent_from (map fst m)) (first_seen (source_ids chs)).
Proof.
  induction chs as [|ch rest IH]; intros idx m; simpl.
  - now rewrite app_nil_r.
  - rewrite IH. unfold add_chunk.
    destruct (source_id ch) as [i|]; [|reflexivity].
    rewrite keys_set. simpl.
    destruct (existsb (Z.eqb i) (map fst m)) eqn:E.
    + unfold absent_from at 2. rewrite E. simpl.
      now rewrite filter_absent_present.
    + unfold absent_from at 2. rewrite E. simpl.
      rewrite <- app_assoc. simpl. now rewrite filter_absent_snoc.
Qed.

Lemma build_cme_map_key_order chunks :
  map fst (build_cme_map chunks) = first_seen (source_ids chunks).
Proof.
  unfold build_cme_map. rewrite group_chunks_key_order. simpl.
  induction (first_seen (source_ids chunks)) as [|j l IH]; simpl; congruence.
Qed.

Lemma score_of_In (m : CmeMap) e entry :
  NoDup (map fst m) -> In (e, entry) m -> Py.get e m = Some entry.
Proof.
  induction m as [|[k v] m IH]; intros Hnd Hin; [destruct Hin|].
  simpl in *. inversion Hnd as [|? ? Hk Hm]; subst.
  destruct Hin as [[= -> ->]|Hin].
  - now rewrite Z.eqb_refl.
  - destruct (k =? e) eqn:E; [|auto].
    apply Z.eqb_eq in E. subst k. exfalso. apply Hk.
    now apply (in_map fst) in Hin.
Qed.

Lemma same_score_keys s (m : CmeMap) :
  NoDup (map fst m) ->
  map fst (filter (same_score s) m)
  = filter (fun e => score_of e m =? s) (map fst m).
Proof.
  intros Hnd.
  assert (G : forall l, (forall x, In x l -> In x m) ->
              map fst (filter (same_score s) l)
              = filter (fun e => score_of e m =? s) (map fst l)).
  { induction l as [|[k v] l IH]; intros Hl; [reflexivity|]. simpl.
    assert (Hs : score_of k m = e_score v).
    { unfold score_of. rewrite (score_of_In m k v Hnd); auto. apply Hl. now left. }
    rewrite Hs. unfold same_score at 1. simpl.
    destruct (e_score v =? s); simpl; rewrite IH; auto;
      intros x Hx; apply Hl; now right. }
  now apply G.
Qed.

(** X11.  Entities with the same aggregate score keep the order in which
    they first appear in the search response: for every score, the ranked
    entities with that score are the first appearances with that score, in
    response order. *)
Theorem ties_keep_first_appearance chunks s :
  map fst (filter (same_score s) (sorted_events (build_cme_map chunks)))
  = filter (fun e => score_of e (build_cme_map chunks) =? s)
           (first_seen (source_ids chunks)).
Proof.
  rewrite sorted_events_same_score.
  rewrite same_score_keys by (apply group_chunks_NoDup; apply NoDup_nil).
  now rewrite build_cme_map_key_order.
Qed.

Lemma add_chunk_chunks e n idx ch m :
  chunks_of e (add_chunk n idx ch m)
  = chunks_of e m ++ (if owned_by e ch then [ch] else []).
Proof.
  unfold add_chunk, owned_by, chunks_of.
  destruct (source_id ch) as [i|]; [|now rewrite app_nil_r].
  destruct (i =? e) eqn:E.
  - apply Z.eqb_eq in E. subst i. rewrite get_set_same. simpl.
    destruct (Py.get e m); reflexivity.
  - apply Z.eqb_neq in E. rewrite get_set_other by assumption.
    now rewrite app_nil_r.
Qed.

Lemma group_chunks_chunks e n chs : forall idx m,
  chunks_of e (group_chunks n idx chs m)
  = chunks_of e m ++ filter (owned_by e) chs.
Proof.
  induction chs as [|ch rest IH]; intros idx m; simpl.
  - now rewrite app_nil_r.
  - rewrite IH, add_chunk_chunks, <- app_assoc.
    destruct (owned_by e ch); reflexivity.
Qed.

(** X12.  Every ranked entity carries exactly the chunks of the response
    that name it, in response order, and at least one. *)
Theorem ranked_entities_carry_their_chunks chunks :
  Forall (fun x : Z * Entry =>
            e_chunks (snd x) = filter (owned_by (fst x)) chunks
            /\ e_chunks (snd x) <> [])
         (sorted_events (build_cme_map chunks)).
Proof.
  apply Forall_forall. intros [e entry] Hin.
  apply (proj1 (sorted_events_In _ _)) in Hin. simpl.
  assert (Hget : Py.get e (build_cme_map chunks) = Some entry).
  { apply score_of_In; [apply group_chunks_NoDup; apply NoDup_nil | exact Hin]. }
  pose proof (group_chunks_chunks e (Z.of_nat (List.length chunks)) chunks 0 []) as C.
  change (group_chunks (Z.of_nat (List.length chunks)) 0 chunks [])
    with (build_cme_map chunks) in C.
  unfold chunks_of in C. rewrite Hget in C. simpl in C.
  split; [exact C|].
  rewrite C.
  assert (Hown : In (Some e) (map source_id chunks)).
  { apply (in_map fst) in Hin. unfold build_cme_map in Hin.
    apply group_chunks_keys in Hin. destruct Hin as [[]|Hin]. exact Hin. }
  apply in_map_iff in Hown. destruct Hown as (ch & Hch & Hc).
  intros Hnil.
  assert (Hf : In ch (filter (owned_by e) chunks)).
  { apply filter_In. split; auto. now apply owned_by_spec. }
  rewrite Hnil in Hf. destruct Hf.
Qed.

End Ties.

(* ------------------------------------------------------------------------- *)
(** ** The effective profile *)
(* ------------------------------------------------------------------------- *)

Section ProfileProperties.
Import PhysicianProfile CmeQuery Stages Order ProfileFacts Sample Computed MoreSamples.

Lemma find_none_of {A : Type} (f : A -> bool) (l : list A) :
  (forall x, In x l -> f x = false) -> find f l = None.
Proof.
  induction l as [|x l IH]; intros H; simpl; auto.
  rewrite (H x) by now left. apply IH. intros y Hy. apply H. now right.
Qed.

Lemma filter_none_of {A : Type} (f : A -> bool) (l : list A) :
  (forall x, In x l -> f x = false) -> filter f l = [].
Proof.
  induction l as [|x l IH]; intros H; simpl; auto.
  rewrite (H x) by now left. apply IH. intros y Hy. apply H. now right.
Qed.

Lemma apply_defaults_seed request :
  apply_defaults (seed_profile request) = request_profile request.
Proof.
  unfold apply_defaults, seed_profile, request_profile, normalise_format. simpl.
  destruct (preferred_format request) as [f|]; simpl; [|reflexivity].
  destruct (Py.is_empty f); reflexivity.
Qed.

(** X13.  A request without physician id, or with id 0, gets its profile
    from the request alone and the store is not queried.  A request whose
    physician id has no row in any of the three tables gets the same
    profile after the three queries: a lookup miss is not an error. *)
Theorem profile_without_stored_data db request :
  (pid_truthy (physician_id request) = None ->
   build_effective_physician_profile db request
   = ([], Returned (request_profile request)))
  /\ (forall pid,
         physician_id request = Some pid -> pid <> 0 ->
         (forall r, In r (physician db) -> p_id r <> pid) ->
         (forall r, In r (physician_preference db) -> pref_physician_id r <> pid) ->
         (forall r, In r (physician_completed_cme db) -> c_physician_id r <> pid) ->
         build_effective_physician_profile db request
         = ([PhysicianQuery pid; PreferenceQuery pid; CompletedQuery pid],
            Returned (request_profile request))).
Proof.
  split.
  - intros Hpid. rewrite build_profile_value, Hpid. now rewrite apply_defaults_seed.
  - intros pid Hpid Hnz Hph Hpr Hco.
    rewrite build_profile_value, Hpid. unfold pid_truthy.
    apply Z.eqb_neq in Hnz. rewrite Hnz.
    rewrite (find_none_of _ (physician db))
      by (intros r Hr; apply Z.eqb_neq; auto).
    rewrite (find_none_of _ (physician_preference db))
      by (intros r Hr; apply Z.eqb_neq; auto).
    unfold completed_in_store.
    rewrite (filter_none_of _ (physician_completed_cme db))
      by (intros r Hr; apply Z.eqb_neq; auto).
    simpl fill_specialty. simpl fill_preferences. simpl completed_ids.
    rewrite <- apply_defaults_seed. reflexivity.
Qed.

Lemma profile_without_stored_data_witness :
  build_effective_physician_profile plain_store (ask "sepsis" (Some 9))
  = ([PhysicianQuery 9; PreferenceQuery 9; CompletedQuery 9],
     Returned (request_profile (ask "sepsis" (Some 9)))).
Proof.
  apply (proj2 (profile_without_stored_data plain_store (ask "sepsis" (Some 9))) 9).
  - reflexivity.
  - lia.
  - intros r [].
  - intros r [].
  - intros r [].
Defined.

Lemma apply_defaults_specialty p : pr_specialty (apply_defaults p) = pr_specialty p.
Proof.
  unfold apply_defaults.
  destruct (pr_preferred_format p) as [f|] eqn:F; simpl.
  - destruct (negb (Py.is_empty f)); simpl;
      destruct (pr_travel_ok p) eqn:T; simpl; rewrite ?T; reflexivity.
  - destruct (pr_travel_ok p) eqn:T; simpl; rewrite ?T; reflexivity.
Qed.

Lemma fill_preferences_specialty p row :
  pr_specialty (fill_preferences p row) = pr_specialty p.
Proof.
  unfold fill_preferences. destruct row as [row|]; auto.
  destruct (no_travel (Py.or_else (travel_pref row) ""));
    destruct (negb (Py.truthy (pr_preferred_format p)) && Py.truthy (modality_pref row));
    reflexivity.
Qed.

Lemma fill_specialty_value p row :
  pr_specialty (fill_specialty p row)
  = first_set (pr_specialty p)
              match row with Some r => specialty_name r | None => None end.
Proof.
  unfold fill_specialty, first_set. destruct row as [row|].
  - destruct (Py.truthy (pr_specialty p)); simpl; [reflexivity|].
    destruct (Py.truthy (specialty_name row)); reflexivity.
  - simpl. now destruct (Py.truthy (pr_specialty p)).
Qed.

(** X14.  The profile's specialty is the request's when that is set and
    non-empty; otherwise the stored primary specialty when the physician
    row has a non-empty one; otherwise what the request had. *)
Theorem specialty_precedence db request tp profile :
  build_effective_physician_profile db request = (tp, Returned profile) ->
  pr_specialty profile
  = first_set (specialty request)
              match stored_physician db request with
              | Some row => specialty_name row
              | None => None
              end.
Proof.
  rewrite build_profile_value. unfold stored_physician.
  destruct (pid_truthy (physician_id request)) as [pid|]; intros [= _ <-];
    rewrite apply_defaults_specialty.
  - change (pr_specialty (set_missing_requirements ?p _)) with (pr_specialty p).
    change (pr_specialty (set_completed_cme_ids ?p _)) with (pr_specialty p).
    now rewrite fill_preferences_specialty, fill_specialty_value.
  - unfold first_set. simpl. now destruct (Py.truthy (specialty request)).
Qed.

Lemma specialty_precedence_witness :
  pr_specialty anesthesia_profile
  = first_set (specialty (ask "sepsis" (Some 9)))
              match stored_physician anesthesia_store (ask "sepsis" (Some 9)) with
              | Some row => specialty_name row
              | None => None
              end.
Proof.
  apply (specialty_precedence anesthesia_store (ask "sepsis" (Some 9))
           [PhysicianQuery 9; PreferenceQuery 9; CompletedQuery 9]).
  reflexivity.
Defined.

Lemma apply_defaults_format p :
  pr_preferred_format (apply_defaults p) = normalise_format (pr_preferred_format p).
Proof.
  unfold apply_defaults, normalise_format.
  destruct (pr_preferred_format p) as [f|] eqn:F; simpl.
  - destruct (Py.is_empty f); simpl;
      destruct (pr_travel_ok p) eqn:T; simpl; rewrite ?T, ?F; reflexivity.
  - destruct (pr_travel_ok p) eqn:T; simpl; rewrite ?T, ?F; reflexivity.
Qed.

Lemma fill_specialty_format p row :
  pr_preferred_format (fill_specialty p row) = pr_preferred_format p.
Proof.
  unfold fill_specialty. destruct row as [row|]; auto.
  destruct (negb (Py.truthy (pr_specialty p)) && Py.truthy (specialty_name row));
    reflexivity.
Qed.

Lemma fill_preferences_format p row :
  pr_preferred_format (fill_preferences p row)
  = first_set (pr_preferred_format p)
              match row with Some r => modality_pref r | None => None end.
Proof.
  unfold fill_preferences, first_set. destruct row as [row|].
  - destruct (no_travel (Py.or_else (travel_pref row) ""));
      destruct (Py.truthy (pr_preferred_format p)); simpl; try reflexivity;
      destruct (Py.truthy (modality_pref row)); reflexivity.
  - simpl. now destruct (Py.truthy (pr_preferred_format p)).
Qed.

Lemma preferred_format_is_normalised_aux db request tp profile :
  build_effective_physician_profile db request = (tp, Returned profile) ->
  pr_preferred_format profile
  = normalise_format
      (first_set (preferred_format request)
                 match stored_preference db request with
                 | Some row => modality_pref row
                 | None => None
                 end).
Proof.
  rewrite build_profile_value. unfold stored_preference.
  destruct (pid_truthy (physician_id request)) as [pid|]; intros [= _ <-];
    rewrite apply_defaults_format.
  - change (pr_preferred_format (set_missing_requirements ?p _))
      with (pr_preferred_format p).
    change (pr_preferred_format (set_completed_cme_ids ?p _))
      with (pr_preferred_format p).
    now rewrite fill_preferences_format, fill_specialty_format.
  - unfold first_set. simpl. now destruct (Py.truthy (preferred_format request)).
Qed.

(** X15.  The profile's preferred format is the request's when that is set
    and non-empty, otherwise the stored modality preference when that is;
    a non-empty format is stored trimmed and lowercased, and an empty or
    missing one is left as it is. *)
Theorem preferred_format_precedence db request tp profile :
  build_effective_physician_profile db request = (tp, Returned profile) ->
  pr_preferred_format profile
  = normalise_format
      (first_set (preferred_format request)
                 match stored_preference db request with
                 | Some row => modality_pref row
                 | None => None
                 end)
  /\ (Py.truthy (preferred_format request) = true ->
      pr_preferred_format profile
      = option_map (fun f => Py.lower (Py.strip f)) (preferred_format request)).
Proof.
  intros Hp. split; [now apply (preferred_format_is_normalised_aux db request tp)|].
  intros Ht. rewrite (preferred_format_is_normalised_aux db request tp profile Hp).
  unfold first_set. rewrite Ht. unfold normalise_format.
  destruct (preferred_format request) as [f|]; [|discriminate].
  simpl in Ht. destruct (Py.is_empty f); [discriminate | reflexivity].
Qed.

Lemma preferred_format_precedence_witness :
  pr_preferred_format anesthesia_profile
  = normalise_format
      (first_set (preferred_format (ask "sepsis" (Some 9)))
                 match stored_preference anesthesia_store (ask "sepsis" (Some 9)) with
                 | Some row => modality_pref row
                 | None => None
                 end).
Proof.
  apply (proj1 (preferred_format_precedence anesthesia_store (ask "sepsis" (Some 9))
                  [PhysicianQuery 9; PreferenceQuery 9; CompletedQuery 9]
                  anesthesia_profile eq_refl)).
Defined.

(** X16.  The fields the builder never assigns: physician_id, state,
    min_credits and credit_type are the request's, and
    missing_requirements is the empty list. *)
Theorem request_fields_pass_through db request tp profile :
  build_effective_physician_profile db request = (tp, Returned profile) ->
  pr_physician_id profile = physician_id request
  /\ pr_state profile = state request
  /\ pr_min_credits profile = min_credits request
  /\ pr_credit_type profile = credit_type request
  /\ pr_missing_requirements profile = [].
Proof.
  intros Hp.
  pose proof (build_profile_untouched db request tp profile Hp) as U.
  unfold untouched in U. injection U as U1 U2 U3 U4.
  repeat split; auto.
  rewrite build_profile_value in Hp.
  destruct (pid_truthy (physician_id request)) as [pid|]; injection Hp as _ <-.
  - unfold apply_defaults.
    repeat match goal with
           | |- context [match ?x with _ => _ end] => destruct x eqn:?; simpl
           end; reflexivity.
  - now rewrite apply_defaults_seed.
Qed.

Lemma request_fields_pass_through_witness :
  pr_physician_id anesthesia_profile = physician_id (ask "sepsis" (Some 9))
  /\ pr_state anesthesia_profile = state (ask "sepsis" (Some 9))
  /\ pr_min_credits anesthesia_profile = min_credits (ask "sepsis" (Some 9))
  /\ pr_credit_type anesthesia_profile = credit_type (ask "sepsis" (Some 9))
  /\ pr_missing_requirements anesthesia_profile = [].
Proof.
  apply (request_fields_pass_through anesthesia_store (ask "sepsis" (Some 9))
           [PhysicianQuery 9; PreferenceQuery 9; CompletedQuery 9]).
  reflexivity.
Defined.

(** X23.  The profile's travel_ok is always set.  It is false exactly when
    the request's physician (id set and not 0) has a stored preference row
    whose travel_pref, lowercased, is no_travel or local_only; otherwise it
    is true. *)
Theorem travel_ok_is_always_set db request tp profile :
  build_effective_physician_profile db request = (tp, Returned profile) ->
  exists b,
    pr_travel_ok profile = Some b
    /\ (b = false
        <-> exists row,
              stored_preference db request = Some row
              /\ no_travel (Py.or_else (travel_pref row) "") = true).
Proof.
  intros Hp. rewrite (build_profile_travel_ok db request tp profile Hp).
  unfold stored_preference.
  destruct (pid_truthy (physician_id request)) as [pid|].
  - destruct (find _ (physician_preference db)) as [row|].
    + exists (negb (no_travel (Py.or_else (travel_pref row) ""))).
      split; [reflexivity|]. split.
      * intros H. exists row. split; [reflexivity|].
        now destruct (no_travel (Py.or_else (travel_pref row) "")).
      * intros (row' & [= <-] & ->). reflexivity.
    + exists true. split; [reflexivity|]. split; [discriminate|].
      intros (row & Hrow & _). discriminate.
  - exists true. split; [reflexivity|]. split; [discriminate|].
    intros (row & Hrow & _). discriminate.
Qed.

Lemma travel_ok_is_always_set_witness :
  exists b,
    pr_travel_ok anesthesia_profile = Some b
    /\ (b = false
        <-> exists row,
              stored_preference anesthesia_store (ask "sepsis" (Some 9)) = Some row
              /\ no_travel (Py.or_else (travel_pref row) "") = true).
Proof.
  apply (travel_ok_is_always_set anesthesia_store (ask "sepsis" (Some 9))
           [PhysicianQuery 9; PreferenceQuery 9; CompletedQuery 9]).
  reflexivity.
Defined.

End ProfileProperties.

(* ------------------------------------------------------------------------- *)
(** ** Trimming and lowercasing *)
(* ------------------------------------------------------------------------- *)

Section Normalisation.
Import PhysicianProfile CmeQuery Stages Order ProfileFacts Sample Computed MoreSamples.

Lemma lower_idem s : Py.lower (Py.lower s) = Py.lower s.
Proof. induction s as [|c r IH]; simpl; [|rewrite lower_char_idem, IH]; reflexivity. Qed.

Lemma normalise_idem s :
  Py.lower (Py.strip (Py.lower (Py.strip s))) = Py.lower (Py.strip s).
Proof. now rewrite strip_lower, lower_idem, strip_idem. Qed.

(** X17.  The preferred format of a built profile is already trimmed and
    lowercased: trimming and lowercasing it again, as run_cme_query does,
    changes nothing. *)
Theorem profile_format_is_normalised db request tp profile :
  build_effective_physician_profile db request = (tp, Returned profile) ->
  option_map (fun s => Py.lower (Py.strip s)) (pr_preferred_format profile)
  = pr_preferred_format profile.
Proof.
  intros Hp. rewrite (preferred_format_is_normalised_aux db request tp profile Hp).
  unfold normalise_format.
  destruct (first_set _ _) as [f|]; [|reflexivity].
  destruct f as [|c r]; [reflexivity|].
  simpl Py.is_empty. cbv iota. simpl option_map. now rewrite normalise_idem.
Qed.

Lemma profile_format_is_normalised_witness :
  option_map (fun s => Py.lower (Py.strip s)) (pr_preferred_format anesthesia_profile)
  = pr_preferred_format anesthesia_profile.
Proof.
  apply (profile_format_is_normalised anesthesia_store (ask "sepsis" (Some 9))
           [PhysicianQuery 9; PreferenceQuery 9; CompletedQuery 9]).
  reflexivity.
Defined.

End Normalisation.

(* ------------------------------------------------------------------------- *)
(** ** The routes *)
(* ------------------------------------------------------------------------- *)

Section RouteProperties.
Import PhysicianProfile CmeQuery Stages Order ProfileFacts Routes.
Import Sample Computed MoreSamples.

(** X18.  The ask route answers 500, and no other error status, when the
    question is not blank and the vector search fails (transport error or a
    status other than 200).  A blank question gets a normal reply with the
    guidance sentence, and so does every run that reaches the language
    model, whether that call succeeds or fails. *)
Theorem ask_cme_answers_500_for_a_failed_search payload db :
  let q := Py.strip (question payload) in
  (forall status cause,
      snd (ask_cme payload db) = HTTPException status cause -> status = 500)
  /\ (Py.is_empty q = false ->
      (vector_search db q 24 = HttpError
       \/ exists status body,
            vector_search db q 24 = HttpResponse status body /\ status <> 200) ->
      exists cause, snd (ask_cme payload db) = HTTPException 500 cause)
  /\ (Py.is_empty q = true ->
      ask_cme payload db
      = ([], Ok {| resp_question := question payload;
                   resp_answer := empty_question_answer;
                   resp_recommendations := [] |}))
  /\ (forall p,
         In (LLMCall p) (fst (ask_cme payload db)) ->
         exists body, snd (ask_cme payload db) = Ok body).
Proof.
  intros q. subst q. unfold ask_cme.
  destruct (run_cme_query_cases payload db 24 5)
    as [[Hq E]|[(Hq & Hvs & E)|[(status & body & Hq & Hvs & Hs & E)
        |[(Hq & Hvs & E)|(chunks & tp & profile & Hq & Hvs & Hch & Hp & E)]]]];
    rewrite E; simpl.
  - split; [discriminate|]. split; [intros Hq'; congruence|].
    split; [reflexivity|]. intros p [].
  - split; [intros s c [= <- _]; reflexivity|]. split; [eauto|].
    split; [intros Hq'; congruence|].
    intros p [Hin|[]]; discriminate.
  - split; [intros s c [= <- _]; reflexivity|]. split; [eauto|].
    split; [intros Hq'; congruence|].
    intros p [Hin|[]]; discriminate.
  - split; [discriminate|]. split.
    + intros _ [Hvs'|(st & bd & Hvs' & Hne)]; rewrite Hvs in Hvs';
        [discriminate | injection Hvs' as <- <-; congruence].
    + split; [intros Hq'; congruence|].
      intros p [Hin|[]]; discriminate.
  - unfold staged_run.
    destruct (is_nil (selected db profile chunks 5)); simpl;
      (split; [discriminate|]; split;
       [intros _ [Hvs'|(st & bd & Hvs' & Hne)]; rewrite Hvs in Hvs';
        try discriminate; injection Hvs' as <- <-; congruence|];
       split; [intros Hq'; congruence|]; intros p _; eauto).
Qed.

Lemma ask_cme_answers_500_for_a_failed_search_witness :
  exists cause,
    snd (ask_cme (ask "sepsis" None) unavailable_store) = HTTPException 500 cause.
Proof.
  apply (proj1 (proj2 (ask_cme_answers_500_for_a_failed_search
                         (ask "sepsis" None) unavailable_store))).
  - reflexivity.
  - right. exists 503, []. split; [reflexivity | discriminate].
Defined.

(** X19.  A reply of the ask route repeats the question as it came in (not
    trimmed) and lists at most 5 recommendations, ranked 1, 2, ... in list
    order. *)
Theorem ask_cme_reply_shape payload db body :
  snd (ask_cme payload db) = Ok body ->
  resp_question body = question payload
  /\ (List.length (resp_recommendations body) <= 5)%nat
  /\ map rank (resp_recommendations body)
     = one_to (List.length (resp_recommendations body)).
Proof.
  unfold ask_cme. intros H.
  destruct (run_cme_query payload db 24 5) as [t [[answer recs]|e]] eqn:E;
    simpl in H; [|discriminate].
  injection H as <-. simpl.
  assert (Hrecs : recommendations_of (run_cme_query payload db 24 5) = Some recs).
  { unfold recommendations_of. now rewrite E. }
  apply recommendations_of_run in Hrecs.
  destruct Hrecs as [->|(chunks & tp & profile & _ & _ & _ & _ & _ & ->)].
  - repeat split. simpl. lia.
  - split; [reflexivity|]. split.
    + rewrite build_recommendations_length.
      pose proof (selected_length db profile chunks 5). lia.
    + apply build_recommendations_rank.
Qed.

Lemma ask_cme_reply_shape_witness :
  resp_question
    {| resp_question := "  sepsis ";
       resp_answer := "Consider the airway course.";
       resp_recommendations := plain_recommendations |} = "  sepsis "
  /\ (List.length plain_recommendations <= 5)%nat
  /\ map rank plain_recommendations = one_to (List.length plain_recommendations).
Proof.
  apply (ask_cme_reply_shape (ask "  sepsis " None) plain_store
           {| resp_question := "  sepsis ";
              resp_answer := "Consider the airway course.";
              resp_recommendations := plain_recommendations |}).
  reflexivity.
Defined.

(** X20.  The vector search route refuses a top_k outside 1..50 before its
    function runs, and answers a blank query with 400, in both cases
    without searching.  The body that run_cme_query posts with a
    vector_top_k within 1..50 passes both checks: the pipeline has trimmed
    the question and found it non-empty, trimming it again changes nothing,
    and search_embeddings is called with the trimmed question, that top_k
    and the source type cme_event. *)
Theorem posted_query_is_never_rejected {Row Result : Type}
    (search_embeddings : string -> Z -> option string -> option (list Row))
    (to_result : Row -> option Result) :
  (forall payload,
      vs_top_k payload < 1 \/ 50 < vs_top_k payload ->
      vector_search_route search_embeddings to_result payload = Invalid)
  /\ (forall payload,
         1 <= vs_top_k payload <= 50 ->
         Py.is_empty (Py.strip (vs_query payload)) = true ->
         vector_search_route search_embeddings to_result payload = Rejected 400)
  /\ (forall request k,
         1 <= k <= 50 ->
         Py.is_empty (Py.strip (question request)) = false ->
         vector_search_route search_embeddings to_result (posted_payload request k)
         = match search_embeddings (Py.strip (question request)) k
                                   (Some "cme_event") with
           | Some rows =>
               match results_of_rows to_result rows with
               | Some found => Found found
               | None => ResultRaised
               end
           | None => SearchRaised
           end).
Proof.
  assert (Hin : forall payload,
             1 <= vs_top_k payload <= 50 -> top_k_in_bounds payload = true).
  { intros payload H. unfold top_k_in_bounds.
    apply andb_true_iff. split; apply Z.leb_le; lia. }
  split; [|split].
  - intros payload H. unfold vector_search_route, top_k_in_bounds.
    destruct H as [H|H].
    + apply Z.leb_gt in H. now rewrite H.
    + apply Z.leb_gt in H. rewrite H. now rewrite andb_false_r.
  - intros payload Hk H. unfold vector_search_route.
    now rewrite (Hin payload Hk), H.
  - intros request k Hk H. unfold vector_search_route.
    rewrite (Hin (posted_payload request k) Hk).
    unfold posted_payload. simpl.
    now rewrite strip_idem, H.
Qed.

Lemma posted_query_is_never_rejected_witness :
  vector_search_route (fun _ _ _ => Some [1; 2]) (fun row => Some (row + 1))
    (posted_payload (ask " sepsis " None) 24)
  = Found [2; 3]
  /\ vector_search_route (fun _ _ _ => Some [1; 2]) (fun row => Some (row + 1))
       (posted_payload (ask " sepsis " None) 0)
     = Invalid.
Proof.
  split.
  - apply (proj2 (proj2 (posted_query_is_never_rejected
                           (fun _ _ _ => Some [1; 2]) (fun row => Some (row + 1))))
             (ask " sepsis " None) 24).
    + lia.
    + reflexivity.
  - apply (proj1 (posted_query_is_never_rejected
                    (fun _ _ _ => Some [1; 2]) (fun row => Some (row + 1)))).
    left. simpl. lia.
Defined.

End RouteProperties.

(* ------------------------------------------------------------------------- *)
(** ** Re-embedding all CME chunks *)
(* ------------------------------------------------------------------------- *)

Section ReembedProperties.
Import Order Reembed.

Context {float : Type} (str_of_float : float -> string).

Lemma subseq_app {A : Type} (a b l1 l2 : list A) :
  subseq a l1 -> subseq b l2 -> subseq (a ++ b) (l1 ++ l2).
Proof.
  induction 1; simpl; intros Hb; auto.
  - apply subseq_skip. auto.
  - apply subseq_take. auto.
Qed.

Lemma subseq_combine_fst {A B C : Type} (f : A -> C) (g : A * B -> C)
    (l : list A) (l' : list B) :
  (forall a b, g (a, b) = f a) ->
  subseq (map g (combine l l')) (map f l).
Proof.
  intros Hg. revert l'. induction l as [|a l IH]; intros [|b l']; simpl.
  - apply subseq_nil.
  - apply subseq_nil.
  - apply subseq_nil_l.
  - rewrite Hg. apply subseq_take, IH.
Qed.

Lemma insert_embeddings_spec rows : forall db embs,
  knowledge_chunk (insert_embeddings str_of_float db rows embs) = knowledge_chunk db
  /\ embedding_store (insert_embeddings str_of_float db rows embs)
     = embedding_store db
       ++ map (fun re => stored_row str_of_float (fst re) (snd re)) (combine rows embs).
Proof.
  induction rows as [|row rows IH]; intros db [|emb embs]; simpl;
    try (split; [reflexivity | now rewrite app_nil_r]).
  destruct (IH {| knowledge_chunk := knowledge_chunk db;
                  embedding_store := embedding_store db ++ [stored_row str_of_float row emb] |}
               embs) as [K S].
  rewrite K, S. simpl. split; [reflexivity | now rewrite <- app_assoc].
Qed.

Lemma cme_chunks_insert db rows embs :
  cme_chunks (insert_embeddings str_of_float db rows embs) = cme_chunks db.
Proof.
  unfold cme_chunks. now rewrite (proj1 (insert_embeddings_spec rows db embs)).
Qed.

Lemma insert_by_id_In r l x : In x (insert_by_id r l) <-> x = r \/ In x l.
Proof.
  induction l as [|y l IH]; simpl.
  - intuition.
  - destruct (kc_id r <? kc_id y); simpl; [intuition|].
    rewrite IH. intuition.
Qed.

Lemma order_by_id_In l x : In x (order_by_id l) <-> In x l.
Proof.
  induction l as [|y l IH]; simpl; [tauto|].
  rewrite insert_by_id_In, IH. intuition.
Qed.

Lemma insert_by_id_length r l : List.length (insert_by_id r l) = S (List.length l).
Proof.
  induction l as [|y l IH]; simpl; auto.
  destruct (kc_id r <? kc_id y); simpl; auto.
Qed.

Lemma order_by_id_length l : List.length (order_by_id l) = List.length l.
Proof.
  induction l as [|y l IH]; simpl; auto. now rewrite insert_by_id_length, IH.
Qed.

Lemma insert_by_id_sorted r l :
  Sorted (fun a b => kc_id a <= kc_id b) l ->
  Sorted (fun a b => kc_id a <= kc_id b) (insert_by_id r l).
Proof.
  induction l as [|y l IH]; intros Hs; simpl.
  - repeat constructor.
  - destruct (kc_id r <? kc_id y) eqn:E.
    + apply Z.ltb_lt in E. constructor; auto. constructor. lia.
    + apply Z.ltb_ge in E. inversion Hs as [|? ? Hl Hhd]; subst.
      constructor; auto.
      destruct l as [|z l]; simpl.
      * constructor. exact E.
      * destruct (kc_id r <? kc_id z); constructor; auto.
        now inversion Hhd.
Qed.

Lemma cme_chunks_sorted db :
  StronglySorted (fun a b => kc_id a <= kc_id b) (cme_chunks db).
Proof.
  apply Sorted_StronglySorted.
  - intros x y z. lia.
  - unfold cme_chunks, order_by_id.
    induction (filter _ (knowledge_chunk db)) as [|x l IH]; simpl;
      [constructor | now apply insert_by_id_sorted].
Qed.

Lemma cme_chunks_source_type db c :
  In c (cme_chunks db) -> kc_source_type c = "cme_event".
Proof.
  unfold cme_chunks. rewrite order_by_id_In, filter_In.
  intros [_ H]. now apply String.eqb_eq.
Qed.

Lemma stored_parts db rows (embs : list (list float)) :
  (forall c, In c rows -> In c (cme_chunks db)) ->
  map chunk_part (map (fun re => stored_row str_of_float (fst re) (snd re))
                      (combine rows embs))
  = map (fun re => expected_part (fst re)) (combine rows embs).
Proof.
  intros Hrows. rewrite map_map. apply map_ext_in.
  intros [c e] Hin. apply in_combine_l in Hin.
  unfold chunk_part, expected_part. simpl.
  now rewrite (cme_chunks_source_type db c (Hrows c Hin)).
Qed.

Lemma In_skipn {A : Type} n (l : list A) x : In x (skipn n l) -> In x l.
Proof.
  intros H. rewrite <- (firstn_skipn n l). apply in_or_app. now right.
Qed.

Lemma In_firstn {A : Type} n (l : list A) x : In x (firstn n l) -> In x l.
Proof.
  intros H. rewrite <- (firstn_skipn n l). apply in_or_app. now left.
Qed.

Lemma fetch_In db limit offset c :
  In c (fetch_cme_chunks db limit offset) -> In c (cme_chunks db).
Proof. unfold fetch_cme_chunks. intros H. eapply In_skipn, In_firstn, H. Qed.

(** The loop, for any client: it ends, it only appends rows made from CME
    chunks at or after [offset], in id order, each chunk at most once, and
    the counter is at least the number of rows appended. *)
Lemma embed_loop_any client total fuel : forall db offset inserted,
  0 <= offset ->
  Z.max 0 (total - offset) < Z.of_nat fuel ->
  exists db' ended added,
    embed_loop str_of_float fuel client total db offset inserted = Some (db', ended)
    /\ knowledge_chunk db' = knowledge_chunk db
    /\ embedding_store db' = embedding_store db ++ added
    /\ subseq (map chunk_part added)
              (map expected_part (skipn (Z.to_nat offset) (cme_chunks db)))
    /\ inserted + Z.of_nat (List.length added) <= inserted_of ended.
Proof.
  induction fuel as [|fuel IH]; intros db offset inserted Hoff Hfuel; [lia|].
  simpl. destruct (offset <? total) eqn:Hlt.
  - destruct (fetch_cme_chunks db BATCH_SIZE offset) as [|c batch] eqn:Hbatch.
    + simpl. exists db, (Completed inserted), []. simpl.
      rewrite app_nil_r. repeat split; auto using subseq_nil_l. lia.
    + change (CmeQuery.is_nil (c :: batch)) with false. cbv iota.
      destruct (client (map kc_raw_text (c :: batch))) as [embs|].
      * set (db1 := insert_embeddings str_of_float db (c :: batch) embs).
        destruct (insert_embeddings_spec (c :: batch) db embs) as [K S].
        fold db1 in K, S.
        destruct (IH db1 (offset + BATCH_SIZE)
                     (inserted + Z.of_nat (List.length (c :: batch))))
          as (db' & ended & added & E & K' & S' & Sub & Cnt).
        { unfold BATCH_SIZE. lia. }
        { apply Z.ltb_lt in Hlt. unfold BATCH_SIZE. lia. }
        exists db', ended,
          (map (fun re => stored_row str_of_float (fst re) (snd re))
               (combine (c :: batch) embs) ++ added).
        split; [exact E|]. split; [congruence|].
        split; [rewrite S', S; now rewrite app_assoc|].
        split.
        -- rewrite map_app.
           unfold db1 in Sub. rewrite cme_chunks_insert in Sub.
           rewrite <- (firstn_skipn (Z.to_nat BATCH_SIZE)
                         (skipn (Z.to_nat offset) (cme_chunks db))).
           rewrite map_app. apply subseq_app.
           ++ rewrite (stored_parts db).
              ** unfold fetch_cme_chunks in Hbatch. rewrite Hbatch.
                 apply subseq_combine_fst. reflexivity.
              ** intros x Hx. apply (fetch_In db BATCH_SIZE offset).
                 now rewrite Hbatch.
           ++ rewrite skipn_skipn.
              replace (Z.to_nat BATCH_SIZE + Z.to_nat offset)%nat
                with (Z.to_nat (offset + BATCH_SIZE)) by (unfold BATCH_SIZE; lia).
              exact Sub.
        -- rewrite length_app, length_map.
           pose proof (length_combine (c :: batch) embs) as L.
           assert (List.length (combine (c :: batch) embs)
                   <= List.length (c :: batch))%nat by lia.
           lia.
      * exists db, (ClientFailed inserted), []. simpl.
        rewrite app_nil_r. repeat split; auto using subseq_nil_l. lia.
  - exists db, (Completed inserted), []. simpl.
    rewrite app_nil_r. repeat split; auto using subseq_nil_l. lia.
Qed.

(** X21.  The script always ends.  Whatever the embeddings client does
    (also when it raises in some batch or returns too few embeddings): the
    knowledge chunks are untouched, every embedding of another source type
    is kept in place, every old cme_event embedding is gone, and what was
    added are rows made from CME chunks, in id order and each chunk at most
    once.  The printed counter is at least the number of rows added. *)
Theorem regenerate_replaces_only_cme_embeddings client db :
  exists db' ended added,
    regenerate_all_embeddings str_of_float client db = Some (db', ended)
    /\ knowledge_chunk db' = knowledge_chunk db
    /\ embedding_store db'
       = filter (fun e => negb (is_cme_event (es_source_type e))) (embedding_store db)
         ++ added
    /\ subseq (map chunk_part added) (map expected_part (cme_chunks db))
    /\ Z.of_nat (List.length added) <= inserted_of ended.
Proof.
  unfold regenerate_all_embeddings.
  destruct (embed_loop_any client
              (Z.of_nat (List.length
                 (filter (fun r => is_cme_event (kc_source_type r)) (knowledge_chunk db))))
              (S (Z.to_nat (Z.of_nat (List.length
                 (filter (fun r => is_cme_event (kc_source_type r)) (knowledge_chunk db))))))
              (delete_old_embeddings db) 0 0)
    as (db' & ended & added & E & K & S & Sub & Cnt); try lia.
  exists db', ended, added. repeat split; auto.
Qed.

Lemma map_fst_combine {A B : Type} (l : list A) : forall (l' : list B),
  List.length l' = List.length l -> map fst (combine l l') = l.
Proof.
  induction l as [|a l IH]; intros [|b l'] H; simpl in *; try discriminate; auto.
  f_equal. apply IH. now injection H.
Qed.

Lemma insert_by_id_perm r l : Permutation (insert_by_id r l) (r :: l).
Proof.
  induction l as [|y l IH]; simpl; auto.
  destruct (kc_id r <? kc_id y); auto.
  rewrite IH. apply perm_swap.
Qed.

Lemma order_by_id_perm l : Permutation (order_by_id l) l.
Proof.
  induction l as [|y l IH]; simpl; auto.
  rewrite insert_by_id_perm. now constructor.
Qed.

(** The loop with a client that returns one embedding per text. *)
Lemma embed_loop_all client total fuel :
  (forall texts, exists embs,
      client texts = Some embs /\ List.length embs = List.length texts) ->
  forall db offset inserted,
    total = Z.of_nat (List.length (cme_chunks db)) ->
    0 <= offset ->
    Z.max 0 (total - offset) < Z.of_nat fuel ->
    exists db' added,
      embed_loop str_of_float fuel client total db offset inserted
      = Some (db', Completed
                     (inserted
                      + Z.of_nat (List.length (skipn (Z.to_nat offset) (cme_chunks db)))))
      /\ knowledge_chunk db' = knowledge_chunk db
      /\ embedding_store db' = embedding_store db ++ added
      /\ map chunk_part added
         = map expected_part (skipn (Z.to_nat offset) (cme_chunks db))
      /\ Forall (fun e => es_embedding_model e = EMBEDDING_MODEL) added.
Proof.
  intros Hclient.
  induction fuel as [|fuel IH]; intros db offset inserted Htot Hoff Hfuel; [lia|].
  simpl. destruct (offset <? total) eqn:Hlt.
  - apply Z.ltb_lt in Hlt.
    destruct (fetch_cme_chunks db BATCH_SIZE offset) as [|c batch] eqn:Hbatch.
    + exfalso. apply (f_equal (@List.length _)) in Hbatch.
      unfold fetch_cme_chunks in Hbatch.
      rewrite length_firstn, length_skipn in Hbatch.
      change (List.length (@nil KnowledgeChunk)) with 0%nat in Hbatch.
      unfold BATCH_SIZE in Hbatch. lia.
    + change (CmeQuery.is_nil (c :: batch)) with false. cbv iota.
      destruct (Hclient (map kc_raw_text (c :: batch))) as (embs & -> & Hlen).
      rewrite length_map in Hlen.
      set (db1 := insert_embeddings str_of_float db (c :: batch) embs).
      destruct (insert_embeddings_spec (c :: batch) db embs) as [K S].
      fold db1 in K, S.
      assert (C1 : cme_chunks db1 = cme_chunks db) by apply cme_chunks_insert.
      destruct (IH db1 (offset + BATCH_SIZE)
                   (inserted + Z.of_nat (List.length (c :: batch))))
        as (db' & added & E & K' & S' & P & M).
      { now rewrite C1. }
      { unfold BATCH_SIZE. lia. }
      { unfold BATCH_SIZE. lia. }
      rewrite C1 in E, P.
      assert (Hsplit : skipn (Z.to_nat offset) (cme_chunks db)
                       = (c :: batch)
                         ++ skipn (Z.to_nat (offset + BATCH_SIZE)) (cme_chunks db)).
      { rewrite <- (firstn_skipn (Z.to_nat BATCH_SIZE)
                      (skipn (Z.to_nat offset) (cme_chunks db))) at 1.
        unfold fetch_cme_chunks in Hbatch. rewrite Hbatch, skipn_skipn.
        do 2 f_equal. unfold BATCH_SIZE. lia. }
      exists db',
        (map (fun re => stored_row str_of_float (fst re) (snd re))
             (combine (c :: batch) embs) ++ added).
      split; [|split; [congruence|split; [|split]]].
      * rewrite E. do 3 f_equal. rewrite Hsplit, length_app. lia.
      * rewrite S', S. now rewrite app_assoc.
      * rewrite map_app, P, Hsplit, map_app. f_equal.
        rewrite (stored_parts db).
        -- rewrite <- (map_map fst expected_part).
           now rewrite map_fst_combine.
        -- intros x Hx. apply (fetch_In db BATCH_SIZE offset). now rewrite Hbatch.
      * apply Forall_app. split; [|exact M].
        apply Forall_forall. intros e He.
        apply in_map_iff in He. destruct He as (re & <- & _). reflexivity.
  - apply Z.ltb_ge in Hlt.
    rewrite skipn_all2 by lia.
    exists db, []. simpl. rewrite app_nil_r, Z.add_0_r. auto.
Qed.

(** X22.  With an embeddings client that returns one embedding per text,
    the script ends normally having added exactly one row per CME chunk, in
    id order, carrying the chunk's id, source id and text and the model
    name; the printed counter is the number of CME chunks. *)
Theorem regenerate_covers_every_chunk client db :
  (forall texts, exists embs,
      client texts = Some embs /\ List.length embs = List.length texts) ->
  exists db' added,
    regenerate_all_embeddings str_of_float client db
    = Some (db', Completed (Z.of_nat (List.length (cme_chunks db))))
    /\ embedding_store db'
       = filter (fun e => negb (is_cme_event (es_source_type e))) (embedding_store db)
         ++ added
    /\ map chunk_part added = map expected_part (cme_chunks db)
    /\ Forall (fun e => es_embedding_model e = EMBEDDING_MODEL) added
    /\ Permutation (cme_chunks db)
                   (filter (fun r => is_cme_event (kc_source_type r)) (knowledge_chunk db))
    /\ StronglySorted (fun a b => kc_id a <= kc_id b) (cme_chunks db).
Proof.
  intros Hclient. unfold regenerate_all_embeddings.
  assert (Hlen : List.length
                   (filter (fun r => is_cme_event (kc_source_type r)) (knowledge_chunk db))
                 = List.length (cme_chunks db)).
  { unfold cme_chunks. now rewrite order_by_id_length. }
  rewrite Hlen.
  destruct (embed_loop_all client (Z.of_nat (List.length (cme_chunks db)))
              (S (Z.to_nat (Z.of_nat (List.length (cme_chunks db))))) Hclient
              (delete_old_embeddings db) 0 0)
    as (db' & added & E & K & S & P & M); try reflexivity; try lia.
  exists db', added. simpl in E, P.
  split; [exact E|]. split; [exact S|]. split; [exact P|].
  split; [exact M|]. split; [apply order_by_id_perm | apply cme_chunks_sorted].
Qed.

End ReembedProperties.

Section ReembedWitness.
Import Order Reembed.

Lemma regenerate_covers_every_chunk_witness :
  exists db' added,
    regenerate_all_embeddings sample_str sample_client sample_db
    = Some (db', Completed (Z.of_nat (List.length (cme_chunks sample_db))))
    /\ embedding_store db'
       = filter (fun e => negb (is_cme_event (es_source_type e)))
                (embedding_store sample_db)
         ++ added
    /\ map chunk_part added = map expected_part (cme_chunks sample_db)
    /\ Forall (fun e => es_embedding_model e = EMBEDDING_MODEL) added
    /\ Permutation (cme_chunks sample_db)
                   (filter (fun r => is_cme_event (kc_source_type r))
                           (knowledge_chunk sample_db))
    /\ StronglySorted (fun a b => kc_id a <= kc_id b) (cme_chunks sample_db).
Proof.
  apply (regenerate_covers_every_chunk sample_str sample_client sample_db).
  intros texts. eexists. split; [reflexivity | apply length_map].
Defined.

End ReembedWitness.

(* ------------------------------------------------------------------------- *)
(** ** The search route *)
(* ------------------------------------------------------------------------- *)

Section SearchCmeProperties.
Import SearchCme.







End SearchCmeProperties.
